(** * poetry2rye: the conversion routine of [convert.py]

    A shallow embedding of [src/poetry2rye/convert.py] and the properties
    of it that the specification states.

    Definitions come first:
    - [PyStr], [Dict], [Toml] : the [str], [dict] and tomlkit operations
      the code calls;
    - [build_sections], [build_result], [convert_document] : the part of
      [convert] that builds the new document;
    - [Os] : the file system, the console and the calls made on them;
    - [convert] : the whole routine, with its effects in source order.
    The properties follow, one section per part. *)

From Stdlib Require Import String Ascii List Bool Arith ZArith Lia Permutation.
From Stdlib Require Import DecimalString.
Import ListNotations.

Set Implicit Arguments.
Set Warnings "-register-all".
Open Scope list_scope.
Open Scope string_scope.

(** ** Python [str] *)

(** A [str] is a [string]: one [ascii] per character. *)
Module PyStr.

Definition space : ascii := " "%char.

(** [c in s] for a single character. *)
Fixpoint has_char (c : ascii) (s : string) : bool :=
  match s with
  | EmptyString => false
  | String d r => Ascii.eqb d c || has_char c r
  end.

(** The split of [s] at the last occurrence of [sep], if any. *)
Fixpoint rsplit_at (sep : ascii) (s : string) : option (string * string) :=
  match s with
  | EmptyString => None
  | String c r =>
      match rsplit_at sep r with
      | Some (a, b) => Some (String c a, b)
      | None => if Ascii.eqb c sep then Some (EmptyString, r) else None
      end
  end.

(** [s.rpartition(sep)] with a one-character separator: the text before
    the last [sep], the separator, the text after it; when [sep] does not
    occur, two empty strings and [s]. *)
Definition rpartition (s : string) (sep : ascii) : string * string * string :=
  match rsplit_at sep s with
  | Some (a, b) => (a, String sep EmptyString, b)
  | None => (EmptyString, EmptyString, s)
  end.

Definition tail (s : string) : string :=
  match s with
  | EmptyString => EmptyString
  | String _ r => r
  end.

Fixpoint init (s : string) : string :=
  match s with
  | EmptyString => EmptyString
  | String c EmptyString => EmptyString
  | String c r => String c (init r)
  end.

(** [s[1:-1]] *)
Definition slice_1_m1 (s : string) : string := init (tail s).

(** [s.startswith(p)] *)
Fixpoint startswith (p s : string) : bool :=
  match p, s with
  | EmptyString, _ => true
  | String a p', String b s' => Ascii.eqb a b && startswith p' s'
  | String _ _, EmptyString => false
  end.

(** [needle in hay] *)
Fixpoint contains (needle hay : string) : bool :=
  startswith needle hay ||
  match hay with
  | EmptyString => false
  | String _ r => contains needle r
  end.

(** The characters [str.strip()] removes, among the 128 ASCII ones:
    tab, line feed, vertical tab, form feed, carriage return, the four
    separators 0x1c to 0x1f, and the space. *)
Definition isspace (c : ascii) : bool :=
  let n := nat_of_ascii c in
  (Nat.leb 9 n && Nat.leb n 13) || (Nat.leb 28 n && Nat.leb n 32).

Fixpoint lstrip (s : string) : string :=
  match s with
  | EmptyString => EmptyString
  | String c r => if isspace c then lstrip r else s
  end.

Fixpoint rstrip (s : string) : string :=
  match s with
  | EmptyString => EmptyString
  | String c r =>
      match rstrip r with
      | EmptyString => if isspace c then EmptyString else String c EmptyString
      | r' => String c r'
      end
  end.

(** [s.strip()] *)
Definition strip (s : string) : string := rstrip (lstrip s).

(** [str(n)] for a non-negative [int]. *)
Definition of_nat (n : nat) : string := NilEmpty.string_of_uint (Nat.to_uint n).

Definition LF : ascii := ascii_of_nat 10.
Definition CR : ascii := ascii_of_nat 13.

(** Reading a file opened in text mode with the default [newline=None]
    turns every "\r\n" and every lone "\r" into "\n". *)
Fixpoint universal_newlines (s : string) : string :=
  match s with
  | EmptyString => EmptyString
  | String c r =>
      if Ascii.eqb c CR then
        match r with
        | String d r' =>
            if Ascii.eqb d LF then String LF (universal_newlines r')
            else String LF (universal_newlines r)
        | EmptyString => String LF EmptyString
        end
      else String c (universal_newlines r)
  end.

(** [f.readlines()] on translated text: the lines, each with its "\n",
    the last one without when the text does not end in "\n".  [cur] is
    the part of the current line read so far. *)
Fixpoint readlines_from (cur : string) (s : string) : list string :=
  match s with
  | EmptyString =>
      match cur with
      | EmptyString => []
      | _ => [cur]
      end
  | String c r =>
      if Ascii.eqb c LF then (cur ++ String LF EmptyString) :: readlines_from EmptyString r
      else readlines_from (cur ++ String c EmptyString) r
  end.

Definition readlines (s : string) : list string := readlines_from EmptyString s.

End PyStr.

(** ** [read_name_email] *)

(** [read_name_email] returns a [dict[str, str]] with the keys "name" and
    "email", in that order. *)
Definition read_name_email (s : string) : list (string * string) :=
  let '(name, _, email) := PyStr.rpartition s PyStr.space in
  [("name", name); ("email", PyStr.slice_1_m1 email)].


(** ** Outcomes of a call *)

(** The exceptions the code can raise.  [KeyError] stands also for tomlkit's
    [NonExistentKey], its subclass; [ShutilError] for [shutil.Error]. *)
Inductive exn : Type :=
| KeyError (k : string)
| KeyAlreadyPresent (k : string)
| TypeError
| AttributeError
| AssertionError
| FileNotFoundError
| FileExistsError
| IsADirectoryError
| NotADirectoryError
| ShutilError.

(** A call returns, raises, or meets a case on which this development
    does not say what Python does ([Unsupported]): a value of a type the
    pyproject schema does not allow at that place and that Python's duck
    typing would still process, or a state of the file system that the
    model of a call leaves out. *)
Inductive res (A : Type) : Type :=
| Ok (a : A)
| Raise (e : exn)
| Unsupported.

Arguments Ok {A} a.
Arguments Raise {A} e.
Arguments Unsupported {A}.

Definition bind {A B : Type} (r : res A) (k : A -> res B) : res B :=
  match r with
  | Ok a => k a
  | Raise e => Raise e
  | Unsupported => Unsupported
  end.

Declare Scope res_scope.
Delimit Scope res_scope with res.
Notation "x <- c ;; k" := (bind c (fun x => k))
  (at level 61, c at next level, right associativity) : res_scope.
Notation "' pat <- c ;; k" := (bind c (fun x => match x with pat => k end))
  (at level 61, pat pattern, c at next level, right associativity) : res_scope.

(** A [for] loop whose body may raise: the state after the last iteration,
    or the first exception. *)
Fixpoint for_ {A S : Type} (xs : list A) (body : A -> S -> res S) (s : S) : res S :=
  match xs with
  | [] => Ok s
  | x :: r => bind (body x s) (for_ r body)
  end.

(** ** Python [dict] and tomlkit containers *)

(** A [dict] keeps its keys in insertion order; an association list with
    the operations below keeps at most one entry per key.  The body of a
    tomlkit table is such a list too; there [Toml.table_add] can put a
    second entry under a key, and a lookup then finds the first one. *)
Module Dict.

Section Ops.
Variable V : Type.

Definition t := list (string * V).

(** [d.get(k)] *)
Fixpoint get (k : string) (d : t) : option V :=
  match d with
  | [] => None
  | (k', v) :: r => if String.eqb k' k then Some v else get k r
  end.

(** [k in d] *)
Definition mem (k : string) (d : t) : bool :=
  match get k d with
  | Some _ => true
  | None => false
  end.

(** [d[k] = v]: the value is replaced where the key stands, a new key goes
    to the end. *)
Fixpoint set (k : string) (v : V) (d : t) : t :=
  match d with
  | [] => [(k, v)]
  | (k', v') :: r => if String.eqb k' k then (k, v) :: r else (k', v') :: set k v r
  end.

(** [d[k]] *)
Definition getitem (d : t) (k : string) : res V :=
  match get k d with
  | Some v => Ok v
  | None => Raise (KeyError k)
  end.

(** [d.setdefault(k, v)], for its effect on [d]. *)
Definition setdefault (k : string) (v : V) (d : t) : t :=
  if mem k d then d else set k v d.

Definition keys (d : t) : list string := map fst d.

End Ops.

End Dict.

Module Toml.

(** The items of a TOML document that the code tells apart; floats, dates
    and times are left out.  An array keeps its layout: the values and,
    between them, the whitespace that [add_line] writes (the commas are
    left out).  A table is of one of two kinds.  [SuperTable_] is a table
    of the parsed file that exists only through its children, as [a]
    does in a file that has [[a.b]] and no [[a]]: tomlkit's parser marks
    it as a super table.  [Table_] is any other table: one with a header
    of its own, [[a]], or one that [convert] makes.  The two kinds behave
    alike as dicts.  Only [table_add] tells them apart, by
    [is_super_table()], and [convert] calls it only for the entries of
    the parsed file and for its own "rye" table, which holds values that
    are not tables and so is no super table.  Arrays of tables and a
    table whose parts are apart in the parsed file are not items of the
    model. *)
Inductive Item : Type :=
| String_ (s : string)
| Bool_ (b : bool)
| Integer_ (n : Z)
| Array_ (body : list ArrayElem)
| Table_ (body : list (string * Item))
| SuperTable_ (body : list (string * Item))
with ArrayElem : Type :=
| Value_ (v : Item)
| Whitespace_ (s : string).

Definition Table := Dict.t Item.
Definition Document := Dict.t Item.

(** The values of an array, what iterating over it and [len] see. *)
Fixpoint values (body : list ArrayElem) : list Item :=
  match body with
  | [] => []
  | Value_ v :: r => v :: values r
  | Whitespace_ _ :: r => values r
  end.

(** Python's truth value of an item. *)
Definition truthy (it : Item) : bool :=
  match it with
  | String_ s => negb (String.eqb s "")
  | Bool_ b => b
  | Integer_ n => negb (Z.eqb n 0)
  | Array_ body => match values body with [] => false | _ => true end
  | Table_ body | SuperTable_ body => match body with [] => false | _ => true end
  end.

(** [if d.get(k):] *)
Definition get_truthy (k : string) (d : Table) : option Item :=
  match Dict.get k d with
  | Some v => if truthy v then Some v else None
  | None => None
  end.

Definition newline : string := String PyStr.LF EmptyString.

(** [a.add_line(x)] with the default [indent="    "]: a line break, the
    indentation, the value. *)
Definition add_line (x : Item) (body : list ArrayElem) : list ArrayElem :=
  (body ++ [Whitespace_ (newline ++ "    "); Value_ x])%list.

(** [a.add_line(indent="")]: a line break and nothing else. *)
Definition add_blank_line (body : list ArrayElem) : list ArrayElem :=
  (body ++ [Whitespace_ newline])%list.

(** [a.append(x)] *)
Definition append (x : Item) (body : list ArrayElem) : list ArrayElem :=
  (body ++ [Value_ x])%list.

(** An array made from a Python list, as [item(list)] and [extend] do. *)
Definition of_list (xs : list Item) : Item := Array_ (map Value_ xs).

(** The table of the same kind with another body: an assignment to a key
    of a table does not change its kind. *)
Definition with_body (it : Item) (body : Table) : Item :=
  match it with
  | SuperTable_ _ => SuperTable_ body
  | _ => Table_ body
  end.

(** The entry that tomlkit's [append] compares a new item with: the last
    one under the key. *)
Definition current (k : string) (t : Table) : option Item := Dict.get k (rev t).

(** [t.add(k, v)] on a table made by [tomlkit.table()], that is
    [Container.append].  A new key is appended.  When the key is there,
    tomlkit raises [KeyAlreadyPresent], with one exception among the
    items of the model: a table that exists only through its children
    is appended after a table with a header, so that both stay in the
    body ([[t.k]] and later [[t.k.child]] in the file written; a read
    of [t[k]] shows them as one table with the children of both).  What
    tomlkit does when the entry under the key is itself a table without
    a header (it merges the two, or appends) is left [Unsupported]; the
    keys of a dict are distinct and [convert] starts from its own
    [tool.rye] table, so it never comes to this.  Where in the body
    tomlkit puts a value that is not a table is not modelled: a new entry
    goes to the end. *)
Definition table_add (k : string) (v : Item) (t : Table) : res Table :=
  match current k t with
  | None => Ok (t ++ [(k, v)])%list
  | Some (SuperTable_ _) =>
      match v with
      | Table_ _ | SuperTable_ _ => Unsupported
      | _ => Raise (KeyAlreadyPresent k)
      end
  | Some (Table_ _) =>
      match v with
      | SuperTable_ _ => Ok (t ++ [(k, v)])%list
      | _ => Raise (KeyAlreadyPresent k)
      end
  | Some _ => Raise (KeyAlreadyPresent k)
  end.

(** The entries of a body under other keys than [k]. *)
Definition without (k : string) (t : Table) : Table :=
  filter (fun kv => negb (String.eqb (fst kv) k)) t.

(** [t.pop(k)], for its effect on [t]: every entry under [k] goes. *)
Definition table_pop (k : string) (t : Table) : res Table :=
  if Dict.mem k t then Ok (without k t) else Raise (KeyError k).

(** [for x in it]: the values of an array.  An [int] or a [bool] is not
    iterable; iterating a string or a table gives characters or keys. *)
Definition iter_items (it : Item) : res (list Item) :=
  match it with
  | Array_ body => Ok (values body)
  | Integer_ _ | Bool_ _ => Raise TypeError
  | String_ _ | Table_ _ | SuperTable_ _ => Unsupported
  end.

(** [it.items()]: only a table has the method. *)
Definition items (it : Item) : res (list (string * Item)) :=
  match it with
  | Table_ body | SuperTable_ body => Ok body
  | _ => Raise AttributeError
  end.

(** [it[k]] with a string key [k] needs a table. *)
Definition subscript (it : Item) : res Table :=
  match it with
  | Table_ body | SuperTable_ body => Ok body
  | _ => Raise TypeError
  end.

(** [x == s] for an item [x] and a [str] [s]. *)
Definition eq_str (s : string) (x : Item) : bool :=
  match x with
  | String_ s' => String.eqb s' s
  | _ => false
  end.

(** [s in x]: a substring of a string, a value of an array, a key of a
    table; a [TypeError] on an [int] or a [bool]. *)
Definition str_in (s : string) (x : Item) : res bool :=
  match x with
  | String_ h => Ok (PyStr.contains s h)
  | Array_ body => Ok (existsb (eq_str s) (values body))
  | Table_ body | SuperTable_ body => Ok (Dict.mem s body)
  | Integer_ _ | Bool_ _ => Raise TypeError
  end.

End Toml.

(** ** The project model *)

Import Toml.

Section Conversion.

(** [poetry.core]'s constraint type and [format_python_constraint] are
    external to the repository. *)
Variable VersionConstraint : Type.
Variable format_python_constraint : VersionConstraint -> string.

(** Modelled from the spec: [project.py], which defines the dependency
    classes, is absent.  [convert] sees a dependency through
    [is_python_dep()], [isinstance(dep, BasicDependency)], [version],
    [is_dev] and [to_str()]; a record holds what each of them returns. *)
Record Dependency : Type := {
  is_python_dep : bool;
  is_basic : bool;
  version : VersionConstraint;
  is_dev : bool;
  to_str : string
}.

(** Modelled from the spec: [PoetryProject] is defined in the absent
    [project.py].  [convert] reads its [project_name], the [tool.poetry]
    table [poetry], [dependencies], [module_name] and [module_path]. *)
Record PoetryProject : Type := {
  project_name : string;
  poetry : Table;
  dependencies : list Dependency;
  module_name : string;
  module_path : list string  (* a path, components from the root *)
}.

(** ** [_convert_scripts] *)

Definition convert_scripts_step (entry : string * Item) (rye_scripts : Table) : Table :=
  let '(script_name, script_value) := entry in
  match script_value with
  | String_ _ => Dict.set script_name script_value rye_scripts
  | Table_ body | SuperTable_ body =>
      Dict.set script_name
        (match Dict.get "callable" body with
         | Some v => v
         | None => String_ ""
         end)
        rye_scripts
  | _ => rye_scripts
  end.

Definition _convert_scripts (poetry_scripts : Table) : Table :=
  fold_left (fun acc entry => convert_scripts_step entry acc) poetry_scripts [].

(** ** [convert]: the sections built from the project *)

Local Open Scope res_scope.

(** [list(map(read_name_email, xs))] with the dicts turned into tables. *)
Fixpoint map_read_name_email (xs : list Item) : res (list Item) :=
  match xs with
  | [] => Ok []
  | String_ s :: r =>
      rest <- map_read_name_email r ;;
      Ok (Table_ (map (fun kv => (fst kv, String_ (snd kv))) (read_name_email s)) :: rest)
  | _ :: _ => Raise AttributeError
  end.

(** The two dicts the dependency loop writes to. *)
Record Sections : Type := {
  project_sec : Table;
  tool_rye_sec : Table
}.

(** [d[k].add_line(x)]: the array under [k] is changed in place. *)
Definition add_line_at (k : string) (x : Item) (d : Table) : res Table :=
  v <- Dict.getitem d k ;;
  match v with
  | Array_ body => Ok (Dict.set k (Array_ (add_line x body)) d)
  | _ => Raise AttributeError
  end.

Definition add_blank_line_at (k : string) (d : Table) : res Table :=
  v <- Dict.getitem d k ;;
  match v with
  | Array_ body => Ok (Dict.set k (Array_ (add_blank_line body)) d)
  | _ => Raise AttributeError
  end.

(** The body of [for dep in poetry_project.dependencies]. *)
Definition dependency_step (dep : Dependency) (s : Sections) : res Sections :=
  if is_python_dep dep then
    if is_basic dep then
      Ok {| project_sec :=
              Dict.set "requires-python"
                (String_ (format_python_constraint (version dep))) (project_sec s);
            tool_rye_sec := tool_rye_sec s |}
    else Raise AssertionError
  else if is_dev dep then
    rye <- add_line_at "dev-dependencies" (String_ (to_str dep))
             (Dict.setdefault "dev-dependencies" (Array_ []) (tool_rye_sec s)) ;;
    Ok {| project_sec := project_sec s; tool_rye_sec := rye |}
  else
    prj <- add_line_at "dependencies" (String_ (to_str dep)) (project_sec s) ;;
    Ok {| project_sec := prj; tool_rye_sec := tool_rye_sec s |}.

(** The statements that set the trailing blank lines after the loop. *)
Definition close_arrays (s : Sections) : res Sections :=
  rye <- (if Dict.mem "dev-dependencies" (tool_rye_sec s)
          then add_blank_line_at "dev-dependencies" (tool_rye_sec s)
          else Ok (tool_rye_sec s)) ;;
  prj <- add_blank_line_at "dependencies" (project_sec s) ;;
  Ok {| project_sec := prj; tool_rye_sec := rye |}.

(** [if poetry.get(k): d[k'] = poetry[k]] *)
Definition copy_if_truthy (src : Table) (k k' : string) (d : Table) : Table :=
  match get_truthy k src with
  | Some v => Dict.set k' v d
  | None => d
  end.

(** [xs = list(map(read_name_email, src)); if xs: d[k] = array of xs] *)
Definition set_people (k : string) (src : list Item) (d : Table) : res Table :=
  people <- map_read_name_email src ;;
  match people with
  | [] => Ok d
  | _ => Ok (Dict.set k (of_list people) d)
  end.

(** [convert] from its first statement to the one before the metadata file
    is opened: [project_sec], [urls_sec] and [tool_rye_sec]. *)
Definition build_sections (poetry_project : PoetryProject) (virtual_project : bool)
  : res (Sections * Table) :=
  let p := poetry poetry_project in
  let tool_rye : Table := [("managed", Bool_ true); ("virtual", Bool_ virtual_project)] in
  let prj : Table := Dict.set "name" (String_ (project_name poetry_project)) [] in
  v <- Dict.getitem p "version" ;;
  let prj := Dict.set "version" v prj in
  v <- Dict.getitem p "description" ;;
  let prj := Dict.set "description" v prj in
  a <- Dict.getitem p "authors" ;;
  authors <- iter_items a ;;
  prj <- set_people "authors" authors prj ;;
  maintainers <- match Dict.get "maintainers" p with
                 | Some m => iter_items m
                 | None => Ok []
                 end ;;
  prj <- set_people "maintainers" maintainers prj ;;
  let prj := copy_if_truthy p "readme" "readme" prj in
  let urls := copy_if_truthy p "homepage" "Homepage" [] in
  let urls := copy_if_truthy p "repository" "Repository" urls in
  let urls := copy_if_truthy p "documentation" "Documentation" urls in
  let prj := copy_if_truthy p "keywords" "keywords" prj in
  let prj := copy_if_truthy p "classifiers" "classifiers" prj in
  let prj := Dict.set "dependencies" (Array_ []) prj in
  s <- for_ (dependencies poetry_project) dependency_step
         {| project_sec := prj; tool_rye_sec := tool_rye |} ;;
  s <- close_arrays s ;;
  prj <- match get_truthy "scripts" p with
         | Some sc =>
             entries <- items sc ;;
             Ok (Dict.set "scripts" (Table_ (_convert_scripts entries)) (project_sec s))
         | None => Ok (project_sec s)
         end ;;
  Ok ({| project_sec := prj; tool_rye_sec := tool_rye_sec s |}, urls).

(** ** [convert]: the result document *)

(** [filterfalse(lambda x: "poetry-core" in x, xs)], forced by [list]. *)
Fixpoint filterfalse_poetry_core (xs : list Item) : res (list Item) :=
  match xs with
  | [] => Ok []
  | x :: r =>
      b <- str_in "poetry-core" x ;;
      rest <- filterfalse_poetry_core r ;;
      Ok (if b then rest else x :: rest)
  end.

(** The branch [name == "build-system"] when the project is not virtual. *)
Definition rewrite_build_system (pyproject result : Document) : res Document :=
  bs <- Dict.getitem pyproject "build-system" ;;
  t <- subscript bs ;;
  req <- Dict.getitem t "requires" ;;
  xs <- iter_items req ;;
  kept <- filterfalse_poetry_core xs ;;
  let t := Dict.set "requires" (of_list kept) t in
  let t := Dict.set "requires" (Array_ (append (String_ "hatchling") (map Value_ kept))) t in
  let t := Dict.set "build-backend" (String_ "hatchling.build") t in
  Ok (Dict.set "build-system" (with_body bs t) result).

(** The state of the loop over the top-level keys: [result] and
    [tool_table], which the loop fills and which persists across the
    iterations. *)
Record Merge : Type := {
  result : Document;
  tool_table : Table
}.

(** The branch [name == "tool"]. *)
Definition merge_tool (pyproject : Document) (m : Merge) : res Merge :=
  tool <- Dict.getitem pyproject "tool" ;;
  entries <- items tool ;;
  t <- for_ entries (fun kv t => table_add (fst kv) (snd kv) t) (tool_table m) ;;
  t <- table_pop "poetry" t ;;
  Ok {| result := Dict.set "tool" (Table_ t) (result m); tool_table := t |}.

(** The body of [for name in pyproject.keys()]. *)
Definition merge_step (pyproject : Document) (virtual_project : bool)
    (name : string) (m : Merge) : res Merge :=
  if String.eqb name "project" then Ok m
  else if String.eqb name "tool" then merge_tool pyproject m
  else if String.eqb name "build-system" then
    if negb virtual_project then
      r <- rewrite_build_system pyproject (result m) ;;
      Ok {| result := r; tool_table := tool_table m |}
    else Ok m
  else
    v <- Dict.getitem pyproject name ;;
    Ok {| result := Dict.set name v (result m); tool_table := tool_table m |}.

(** One entry of [poetry["packages"]] in the list comprehension: its
    "include" value when it has the key. *)
Definition package_include (item : Item) : res (option Item) :=
  b <- str_in "include" item ;;
  if b then
    t <- subscript item ;;
    v <- Dict.getitem t "include" ;;
    Ok (Some v)
  else Ok None.

Fixpoint package_includes (xs : list Item) : res (list Item) :=
  match xs with
  | [] => Ok []
  | x :: r =>
      o <- package_include x ;;
      rest <- package_includes r ;;
      Ok (match o with Some v => v :: rest | None => rest end)
  end.

(** The [packages] list of the wheel target. *)
Definition wheel_packages (poetry_project : PoetryProject) (ensure_src : bool)
  : res (list Item) :=
  if ensure_src then Ok [String_ ("src/" ++ module_name poetry_project)]
  else
    match Dict.get "packages" (poetry poetry_project) with
    | Some ps => xs <- iter_items ps ;; package_includes xs
    | None => Ok []
    end.

(** [result["tool"]["hatch"] = {...}] and
    [result["tool"]["hatch"]["build"] = {...}]. *)
Definition set_hatch (packages : list Item) (doc : Document) : res Document :=
  tool <- Dict.getitem doc "tool" ;;
  t <- subscript tool ;;
  let hatch : Table :=
    [("metadata", Table_ [("allow-direct-references", Bool_ true)]);
     ("build", Table_ [("targets", Table_ [("wheel", Table_ [("packages", of_list packages)])])])] in
  Ok (Dict.set "tool" (with_body tool (Dict.set "hatch" (Table_ hatch) t)) doc).

(** [convert] from [result = tomlkit.document()] to the statement before
    the backup. *)
Definition build_result (poetry_project : PoetryProject) (s : Sections) (urls_sec : Table)
    (pyproject : Document) (ensure_src virtual_project : bool) : res Document :=
  let doc : Document := Dict.set "project" (Table_ (project_sec s)) [] in
  let doc : Document :=
    match urls_sec with
    | [] => doc
    | _ => Dict.set "project.urls" (Table_ urls_sec) doc
    end in
  t <- table_add "rye" (Table_ (tool_rye_sec s)) [] ;;
  m <- for_ (Dict.keys pyproject) (merge_step pyproject virtual_project)
         {| result := doc; tool_table := t |} ;;
  if negb virtual_project then
    packages <- wheel_packages poetry_project ensure_src ;;
    set_hatch packages (result m)
  else Ok (result m).

(** The document [convert] writes, from the project and the document that
    [tomlkit.load] returns. *)
Definition convert_document (poetry_project : PoetryProject) (pyproject : Document)
    (ensure_src virtual_project : bool) : res Document :=
  '(s, urls_sec) <- build_sections poetry_project virtual_project ;;
  build_result poetry_project s urls_sec pyproject ensure_src virtual_project.

End Conversion.

(** ** The file system and the console *)

Module Os.

(** A path is the list of its components from the root: [["home"; "me"]]
    is [/home/me]. *)
Definition Path := list string.

Fixpoint path_eqb (p q : Path) : bool :=
  match p, q with
  | [], [] => true
  | x :: p', y :: q' => String.eqb x y && path_eqb p' q'
  | _, _ => false
  end.

(** [p / name] *)
Definition child (p : Path) (name : string) : Path := (p ++ [name])%list.

(** [p.parent] *)
Definition parent (p : Path) : Path := removelast p.

(** [os.path.basename(p)] *)
Definition basename (p : Path) : string := last p "".

(** [d] is [p] or an ancestor of [p]. *)
Fixpoint is_prefix (d p : Path) : bool :=
  match d, p with
  | [], _ => true
  | x :: d', y :: p' => String.eqb x y && is_prefix d' p'
  | _ :: _, [] => false
  end.

(** [p] relative to [d], when [d] is [p] or an ancestor of it. *)
Fixpoint strip_prefix (d p : Path) : option Path :=
  match d, p with
  | [], _ => Some p
  | x :: d', y :: p' => if String.eqb x y then strip_prefix d' p' else None
  | _ :: _, [] => None
  end.

(** The proper ancestors of [p], the root first. *)
Fixpoint ancestors (p : Path) : list Path :=
  match p with
  | [] => []
  | x :: r => [] :: map (cons x) (ancestors r)
  end.

(** [str(p)] *)
Definition path_str (p : Path) : string :=
  match p with
  | [] => "/"
  | _ => String.concat "" (map (fun x => "/" ++ x) p)
  end.

(** A file with its text or a directory.  Symbolic links are not nodes
    of the model; permissions, encodings and devices are not modelled
    either. *)
Inductive Node : Type :=
| File (content : string)
| Dir.

Definition FS := Path -> option Node.

Definition update (fs : FS) (p : Path) (n : option Node) : FS :=
  fun q => if path_eqb q p then n else fs q.

(** [p.exists()] *)
Definition exists_ (fs : FS) (p : Path) : bool :=
  match fs p with
  | Some _ => true
  | None => false
  end.

(** [open(p).read()] in text mode. *)
Definition read_text (p : Path) (fs : FS) : res string :=
  match fs p with
  | Some (File c) => Ok (PyStr.universal_newlines c)
  | Some Dir => Raise IsADirectoryError
  | None => Raise FileNotFoundError
  end.

(** What creating an entry at [p] needs of the directory above it. *)
Definition check_parent (p : Path) (fs : FS) : res unit :=
  match fs (parent p) with
  | Some Dir => Ok tt
  | Some (File _) => Raise NotADirectoryError
  | None => Raise FileNotFoundError
  end.

(** [open(p, "w").write(text)] *)
Definition write_text (p : Path) (text : string) (fs : FS) : res FS :=
  match fs p with
  | Some Dir => Raise IsADirectoryError
  | Some (File _) => Ok (update fs p (Some (File text)))
  | None => bind (check_parent p fs) (fun _ => Ok (update fs p (Some (File text))))
  end.

(** [os.remove(p)] *)
Definition remove (p : Path) (fs : FS) : res FS :=
  match fs p with
  | Some (File _) => Ok (update fs p None)
  | Some Dir => Raise IsADirectoryError
  | None => Raise FileNotFoundError
  end.

(** [p.mkdir()] *)
Definition mkdir (p : Path) (fs : FS) : res FS :=
  match fs p with
  | Some _ => Raise FileExistsError
  | None => bind (check_parent p fs) (fun _ => Ok (update fs p (Some Dir)))
  end.

(** The tree at [src] becomes the tree at [dst], as [os.rename] does. *)
Definition rename_tree (src dst : Path) (fs : FS) : FS :=
  fun p =>
    match strip_prefix dst p with
    | Some r => fs (src ++ r)%list
    | None => if is_prefix src p then None else fs p
    end.

(** [shutil.move(src, dst)].  Moving onto an existing file, or to a place
    whose parent directory is missing, is left [Unsupported]. *)
Definition move (src dst : Path) (fs : FS) : res FS :=
  match fs src with
  | None => Raise FileNotFoundError
  | Some n =>
      if path_eqb src dst then Ok fs
      else if is_prefix src dst then
        match n with
        | Dir => Raise ShutilError
        | File _ => Raise NotADirectoryError
        end
      else
        match fs dst with
        | Some Dir =>
            let real_dst := child dst (basename src) in
            match fs real_dst with
            | Some _ => Raise ShutilError
            | None => Ok (rename_tree src real_dst fs)
            end
        | Some (File _) => Unsupported
        | None =>
            match fs (parent dst) with
            | Some Dir => Ok (rename_tree src dst fs)
            | _ => Unsupported
            end
        end
  end.

(** The tree at [src] is also at [dst]; the missing directories above
    [dst] are created, as [os.makedirs] does. *)
Definition copy_tree (src dst : Path) (fs : FS) : FS :=
  fun p =>
    match strip_prefix dst p with
    | Some r => fs (src ++ r)%list
    | None =>
        match fs p with
        | Some n => Some n
        | None => if is_prefix p dst then Some Dir else None
        end
    end.

Definition is_file (fs : FS) (p : Path) : bool :=
  match fs p with
  | Some (File _) => true
  | _ => false
  end.

(** [shutil.copytree(src, dst, dirs_exist_ok=..., symlinks=...)].  With no
    link among the nodes [symlinks] changes nothing here.  Copying into a
    directory that exists ([dirs_exist_ok=True]) merges the two trees,
    and copying a tree into itself recurses: both are left
    [Unsupported]. *)
Definition copytree (src dst : Path) (dirs_exist_ok symlinks : bool) (fs : FS) : res FS :=
  match fs src with
  | None => Raise FileNotFoundError
  | Some (File _) => Raise NotADirectoryError
  | Some Dir =>
      match fs dst with
      | Some (File _) => Raise FileExistsError
      | Some Dir => if dirs_exist_ok then Unsupported else Raise FileExistsError
      | None =>
          if is_prefix src dst || is_prefix dst src then Unsupported
          else if existsb (is_file fs) (ancestors dst) then Raise NotADirectoryError
          else Ok (copy_tree src dst fs)
      end
  end.

(** The calls [convert] makes, in the order it makes them. *)
Inductive Event : Type :=
| EvPoetryProject (project_path : Path) (ensure_src : bool)
| EvRead (p : Path)
| EvNextBackupPath (p : Path)
| EvCopytree (src dst : Path) (dirs_exist_ok symlinks : bool)
| EvPrint (line : string)
| EvWrite (p : Path) (text : string)
| EvExists (p : Path)
| EvRemove (p : Path)
| EvMkdir (p : Path)
| EvMove (src dst : Path).


Record World : Type := {
  fs : FS;
  trace : list Event
}.

(** A computation with effects: the outcome and the world it leaves, which
    after an exception is the world at the place of the exception. *)
Definition M (A : Type) : Type := World -> res A * World.

Definition ret {A : Type} (a : A) : M A := fun w => (Ok a, w).

Definition bindM {A B : Type} (m : M A) (k : A -> M B) : M B :=
  fun w =>
    match m w with
    | (Ok a, w') => k a w'
    | (Raise e, w') => (Raise e, w')
    | (Unsupported, w') => (Unsupported, w')
    end.

Definition lift {A : Type} (r : res A) : M A := fun w => (r, w).

Definition emit (e : Event) : M unit :=
  fun w => (Ok tt, {| fs := fs w; trace := (trace w ++ [e])%list |}).

Definition observe {A : Type} (f : FS -> res A) : M A := fun w => (f (fs w), w).

Definition change (f : FS -> res FS) : M unit :=
  fun w =>
    match f (fs w) with
    | Ok fs' => (Ok tt, {| fs := fs'; trace := trace w |})
    | Raise e => (Raise e, w)
    | Unsupported => (Unsupported, w)
    end.

Declare Scope io_scope.
Delimit Scope io_scope with io.
Notation "x <- c ;; k" := (bindM c (fun x => k))
  (at level 61, c at next level, right associativity) : io_scope.
Notation "c ;;; k" := (bindM c (fun _ => k))
  (at level 61, right associativity) : io_scope.

Local Open Scope io_scope.

Definition print (line : string) : M unit := emit (EvPrint line).

Definition open_read (p : Path) : M string :=
  emit (EvRead p) ;;; observe (read_text p).

Definition open_write (p : Path) (text : string) : M unit :=
  emit (EvWrite p text) ;;; change (write_text p text).

Definition path_exists (p : Path) : M bool :=
  emit (EvExists p) ;;; observe (fun fs => Ok (exists_ fs p)).

Definition os_remove (p : Path) : M unit :=
  emit (EvRemove p) ;;; change (remove p).

Definition path_mkdir (p : Path) : M unit :=
  emit (EvMkdir p) ;;; change (mkdir p).

Definition shutil_move (src dst : Path) : M unit :=
  emit (EvMove src dst) ;;; change (move src dst).

Definition shutil_copytree (src dst : Path) (dirs_exist_ok symlinks : bool) : M unit :=
  emit (EvCopytree src dst dirs_exist_ok symlinks) ;;;
  change (copytree src dst dirs_exist_ok symlinks).

End Os.

(** ** [convert] *)

Import Os.

Section Run.

Variable VersionConstraint : Type.
Variable format_python_constraint : VersionConstraint -> string.

(** Modelled from the spec: the constructor of [PoetryProject] is in the
    absent [project.py].  It reads the project directory and
    returns the project or raises. *)
Variable new_poetry_project : FS -> Path -> bool -> res (PoetryProject VersionConstraint).

(** Modelled from the spec: [get_next_backup_path] is in the absent
    [utils.py].  It looks for an unused sibling name and returns it. *)
Variable get_next_backup_path : FS -> Path -> Path.

(** [tomlkit.load] on the text of a file and [tomlkit.dumps]. *)
Variable tomlkit_load : string -> res Document.
Variable tomlkit_dumps : Document -> string.

Local Open Scope io_scope.

Definition pyproject_toml (project_path : Path) : Path := child project_path "pyproject.toml".

(** [convert] up to the statement before the backup: the project and the
    new document.  Nothing is written. *)
Definition prepare (project_path : Path) (ensure_src virtual_project : bool)
  : M (PoetryProject VersionConstraint * Document) :=
  emit (EvPoetryProject project_path ensure_src) ;;;
  poetry_project <- observe (fun fs => new_poetry_project fs project_path ensure_src) ;;
  sections <- lift (build_sections format_python_constraint poetry_project virtual_project) ;;
  text <- open_read (pyproject_toml project_path) ;;
  pyproject <- lift (tomlkit_load text) ;;
  doc <- lift (build_result poetry_project (fst sections) (snd sections) pyproject
                 ensure_src virtual_project) ;;
  ret (poetry_project, doc).

(** The backup: the three statements from [get_next_backup_path] to the
    [print]. *)
Definition backup (project_path : Path) : M Path :=
  emit (EvNextBackupPath project_path) ;;;
  project_backup <- observe (fun fs => Ok (get_next_backup_path fs project_path)) ;;
  shutil_copytree project_path project_backup true true ;;;
  print ("created backup: " ++ path_str project_backup) ;;;
  ret project_backup.

(** The line printed for line [num] of the file. *)
Definition warning (num : nat) (content : string) : string :=
  "Warning: found 'poetry' in line " ++ PyStr.of_nat num ++ ": " ++ PyStr.strip content.

(** [for num, content in enumerate(lines, start=num)] *)
Fixpoint warn_lines (num : nat) (lines : list string) : M unit :=
  match lines with
  | [] => ret tt
  | content :: rest =>
      (if PyStr.contains "poetry" content then print (warning num content) else ret tt) ;;;
      warn_lines (S num) rest
  end.

(** The sweep over the file just written. *)
Definition sweep (project_path : Path) : M unit :=
  text <- open_read (pyproject_toml project_path) ;;
  warn_lines 1 (PyStr.readlines text).

Definition remove_lock (project_path : Path) : M unit :=
  found <- path_exists (child project_path "poetry.lock") ;;
  if found then os_remove (child project_path "poetry.lock") else ret tt.

(** The body of the final [if ensure_src:]. *)
Definition move_to_src (poetry_project : PoetryProject VersionConstraint)
    (project_path : Path) : M unit :=
  found <- path_exists (child project_path "src") ;;
  if negb found then
    path_mkdir (child project_path "src") ;;;
    shutil_move (module_path poetry_project)
      (child (child project_path "src") (module_name poetry_project))
  else ret tt.

Definition convert (project_path : Path) (ensure_src virtual_project : bool) : M unit :=
  prepared <- prepare project_path ensure_src virtual_project ;;
  backup project_path ;;;
  open_write (pyproject_toml project_path) (tomlkit_dumps (snd prepared)) ;;;
  sweep project_path ;;;
  remove_lock project_path ;;;
  if ensure_src then move_to_src (fst prepared) project_path else ret tt.


End Run.

(** ** Computations that only read *)



(** ** The three kinds of dependency records *)

Section Records.

Context {VersionConstraint : Type}.

(** The records that are the interpreter constraint. *)
Definition interpreter_records (deps : list (Dependency VersionConstraint)) :=
  filter (fun d => is_python_dep d) deps.

(** The development records among the others. *)
Definition dev_records (deps : list (Dependency VersionConstraint)) :=
  filter (fun d => negb (is_python_dep d) && is_dev d) deps.

(** The remaining ones, the runtime records. *)
Definition runtime_records (deps : list (Dependency VersionConstraint)) :=
  filter (fun d => negb (is_python_dep d) && negb (is_dev d)) deps.

(** The layout of an array that holds one dependency per line. *)
Definition dependency_lines (deps : list (Dependency VersionConstraint)) : list ArrayElem :=
  flat_map (fun d => [Whitespace_ (newline ++ "    "); Value_ (String_ (to_str d))]) deps.

(** The "dev-dependencies" entry for the development records [l]: none
    when there is no record. *)
Definition dev_entry (l : list (Dependency VersionConstraint)) : option Item :=
  match l with
  | [] => None
  | _ => Some (Array_ (dependency_lines l))
  end.

(** The "requires-python" entry for the interpreter records [l]: the last
    one, formatted. *)
Definition python_entry (format_python_constraint : VersionConstraint -> string)
    (l : list (Dependency VersionConstraint)) : option Item :=
  match rev l with
  | [] => None
  | d :: _ => Some (String_ (format_python_constraint (version d)))
  end.

End Records.

(** An item of [requires] that the filter of the build-system branch
    drops: a string that contains "poetry-core" (a list or a table that
    holds it as a value or as a key, for other items). *)
Definition mentions_poetry_core (x : Item) : bool :=
  match str_in "poetry-core" x with
  | Ok b => b
  | _ => false
  end.


(** ** Sample inputs *)

(** A project with an interpreter constraint, two runtime dependencies and
    one development dependency; the constraint type is [string] and the
    formatter leaves it as it is. *)
Definition demo_dependencies : list (Dependency string) :=
  [ {| is_python_dep := true; is_basic := true; version := ">=3.9,<4.0";
       is_dev := false; to_str := "python>=3.9,<4.0" |};
    {| is_python_dep := false; is_basic := true; version := ">=2.31";
       is_dev := false; to_str := "requests>=2.31" |};
    {| is_python_dep := false; is_basic := true; version := ">=8.0";
       is_dev := true; to_str := "pytest>=8.0" |};
    {| is_python_dep := false; is_basic := true; version := ">=0.4";
       is_dev := false; to_str := "tomlkit>=0.4" |} ].

Definition demo_poetry : Table :=
  [("name", String_ "demo");
   ("version", String_ "0.1.0");
   ("description", String_ "A demo");
   ("authors", Array_ [Value_ (String_ "Jane Doe <jane@example.com>")]);
   ("scripts", Table_ [("cli", String_ "pkg.mod:main")])].

Definition demo_project : PoetryProject string :=
  {| project_name := "demo";
     poetry := demo_poetry;
     dependencies := demo_dependencies;
     module_name := "demo";
     module_path := ["work"; "demo"; "demo"] |}.

(** Its metadata file: the [tool.poetry] table, two other tool tables, a
    build-system table and a table of another tool. *)
Definition demo_pyproject : Document :=
  [("tool", Table_ [("poetry", Table_ demo_poetry);
                    ("black", Table_ [("line-length", Integer_ 88)]);
                    ("hatch", Table_ [("version", Table_ [("path", String_ "demo/__init__.py")])])]);
   ("build-system", Table_ [("requires", Array_ [Value_ (String_ "poetry-core>=1.0")]);
                            ("build-backend", String_ "poetry.core.masonry.api")]);
   ("mypy", Table_ [("strict", Bool_ true)])].

(** The same file with a table [[tool.rye.scripts]] and no [[tool]] and
    no [[tool.rye]] line: "tool" and "rye" exist only through their
    children. *)
Definition rye_pyproject : Document :=
  [("tool",
    SuperTable_
      [("poetry", Table_ demo_poetry);
       ("rye", SuperTable_ [("scripts", Table_ [("serve", String_ "demo.web:run")])])])].

Definition demo_format (v : string) : string := v.

(** The project directory [/work/demo] before the conversion: the
    metadata file, a lock file and the package [demo]. *)
Definition demo_path : Path := ["work"; "demo"].

Definition demo_fs : FS :=
  fun p =>
    if path_eqb p [] then Some Dir
    else if path_eqb p ["work"] then Some Dir
    else if path_eqb p ["work"; "demo"] then Some Dir
    else if path_eqb p ["work"; "demo"; "pyproject.toml"] then Some (File "[tool.poetry]")
    else if path_eqb p ["work"; "demo"; "poetry.lock"] then Some (File "")
    else if path_eqb p ["work"; "demo"; "demo"] then Some Dir
    else if path_eqb p ["work"; "demo"; "demo"; "__init__.py"] then Some (File "")
    else None.

Definition demo_world : World := {| fs := demo_fs; trace := [] |}.

(** The same directory with an empty [src] in it. *)
Definition demo_src_world : World :=
  {| fs := update demo_fs ["work"; "demo"; "src"] (Some Dir); trace := [] |}.

(** A metadata file as written: three lines, the second with spaces
    around it. *)
Definition demo_text : string :=
  "[project]" ++ newline ++ "  # was: poetry build  " ++ newline ++ "name = 'demo'" ++ newline.

(** Stand-ins for the external functions in a sample run: the project is
    [demo_project], the backup goes to [/work/demo.bak], the file parses
    to [demo_pyproject] and is written as [demo_text]. *)
Definition demo_new_project (_ : FS) (_ : Path) (_ : bool) : res (PoetryProject string) :=
  Ok demo_project.

Definition demo_backup_path (_ : FS) (p : Path) : Path :=
  child (parent p) (basename p ++ ".bak").

Definition demo_load (_ : string) : res Document := Ok demo_pyproject.

Definition demo_dumps (_ : Document) : string := demo_text.

(** A second sample: every optional item is set, one script is given as a
    table and one has a value that is neither a string nor a table, the
    package is declared in "packages", and there are two authors. *)
Definition full_poetry : Table :=
  [("name", String_ "full");
   ("version", String_ "1.2.3");
   ("description", String_ "Everything set");
   ("license", String_ "MIT");
   ("authors", Array_ [Value_ (String_ "Jane Doe <jane@example.com>");
                       Value_ (String_ "Li Wei <li@example.org>")]);
   ("maintainers", Array_ [Value_ (String_ "Ada Lovelace <ada@example.org>")]);
   ("readme", String_ "README.md");
   ("homepage", String_ "https://example.org");
   ("repository", String_ "");
   ("documentation", String_ "https://example.org/docs");
   ("keywords", Array_ [Value_ (String_ "packaging")]);
   ("classifiers", Array_ []);
   ("packages", Array_ [Value_ (Table_ [("include", String_ "full")]);
                        Value_ (Table_ [("from", String_ "lib")]);
                        Value_ (Table_ [("include", String_ "extras"); ("from", String_ "lib")])]);
   ("scripts", Table_ [("cli", String_ "full.cli:main");
                       ("serve", Table_ [("callable", String_ "full.web:run")]);
                       ("count", Integer_ 3);
                       ("bare", Table_ [("extras", Array_ [])])])].

Definition full_project : PoetryProject string :=
  {| project_name := "full";
     poetry := full_poetry;
     dependencies := demo_dependencies;
     module_name := "full";
     module_path := ["work"; "full"; "full"] |}.

Definition full_pyproject : Document :=
  [("tool", Table_ [("poetry", Table_ full_poetry)]);
   ("mypy", Table_ [("strict", Bool_ true)])].

(** * Properties *)

Unset Implicit Arguments.

(** ** Strings *)

Section PyStrFacts.

Import PyStr.

Lemma rsplit_at_absent (sep : ascii) (s : string) :
  has_char sep s = false -> rsplit_at sep s = None.
Proof.
  induction s as [|c r IH]; simpl; intros H; [reflexivity|].
  apply orb_false_iff in H as [Hc Hr].
  rewrite (IH Hr), Hc. reflexivity.
Qed.

Lemma rsplit_at_last (sep : ascii) (a b : string) :
  has_char sep b = false ->
  rsplit_at sep (a ++ String sep b) = Some (a, b).
Proof.
  intros Hb. induction a as [|c r IH]; simpl.
  - rewrite (rsplit_at_absent _ _ Hb), Ascii.eqb_refl. reflexivity.
  - rewrite IH. reflexivity.
Qed.

Lemma rsplit_at_none (sep : ascii) (s : string) :
  rsplit_at sep s = None -> has_char sep s = false.
Proof.
  induction s as [|c r IH]; simpl; [reflexivity|].
  destruct (rsplit_at sep r) as [[a b]|]; [discriminate|].
  destruct (Ascii.eqb c sep); [discriminate|].
  intros _. now rewrite IH.
Qed.

Lemma rsplit_at_some (sep : ascii) (s a b : string) :
  rsplit_at sep s = Some (a, b) ->
  s = a ++ String sep b /\ has_char sep b = false.
Proof.
  revert a b. induction s as [|c r IH]; simpl; intros a b H; [discriminate|].
  destruct (rsplit_at sep r) as [[a' b']|] eqn:E.
  - injection H as <- <-. destruct (IH _ _ eq_refl) as [-> Hb]. now split.
  - destruct (Ascii.eqb c sep) eqn:Ec; [|discriminate].
    injection H as <- <-. apply Ascii.eqb_eq in Ec as ->.
    split; [reflexivity | now apply rsplit_at_none].
Qed.

Lemma init_snoc (s : string) (c : ascii) : init (s ++ String c "") = s.
Proof.
  induction s as [|d r IH]; simpl; [reflexivity|].
  rewrite IH. destruct r; reflexivity.
Qed.

Lemma slice_1_m1_ends (c d : ascii) (m : string) :
  slice_1_m1 (String c (m ++ String d "")) = m.
Proof. unfold slice_1_m1; simpl. apply init_snoc. Qed.

Lemma slice_1_m1_short (s : string) : String.length s <= 1 -> slice_1_m1 s = "".
Proof.
  destruct s as [|c [|d r]]; simpl; intros H; try reflexivity; lia.
Qed.

Lemma has_char_app (c : ascii) (s t : string) :
  has_char c (s ++ t) = has_char c s || has_char c t.
Proof.
  induction s as [|d r IH]; simpl; [reflexivity|].
  rewrite IH. apply orb_assoc.
Qed.

Lemma rpartition_last (sep : ascii) (a b : string) :
  has_char sep b = false ->
  rpartition (a ++ String sep b) sep = (a, String sep "", b).
Proof. intros H. unfold rpartition. rewrite (rsplit_at_last _ _ _ H). reflexivity. Qed.

Lemma rpartition_absent (sep : ascii) (s : string) :
  has_char sep s = false -> rpartition s sep = ("", "", s).
Proof. intros H. unfold rpartition. rewrite (rsplit_at_absent _ _ H). reflexivity. Qed.

End PyStrFacts.

(** ** [read_name_email] *)

(** C4.  On an author string "Name <email>" whose email part holds no
    space, [read_name_email] splits at the last space and strips the
    angle brackets: it returns the name and the email.  In particular
    "Jane Doe <jane@example.com>" gives "Jane Doe" and
    "jane@example.com". *)
Theorem read_name_email_name_email (name email : string) :
  PyStr.has_char PyStr.space email = false ->
  read_name_email (name ++ " <" ++ email ++ ">") = [("name", name); ("email", email)]
  /\ read_name_email "Jane Doe <jane@example.com>"
     = [("name", "Jane Doe"); ("email", "jane@example.com")].
Proof.
  intros H. split; [|reflexivity].
  unfold read_name_email.
  change (name ++ " <" ++ email ++ ">")
    with (name ++ String PyStr.space ("<" ++ email ++ ">")).
  rewrite rpartition_last.
  - change ("<" ++ email ++ ">") with (String "<" (email ++ String ">" "")).
    rewrite slice_1_m1_ends. reflexivity.
  - simpl. rewrite has_char_app, H. reflexivity.
Qed.

Lemma read_name_email_name_email_witness :
  read_name_email ("Ada Lovelace" ++ " <" ++ "ada@example.org" ++ ">")
  = [("name", "Ada Lovelace"); ("email", "ada@example.org")]
  /\ read_name_email "Jane Doe <jane@example.com>"
     = [("name", "Jane Doe"); ("email", "jane@example.com")].
Proof. apply (read_name_email_name_email "Ada Lovelace" "ada@example.org"). reflexivity. Defined.

(** C9.  [read_name_email] is a total function on strings.  The name is
    the text before the last space, empty when there is no space; the
    email is the text after the last space (the whole string when there is
    none) without its first and its last character, whatever they are.  A
    bare "jane@example.com" gives the name "" and the email
    "ane@example.co". *)
Theorem read_name_email_any_string (s : string) :
  (exists before after : string,
      read_name_email s = [("name", before); ("email", PyStr.slice_1_m1 after)]
      /\ PyStr.has_char PyStr.space after = false
      /\ (s = before ++ " " ++ after
          \/ (PyStr.has_char PyStr.space s = false /\ before = "" /\ after = s)))
  /\ (forall (c d : ascii) (m : string),
        PyStr.slice_1_m1 (String c (m ++ String d "")) = m)
  /\ (forall c : ascii, PyStr.slice_1_m1 (String c "") = "")
  /\ PyStr.slice_1_m1 "" = ""
  /\ read_name_email "jane@example.com" = [("name", ""); ("email", "ane@example.co")].
Proof.
  split; [|repeat split; auto using slice_1_m1_ends].
  unfold read_name_email, PyStr.rpartition.
  destruct (PyStr.rsplit_at PyStr.space s) as [[a b]|] eqn:E.
  - destruct (rsplit_at_some _ _ _ _ E) as [Hs Hb].
    exists a, b. repeat split; auto.
  - exists "", s. pose proof (rsplit_at_none _ _ E) as Hs.
    repeat split; auto.
Qed.

(** ** Dictionaries *)

Section DictFacts.

Context {V : Type}.
Implicit Types (d : Dict.t V) (k : string) (v : V).

Lemma get_set_same k v d : Dict.get k (Dict.set k v d) = Some v.
Proof.
  induction d as [|[k' v'] r IH]; simpl.
  - now rewrite String.eqb_refl.
  - destruct (String.eqb k' k) eqn:E; simpl.
    + now rewrite String.eqb_refl.
    + now rewrite E.
Qed.

Lemma get_set_other k k' v d : k <> k' -> Dict.get k (Dict.set k' v d) = Dict.get k d.
Proof.
  intros Hne. induction d as [|[k0 v0] r IH]; simpl.
  - destruct (String.eqb k' k) eqn:E; [|reflexivity].
    apply String.eqb_eq in E. congruence.
  - destruct (String.eqb k0 k') eqn:E; simpl.
    + apply String.eqb_eq in E as ->.
      destruct (String.eqb k' k) eqn:E'; [|reflexivity].
      apply String.eqb_eq in E'. congruence.
    + now rewrite IH.
Qed.

Lemma get_none_not_in k d : Dict.get k d = None <-> ~ In k (Dict.keys d).
Proof.
  induction d as [|[k0 v0] r IH]; simpl.
  - tauto.
  - destruct (String.eqb k0 k) eqn:E.
    + apply String.eqb_eq in E. split; [discriminate | tauto].
    + apply String.eqb_neq in E. rewrite IH. tauto.
Qed.

Lemma keys_set_in k k' v d : In k (Dict.keys (Dict.set k' v d)) -> k = k' \/ In k (Dict.keys d).
Proof.
  induction d as [|[k0 v0] r IH]; simpl.
  - intros [<-|[]]. now left.
  - destruct (String.eqb k0 k'); simpl; intros [<-|H]; auto.
    destruct (IH H); auto.
Qed.

Lemma nodup_set k v d : NoDup (Dict.keys d) -> NoDup (Dict.keys (Dict.set k v d)).
Proof.
  induction d as [|[k0 v0] r IH]; simpl; intros H.
  - constructor; [tauto | constructor].
  - inversion H as [|? ? Hn Hr]; subst.
    destruct (String.eqb k0 k) eqn:E; simpl.
    + apply String.eqb_eq in E as ->. now constructor.
    + apply String.eqb_neq in E. constructor; auto.
      intros Hin. apply keys_set_in in Hin as [->|Hin]; tauto.
Qed.

Lemma get_in_nodup k v d : NoDup (Dict.keys d) -> In (k, v) d -> Dict.get k d = Some v.
Proof.
  induction d as [|[k0 v0] r IH]; simpl; intros H Hin; [tauto|].
  inversion H as [|? ? Hn Hr]; subst.
  destruct Hin as [E|Hin].
  - injection E as -> ->. now rewrite String.eqb_refl.
  - destruct (String.eqb k0 k) eqn:E; auto.
    apply String.eqb_eq in E as ->.
    exfalso. apply Hn. change k with (fst (k, v)). now apply in_map.
Qed.

Lemma mem_true k d : Dict.mem k d = true <-> exists v, Dict.get k d = Some v.
Proof.
  unfold Dict.mem. destruct (Dict.get k d) as [v|].
  - split; eauto.
  - split; [discriminate | intros [v Hv]; discriminate].
Qed.

Lemma mem_false k d : Dict.mem k d = false <-> Dict.get k d = None.
Proof.
  unfold Dict.mem. destruct (Dict.get k d); split; congruence.
Qed.

Lemma in_keys_get k d : In k (Dict.keys d) <-> exists v, Dict.get k d = Some v.
Proof.
  destruct (Dict.get k d) as [v|] eqn:E.
  - split; eauto. intros _.
    destruct (in_dec string_dec k (Dict.keys d)) as [H|H]; auto.
    apply get_none_not_in in H. congruence.
  - apply get_none_not_in in E. split; [contradiction | intros [v Hv]; discriminate].
Qed.

Lemma get_app k d d' :
  Dict.get k (d ++ d')%list
  = match Dict.get k d with Some v => Some v | None => Dict.get k d' end.
Proof.
  induction d as [|[k0 v0] r IH]; simpl; [reflexivity|].
  now destruct (String.eqb k0 k).
Qed.

Lemma keys_app d d' : Dict.keys (d ++ d')%list = (Dict.keys d ++ Dict.keys d')%list.
Proof. apply map_app. Qed.

Lemma get_in k v d : Dict.get k d = Some v -> In (k, v) d.
Proof.
  induction d as [|[k0 v0] r IH]; simpl; [discriminate|].
  destruct (String.eqb k0 k) eqn:E; auto.
  apply String.eqb_eq in E as ->. intros [= ->]. now left.
Qed.

Lemma in_set_inv k v k' v' d :
  In (k, v) (Dict.set k' v' d) -> (k = k' /\ v = v') \/ In (k, v) d.
Proof.
  induction d as [|[k0 v0] r IH]; simpl.
  - intros [[= <- <-]|[]]. now left.
  - destruct (String.eqb k0 k'); simpl; intros [E|H]; auto.
    + injection E as <- <-. now left.
    + destruct (IH H); auto.
Qed.

Lemma in_set_other k v k' v' d : In (k, v) d -> k <> k' -> In (k, v) (Dict.set k' v' d).
Proof.
  intros H Hne. induction d as [|[k0 v0] r IH]; simpl in *; [tauto|].
  destruct (String.eqb k0 k') eqn:E; simpl.
  - apply String.eqb_eq in E as ->. destruct H as [[= <- <-]|H]; [congruence | now right].
  - destruct H as [H|H]; auto.
Qed.

End DictFacts.

(** ** The body of a table *)

Section TableFacts.

Implicit Types (t : Table) (k : string) (v : Item).

Lemma without_app k t t' : without k (t ++ t')%list = (without k t ++ without k t')%list.
Proof. apply filter_app. Qed.

Lemma in_without k0 k v t : In (k, v) (without k0 t) <-> In (k, v) t /\ k <> k0.
Proof.
  unfold without. rewrite filter_In. cbn [fst].
  rewrite negb_true_iff, String.eqb_neq. tauto.
Qed.

Lemma keys_without k t : ~ In k (Dict.keys (without k t)).
Proof.
  intros H. apply in_map_iff in H as ([k0 v0] & E & H). cbn [fst] in E. subst k0.
  apply in_without in H. tauto.
Qed.

Lemma get_without_other k k' t : k <> k' -> Dict.get k (without k' t) = Dict.get k t.
Proof.
  intros Hne. induction t as [|[k0 v0] r IH]; simpl; [reflexivity|].
  destruct (String.eqb k0 k') eqn:E; simpl.
  - apply String.eqb_eq in E as ->.
    destruct (String.eqb k' k) eqn:E'; [|exact IH].
    apply String.eqb_eq in E'. congruence.
  - now rewrite IH.
Qed.

Lemma current_in k t : In k (Dict.keys t) -> current k t <> None.
Proof.
  intros H E. unfold current in E. apply get_none_not_in in E. apply E.
  unfold Dict.keys. rewrite map_rev. now apply in_rev in H.
Qed.

Lemma current_not_in k t : ~ In k (Dict.keys t) -> current k t = None.
Proof.
  intros H. unfold current. apply get_none_not_in.
  unfold Dict.keys. rewrite map_rev. intros Hin. now apply in_rev in Hin.
Qed.

End TableFacts.

(** ** [_convert_scripts] *)

Section ScriptFacts.



End ScriptFacts.



(** ** Loops and outcomes *)

Lemma bind_ok {A B : Type} (r : res A) (k : A -> res B) (b : B) :
  bind r k = Ok b -> exists a, r = Ok a /\ k a = Ok b.
Proof. destruct r; simpl; intros H; try discriminate. eauto. Qed.

Lemma for_snoc {A S : Type} (xs : list A) (x : A) (body : A -> S -> res S) (s : S) :
  for_ (xs ++ [x])%list body s = bind (for_ xs body s) (body x).
Proof.
  revert s. induction xs as [|y r IH]; simpl; intros s.
  - destruct (body x s); reflexivity.
  - destruct (body y s); simpl; auto.
Qed.

(** An invariant of the loop body holds after the loop. *)
Lemma for_invariant {A S : Type} (P : S -> Prop) (xs : list A) (body : A -> S -> res S) :
  (forall x s s', In x xs -> body x s = Ok s' -> P s -> P s') ->
  forall s s', for_ xs body s = Ok s' -> P s -> P s'.
Proof.
  induction xs as [|x r IH]; simpl; intros Hstep s s' H Hs.
  - now injection H as <-.
  - apply bind_ok in H as (s1 & H1 & H2).
    apply (IH (fun y t t' Hy => Hstep y t t' (or_intror Hy)) s1 s' H2).
    apply (Hstep x s s1); auto.
Qed.

(** Every iteration of a loop that returns has returned. *)
Lemma for_ok_each {A S : Type} (xs : list A) (body : A -> S -> res S) :
  forall s s', for_ xs body s = Ok s' ->
  forall x, In x xs -> exists s1 s2, body x s1 = Ok s2.
Proof.
  induction xs as [|y r IH]; simpl; intros s s' H x Hx; [contradiction|].
  apply bind_ok in H as (s1 & H1 & H2).
  destruct Hx as [->|Hx]; eauto.
Qed.

(** ** The dependency loop *)

Section DependencyFacts.

Context {VersionConstraint : Type}.
Variable format_python_constraint : VersionConstraint -> string.

Local Abbreviation Dep := (Dependency VersionConstraint).
Local Abbreviation step := (dependency_step format_python_constraint).

Lemma add_line_at_ok k x d d' :
  add_line_at k x d = Ok d' ->
  exists body, Dict.get k d = Some (Array_ body)
               /\ d' = Dict.set k (Array_ (add_line x body)) d.
Proof.
  unfold add_line_at, Dict.getitem. intros H.
  destruct (Dict.get k d) as [[| | |body| |]|]; simpl in H; try discriminate.
  injection H as <-. eauto.
Qed.

Lemma add_blank_line_at_ok k d d' :
  add_blank_line_at k d = Ok d' ->
  exists body, Dict.get k d = Some (Array_ body)
               /\ d' = Dict.set k (Array_ (add_blank_line body)) d.
Proof.
  unfold add_blank_line_at, Dict.getitem. intros H.
  destruct (Dict.get k d) as [[| | |body| |]|]; simpl in H; try discriminate.
  injection H as <-. eauto.
Qed.

Lemma filter_snoc {A : Type} (f : A -> bool) (l : list A) (x : A) :
  filter f (l ++ [x])%list = (filter f l ++ (if f x then [x] else []))%list.
Proof. now rewrite filter_app. Qed.

Lemma dependency_lines_snoc (l : list Dep) (d : Dep) :
  dependency_lines (l ++ [d])%list = add_line (String_ (to_str d)) (dependency_lines l).
Proof.
  unfold dependency_lines, add_line. now rewrite flat_map_app.
Qed.

(** The state of the two dicts after the loop, from a state in which the
    runtime array is empty and neither "dev-dependencies" nor
    "requires-python" is set. *)
Lemma dependency_loop (s0 : Sections) (deps : list Dep) :
  Dict.get "dependencies" (project_sec s0) = Some (Array_ []) ->
  Dict.get "requires-python" (project_sec s0) = None ->
  Dict.get "dev-dependencies" (tool_rye_sec s0) = None ->
  forall s, for_ deps step s0 = Ok s ->
  Dict.get "dependencies" (project_sec s)
    = Some (Array_ (dependency_lines (runtime_records deps)))
  /\ Dict.get "dev-dependencies" (tool_rye_sec s) = dev_entry (dev_records deps)
  /\ Dict.get "requires-python" (project_sec s)
     = python_entry format_python_constraint (interpreter_records deps)
  /\ (forall k, k <> "dependencies" -> k <> "requires-python" ->
        Dict.get k (project_sec s) = Dict.get k (project_sec s0))
  /\ (forall k, k <> "dev-dependencies" ->
        Dict.get k (tool_rye_sec s) = Dict.get k (tool_rye_sec s0)).
Proof.
  intros Hd Hp Hv.
  induction deps as [|d deps IH] using rev_ind; intros s H.
  - simpl in H. injection H as <-. repeat split; auto.
  - rewrite for_snoc in H. apply bind_ok in H as (s1 & H1 & H2).
    destruct (IH s1 H1) as (I1 & I2 & I3 & I4 & I5). clear IH H1.
    unfold interpreter_records, dev_records, runtime_records in *.
    rewrite !filter_snoc.
    unfold dependency_step in H2.
    destruct (is_python_dep d) eqn:Epy; simpl.
    + destruct (is_basic d); [|discriminate]. injection H2 as <-. simpl.
      rewrite !app_nil_r. repeat split; auto.
      * rewrite get_set_other by discriminate. exact I1.
      * unfold python_entry. rewrite rev_unit. apply get_set_same.
      * intros k K1 K2. rewrite get_set_other by auto. auto.
    + destruct (is_dev d) eqn:Edev; simpl.
      * apply bind_ok in H2 as (rye & Hr & H2). injection H2 as <-. simpl.
        rewrite !app_nil_r.
        apply add_line_at_ok in Hr as (body & Hb & ->).
        repeat split; auto.
        -- rewrite get_set_same.
           unfold Dict.setdefault in Hb.
           destruct (filter _ deps) as [|d0 l] eqn:El in I2 |- *.
           ++ simpl in I2.
              apply mem_false in I2 as I2'. rewrite I2' in Hb.
              rewrite get_set_same in Hb. injection Hb as <-. reflexivity.
           ++ simpl in I2.
              assert (Hm : Dict.mem "dev-dependencies" (tool_rye_sec s1) = true)
                by (apply mem_true; eauto).
              rewrite Hm, I2 in Hb. injection Hb as <-.
              unfold dev_entry. simpl app.
              change (d0 :: (l ++ [d])%list) with (((d0 :: l) ++ [d])%list).
              now rewrite dependency_lines_snoc.
        -- intros k K. rewrite get_set_other by auto.
           unfold Dict.setdefault.
           destruct (Dict.mem "dev-dependencies" (tool_rye_sec s1)); auto.
           rewrite get_set_other by auto. auto.
      * apply bind_ok in H2 as (prj & Hr & H2). injection H2 as <-. simpl.
        rewrite !app_nil_r.
        apply add_line_at_ok in Hr as (body & Hb & ->).
        rewrite I1 in Hb. injection Hb as <-.
        repeat split; auto.
        -- rewrite get_set_same. now rewrite dependency_lines_snoc.
        -- rewrite get_set_other by discriminate. exact I3.
        -- intros k K1 K2. rewrite get_set_other by auto. auto.
Qed.

End DependencyFacts.

(** ** The sections built from the project *)

Section SectionFacts.

Context {VersionConstraint : Type}.
Variable format_python_constraint : VersionConstraint -> string.

Lemma set_people_get_other k src d d' k' :
  set_people k src d = Ok d' -> k' <> k -> Dict.get k' d' = Dict.get k' d.
Proof.
  unfold set_people. intros H Hne.
  apply bind_ok in H as (people & _ & H).
  destruct people; injection H as <-; auto.
  now apply get_set_other.
Qed.

Lemma copy_if_truthy_get_other src k k' d k0 :
  k0 <> k' -> Dict.get k0 (copy_if_truthy src k k' d) = Dict.get k0 d.
Proof.
  intros Hne. unfold copy_if_truthy.
  destruct (get_truthy k src); auto. now apply get_set_other.
Qed.

(** The entries of the two sections that the dependencies decide, and the
    two fixed entries of [tool_rye_sec]. *)
Lemma build_sections_entries (poetry_project : PoetryProject VersionConstraint)
    (virtual_project : bool) (s : Sections) (urls_sec : Table) :
  build_sections format_python_constraint poetry_project virtual_project = Ok (s, urls_sec) ->
  let deps := dependencies poetry_project in
  Dict.get "dependencies" (project_sec s)
    = Some (Array_ (add_blank_line (dependency_lines (runtime_records deps))))
  /\ Dict.get "dev-dependencies" (tool_rye_sec s)
     = match dev_records deps with
       | [] => None
       | l => Some (Array_ (add_blank_line (dependency_lines l)))
       end
  /\ Dict.get "requires-python" (project_sec s)
     = python_entry format_python_constraint (interpreter_records deps)
  /\ Dict.get "managed" (tool_rye_sec s) = Some (Bool_ true)
  /\ Dict.get "virtual" (tool_rye_sec s) = Some (Bool_ virtual_project).
Proof.
  intros H deps. unfold build_sections in H.
  apply bind_ok in H as (ver & _ & H).
  apply bind_ok in H as (descr & _ & H).
  apply bind_ok in H as (a & _ & H).
  apply bind_ok in H as (authors & _ & H).
  apply bind_ok in H as (prj1 & Hprj1 & H).
  apply bind_ok in H as (maintainers & _ & H).
  apply bind_ok in H as (prj2 & Hprj2 & H).
  apply bind_ok in H as (s1 & Hloop & H).
  apply bind_ok in H as (s2 & Hclose & H).
  apply bind_ok in H as (prj3 & Hscripts & H).
  injection H as <- _. simpl.
  apply dependency_loop in Hloop; simpl.
  - destruct Hloop as (L1 & L2 & L3 & L4 & L5).
    unfold close_arrays in Hclose.
    apply bind_ok in Hclose as (rye & Hrye & Hclose).
    apply bind_ok in Hclose as (prj & Hprj & Hclose).
    injection Hclose as <-. simpl in *.
    apply add_blank_line_at_ok in Hprj as (body & Hb & ->).
    rewrite L1 in Hb. injection Hb as <-.
    assert (Hp3 : forall k, k <> "scripts" ->
              Dict.get k prj3
              = Dict.get k (Dict.set "dependencies"
                              (Array_ (add_blank_line (dependency_lines (runtime_records deps))))
                              (project_sec s1))).
    { intros k Hk. destruct (get_truthy "scripts" (poetry poetry_project)).
      - apply bind_ok in Hscripts as (entries & _ & Hs). injection Hs as <-.
        now apply get_set_other.
      - now injection Hscripts as <-. }
    assert (Hrye' : forall k, k <> "dev-dependencies" ->
              Dict.get k rye = Dict.get k (tool_rye_sec s1)).
    { intros k Hk. destruct (Dict.mem "dev-dependencies" (tool_rye_sec s1)).
      - apply add_blank_line_at_ok in Hrye as (body & _ & ->). now apply get_set_other.
      - now injection Hrye as <-. }
    repeat split.
    + rewrite Hp3 by discriminate. apply get_set_same.
    + fold deps in L2. destruct (dev_records deps) as [|d0 l]; simpl in L2.
      * apply mem_false in L2 as Hm. rewrite Hm in Hrye. now injection Hrye as <-.
      * assert (Hm : Dict.mem "dev-dependencies" (tool_rye_sec s1) = true)
          by (apply mem_true; eauto).
        rewrite Hm in Hrye.
        apply add_blank_line_at_ok in Hrye as (body & Hb & ->).
        rewrite L2 in Hb. injection Hb as <-. apply get_set_same.
    + rewrite Hp3 by discriminate. rewrite get_set_other by discriminate. exact L3.
    + rewrite Hrye', L5 by discriminate. reflexivity.
    + rewrite Hrye', L5 by discriminate. reflexivity.
  - apply get_set_same.
  - rewrite get_set_other by discriminate.
    rewrite !copy_if_truthy_get_other by discriminate.
    rewrite (set_people_get_other _ _ _ _ "requires-python" Hprj2) by discriminate.
    rewrite (set_people_get_other _ _ _ _ "requires-python" Hprj1) by discriminate.
    reflexivity.
  - reflexivity.
Qed.

End SectionFacts.

(** ** The result document *)

Section ResultFacts.

Variable pyproject : Document.
Variable virtual_project : bool.

Local Abbreviation step := (merge_step pyproject virtual_project).

Lemma filterfalse_poetry_core_ok xs kept :
  filterfalse_poetry_core xs = Ok kept ->
  kept = filter (fun x => negb (mentions_poetry_core x)) xs.
Proof.
  revert kept. induction xs as [|x r IH]; simpl; intros kept H.
  - now injection H as <-.
  - apply bind_ok in H as (b & Hb & H).
    apply bind_ok in H as (rest & Hr & H).
    injection H as <-. unfold mentions_poetry_core. rewrite Hb.
    rewrite (IH rest Hr). now destruct b.
Qed.

Lemma iter_items_ok it xs :
  iter_items it = Ok xs -> exists body, it = Array_ body /\ xs = values body.
Proof. destruct it; simpl; intros H; try discriminate. injection H as <-. eauto. Qed.

Lemma values_map_Value xs : values (map Value_ xs) = xs.
Proof. induction xs as [|x r IH]; simpl; congruence. Qed.

(** The build-system branch stores a table computed from the input
    document alone, of the kind of the input table. *)
Lemma rewrite_build_system_ok doc doc' :
  rewrite_build_system pyproject doc = Ok doc' ->
  exists bs t body t',
    Dict.get "build-system" pyproject = Some bs
    /\ subscript bs = Ok t
    /\ Dict.get "requires" t = Some (Array_ body)
    /\ doc' = Dict.set "build-system" (with_body bs t') doc
    /\ Dict.get "requires" t'
       = Some (of_list (filter (fun x => negb (mentions_poetry_core x)) (values body)
                        ++ [String_ "hatchling"])%list)
    /\ Dict.get "build-backend" t' = Some (String_ "hatchling.build")
    /\ (forall k, k <> "requires" -> k <> "build-backend" -> Dict.get k t' = Dict.get k t).
Proof.
  unfold rewrite_build_system. intros H.
  apply bind_ok in H as (bs & Hbs & H).
  apply bind_ok in H as (t & Ht & H).
  apply bind_ok in H as (req & Hreq & H).
  apply bind_ok in H as (xs & Hxs & H).
  apply bind_ok in H as (kept & Hkept & H).
  injection H as <-.
  unfold Dict.getitem in Hbs, Hreq.
  destruct (Dict.get "build-system" pyproject) as [v|]; [|discriminate].
  injection Hbs as ->.
  destruct (Dict.get "requires" t) as [v|] eqn:Er; [|discriminate].
  injection Hreq as ->.
  apply iter_items_ok in Hxs as (body & -> & ->).
  apply filterfalse_poetry_core_ok in Hkept as ->.
  eexists bs, t, body, _.
  split; [reflexivity|]. split; [exact Ht|]. split; [exact Er|].
  split; [reflexivity|]. split; [|split].
  - rewrite get_set_other by discriminate. rewrite get_set_same.
    unfold append, of_list. now rewrite map_app.
  - apply get_set_same.
  - intros k K1 K2. now rewrite !get_set_other by auto.
Qed.

(** [tool_table.add] that returns has appended the entry. *)
Lemma table_add_ok k v t t' : table_add k v t = Ok t' -> t' = (t ++ [(k, v)])%list.
Proof.
  unfold table_add.
  destruct (current k t) as [[]|]; destruct v; intros H;
    try discriminate H; now injection H as <-.
Qed.

(** Under a key that is there it has added a table without a header. *)
Lemma table_add_present k v t t' :
  table_add k v t = Ok t' -> In k (Dict.keys t) -> exists body, v = SuperTable_ body.
Proof.
  unfold table_add. intros H Hin. apply current_in in Hin.
  destruct (current k t) as [[]|]; [..|contradiction];
    destruct v; try discriminate H; eauto.
Qed.

Lemma table_pop_ok k t t' :
  table_pop k t = Ok t' -> In k (Dict.keys t) /\ t' = without k t.
Proof.
  unfold table_pop. destruct (Dict.mem k t) eqn:E; [|discriminate]. intros [= <-].
  split; auto. apply in_keys_get. now apply mem_true.
Qed.

(** After [tool_table.add] on every entry: the old entries, then the new
    ones; a new entry under a key of the old ones is a table without a
    header. *)
Lemma add_entries_ok entries : forall t t',
  for_ entries (fun kv t => table_add (fst kv) (snd kv) t) t = Ok t' ->
  t' = (t ++ entries)%list
  /\ forall k v, In (k, v) entries -> In k (Dict.keys t) -> exists body, v = SuperTable_ body.
Proof.
  induction entries as [|[k0 v0] r IH]; simpl; intros t t' H.
  - injection H as <-. split; [now rewrite app_nil_r|]. intros k v [].
  - apply bind_ok in H as (t1 & H1 & H).
    pose proof (table_add_present _ _ _ _ H1) as Hp.
    apply table_add_ok in H1 as ->.
    destruct (IH _ _ H) as [-> Hs]. split; [now rewrite <- app_assoc|].
    intros k v [E|Hin] Hk.
    + injection E as <- <-. auto.
    + apply (Hs k v Hin). rewrite keys_app. apply in_or_app. now left.
Qed.

Lemma merge_step_frame name m m' k :
  step name m = Ok m' -> k <> name ->
  Dict.get k (result m') = Dict.get k (result m).
Proof.
  unfold merge_step. intros H Hne.
  destruct (String.eqb name "project") eqn:E1; [now injection H as <-|].
  destruct (String.eqb name "tool") eqn:E2.
  { apply String.eqb_eq in E2 as ->. unfold merge_tool in H.
    apply bind_ok in H as (tool & _ & H).
    apply bind_ok in H as (entries & _ & H).
    apply bind_ok in H as (t & _ & H).
    apply bind_ok in H as (t2 & _ & H).
    injection H as <-. simpl. now apply get_set_other. }
  destruct (String.eqb name "build-system") eqn:E3.
  { apply String.eqb_eq in E3 as ->.
    destruct virtual_project; simpl in H; [now injection H as <-|].
    apply bind_ok in H as (r & Hr & H). injection H as <-. simpl.
    apply rewrite_build_system_ok in Hr as (bs & t & body & t' & _ & _ & _ & -> & _).
    now apply get_set_other. }
  apply bind_ok in H as (v & _ & H). injection H as <-. simpl.
  now apply get_set_other.
Qed.

Lemma merge_step_tool_table name m m' :
  step name m = Ok m' -> name <> "tool" -> tool_table m' = tool_table m.
Proof.
  unfold merge_step. intros H Hne.
  destruct (String.eqb name "project") eqn:E1; [now injection H as <-|].
  destruct (String.eqb name "tool") eqn:E2.
  { apply String.eqb_eq in E2. contradiction. }
  destruct (String.eqb name "build-system") eqn:E3.
  { destruct virtual_project; simpl in H; [now injection H as <-|].
    apply bind_ok in H as (r & Hr & H). now injection H as <-. }
  apply bind_ok in H as (v & _ & H). now injection H as <-.
Qed.

(** A key that is not a top-level key of the input keeps its entry. *)
Lemma merge_loop_frame k names : forall m m',
  for_ names step m = Ok m' -> ~ In k names ->
  Dict.get k (result m') = Dict.get k (result m).
Proof.
  intros m m' H Hk.
  apply (for_invariant (fun x => Dict.get k (result x) = Dict.get k (result m))
           names step) with (s := m); auto.
  intros x s s' Hx Hs Hg. rewrite <- Hg. apply (merge_step_frame x); auto.
  intros ->. contradiction.
Qed.

(** What the iteration for [k] establishes, and the others preserve, holds
    after the loop when [k] is among the names. *)
Lemma merge_loop_establish (Inv Q : Merge -> Prop) k names :
  (forall name m m', step name m = Ok m' -> Inv m -> Inv m') ->
  (forall m m', step k m = Ok m' -> Inv m -> Q m') ->
  (forall name m m', name <> k -> step name m = Ok m' -> Q m -> Q m') ->
  forall m m', for_ names step m = Ok m' -> In k names -> Inv m -> Q m'.
Proof.
  intros Hinv Hest Hpres.
  induction names as [|n r IH]; simpl; intros m m' H Hin Hm; [contradiction|].
  apply bind_ok in H as (m1 & H1 & H).
  destruct (in_dec string_dec k r) as [Hr|Hr].
  - apply (IH m1 m'); eauto.
  - destruct Hin as [->|Hin]; [|contradiction].
    apply (for_invariant Q r step) with (s := m1); eauto.
    intros x s s' Hx. apply Hpres. intros ->. contradiction.
Qed.

(** The "tool" entry of [result] is a table that [convert] has made. *)
Lemma merge_step_tool_kind name m m' :
  step name m = Ok m' ->
  (forall tool, Dict.get "tool" (result m) = Some tool -> exists t, tool = Table_ t) ->
  forall tool, Dict.get "tool" (result m') = Some tool -> exists t, tool = Table_ t.
Proof.
  intros Hs Hinv tool Ht.
  destruct (string_dec name "tool") as [->|Hne].
  - unfold merge_step in Hs. simpl in Hs. unfold merge_tool in Hs.
    apply bind_ok in Hs as (tl & _ & Hs).
    apply bind_ok in Hs as (entries & _ & Hs).
    apply bind_ok in Hs as (t & _ & Hs).
    apply bind_ok in Hs as (t2 & _ & Hs).
    injection Hs as <-. cbn [result] in Ht. rewrite get_set_same in Ht.
    injection Ht as <-. eauto.
  - rewrite (merge_step_frame name m m' "tool" Hs) in Ht by congruence. auto.
Qed.

(** A step for "tool" that returns has found a table in the input. *)
Lemma merge_tool_input m m' :
  merge_tool pyproject m = Ok m' ->
  exists tool entries, Dict.get "tool" pyproject = Some tool /\ items tool = Ok entries.
Proof.
  unfold merge_tool. intros H.
  apply bind_ok in H as (tool & Htool & H).
  apply bind_ok in H as (entries & Hentries & _).
  unfold Dict.getitem in Htool.
  destruct (Dict.get "tool" pyproject) as [v|]; [|discriminate].
  injection Htool as ->. eauto.
Qed.

End ResultFacts.

Section BuildResultFacts.

Context {VersionConstraint : Type}.
Variable poetry_project : PoetryProject VersionConstraint.
Variable s : Sections.
Variable urls_sec : Table.
Variable pyproject : Document.
Variables ensure_src virtual_project : bool.
Variable out : Document.

Hypothesis Hout :
  build_result poetry_project s urls_sec pyproject ensure_src virtual_project = Ok out.

Local Abbreviation step := (merge_step pyproject virtual_project).

(** The document before the loop. *)
Local Abbreviation doc0 :=
  (match urls_sec with
   | [] => Dict.set "project" (Table_ (project_sec s)) []
   | _ => Dict.set "project.urls" (Table_ urls_sec)
            (Dict.set "project" (Table_ (project_sec s)) [])
   end).

Local Abbreviation table0 := (Dict.set "rye" (Table_ (tool_rye_sec s)) (@nil (string * Item))).

Lemma set_hatch_ok packages doc doc' :
  set_hatch packages doc = Ok doc' ->
  exists tool t hatch,
    Dict.get "tool" doc = Some tool
    /\ subscript tool = Ok t
    /\ doc' = Dict.set "tool" (with_body tool (Dict.set "hatch" (Table_ hatch) t)) doc.
Proof.
  unfold set_hatch. intros H.
  apply bind_ok in H as (tool & Htool & H).
  apply bind_ok in H as (t & Ht & H). injection H as <-.
  unfold Dict.getitem in Htool.
  destruct (Dict.get "tool" doc) as [v|]; [|discriminate].
  injection Htool as ->. eauto 6.
Qed.

(** After the loop a "tool" entry of [result] is a table that [convert]
    has made. *)
Lemma loop_tool_kind m :
  for_ (Dict.keys pyproject) step {| result := doc0; tool_table := table0 |} = Ok m ->
  forall tool, Dict.get "tool" (result m) = Some tool -> exists t, tool = Table_ t.
Proof.
  clear Hout. intros Hloop.
  apply (for_invariant
           (fun x => forall tool, Dict.get "tool" (result x) = Some tool ->
                       exists t, tool = Table_ t)
           (Dict.keys pyproject) step)
    with (s := {| result := doc0; tool_table := table0 |}); auto.
  - intros name m0 m1 _ Hs Hinv.
    exact (merge_step_tool_kind pyproject virtual_project name m0 m1 Hs Hinv).
  - cbn [result]. intros tool0 H0.
    destruct urls_sec; rewrite !get_set_other in H0 by discriminate; discriminate H0.
Qed.

(** [build_result] is the loop followed by the hatch tables. *)
Lemma build_result_loop :
  exists m,
    for_ (Dict.keys pyproject) step {| result := doc0; tool_table := table0 |} = Ok m
    /\ (forall k, k <> "tool" -> Dict.get k out = Dict.get k (result m))
    /\ (virtual_project = true -> out = result m)
    /\ (virtual_project = false ->
        exists t hatch,
          Dict.get "tool" (result m) = Some (Table_ t)
          /\ Dict.get "tool" out = Some (Table_ (Dict.set "hatch" (Table_ hatch) t))).
Proof.
  unfold build_result in Hout. simpl in Hout.
  apply bind_ok in Hout as (m & Hm & H).
  assert (Hloop : for_ (Dict.keys pyproject) step {| result := doc0; tool_table := table0 |}
                  = Ok m) by (destruct urls_sec; exact Hm).
  pose proof (loop_tool_kind m Hloop) as Hkind.
  exists m. split; [exact Hloop|].
  destruct virtual_project; simpl in H.
  - injection H as <-. repeat split; auto. intros E; discriminate E.
  - apply bind_ok in H as (packages & _ & H).
    apply set_hatch_ok in H as (tool & t & hatch & Ht & Hsub & ->).
    destruct (Hkind tool Ht) as [t0 ->]. injection Hsub as ->.
    repeat split.
    + intros k Hk. now apply get_set_other.
    + intros E; discriminate E.
    + intros _. exists t, hatch. split; auto. apply get_set_same.
Qed.

(** The hatch tables of a project that is not virtual. *)
Lemma build_result_hatch :
  virtual_project = false ->
  exists t packages,
    wheel_packages poetry_project ensure_src = Ok packages
    /\ Dict.get "tool" out
       = Some (Table_
                 (Dict.set "hatch"
                    (Table_
                       [("metadata", Table_ [("allow-direct-references", Bool_ true)]);
                        ("build",
                         Table_ [("targets",
                                  Table_ [("wheel",
                                           Table_ [("packages", of_list packages)])])])])
                    t)).
Proof.
  intros Hv. unfold build_result in Hout. simpl in Hout.
  apply bind_ok in Hout as (m & Hm & H).
  assert (Hloop : for_ (Dict.keys pyproject) step {| result := doc0; tool_table := table0 |}
                  = Ok m) by (destruct urls_sec; exact Hm).
  pose proof (loop_tool_kind m Hloop) as Hkind.
  rewrite Hv in H. simpl in H.
  apply bind_ok in H as (packages & Hp & H).
  unfold set_hatch in H.
  apply bind_ok in H as (tool & Htool & H).
  apply bind_ok in H as (t & Ht & H). injection H as <-.
  unfold Dict.getitem in Htool.
  destruct (Dict.get "tool" (result m)) as [v|] eqn:Et; [|discriminate].
  injection Htool as ->. destruct (Hkind tool eq_refl) as [t0 ->].
  injection Ht as ->. exists t, packages. split; [exact Hp|]. apply get_set_same.
Qed.

Lemma doc0_project : Dict.get "project" doc0 = Some (Table_ (project_sec s)).
Proof. destruct urls_sec; reflexivity. Qed.

Lemma doc0_other k : k <> "project" -> k <> "project.urls" -> Dict.get k doc0 = None.
Proof.
  intros K1 K2. destruct urls_sec; now rewrite !get_set_other by congruence.
Qed.

(** The "project" table of the output is [project_sec]. *)
Lemma build_result_project : Dict.get "project" out = Some (Table_ (project_sec s)).
Proof.
  destruct build_result_loop as (m & Hm & Hk & _).
  rewrite Hk by discriminate.
  apply (for_invariant
           (fun x => Dict.get "project" (result x) = Some (Table_ (project_sec s)))
           (Dict.keys pyproject) step) with (s := {| result := doc0; tool_table := table0 |});
    auto using doc0_project.
  intros name m0 m1 _ Hs Hg.
  destruct (string_dec name "project") as [->|Hne].
  - unfold merge_step in Hs. simpl in Hs. now injection Hs as <-.
  - rewrite <- Hg. apply (merge_step_frame pyproject virtual_project name); auto.
Qed.

(** A virtual project gets no "build-system" table. *)
Lemma build_result_virtual_build_system :
  virtual_project = true -> Dict.get "build-system" out = None.
Proof.
  intros Hv. destruct build_result_loop as (m & Hm & Hk & _).
  rewrite Hk by discriminate.
  apply (for_invariant (fun x => Dict.get "build-system" (result x) = None)
           (Dict.keys pyproject) step) with (s := {| result := doc0; tool_table := table0 |});
    auto.
  - intros name m0 m1 _ Hs Hg.
    destruct (string_dec name "build-system") as [->|Hne].
    + unfold merge_step in Hs. rewrite Hv in Hs. simpl in Hs. now injection Hs as <-.
    + rewrite <- Hg. apply (merge_step_frame pyproject virtual_project name); auto.
  - apply doc0_other; discriminate.
Qed.

(** The "build-system" table of a project that is not virtual. *)
Lemma build_result_build_system :
  virtual_project = false -> In "build-system" (Dict.keys pyproject) ->
  exists bs t body t',
    Dict.get "build-system" pyproject = Some bs
    /\ subscript bs = Ok t
    /\ Dict.get "requires" t = Some (Array_ body)
    /\ Dict.get "build-system" out = Some (with_body bs t')
    /\ Dict.get "requires" t'
       = Some (of_list (filter (fun x => negb (mentions_poetry_core x)) (values body)
                        ++ [String_ "hatchling"])%list)
    /\ Dict.get "build-backend" t' = Some (String_ "hatchling.build")
    /\ (forall k, k <> "requires" -> k <> "build-backend" -> Dict.get k t' = Dict.get k t).
Proof.
  intros Hv Hin. destruct build_result_loop as (m & Hm & Hk & _).
  rewrite Hk by discriminate.
  apply (merge_loop_establish pyproject virtual_project (fun _ => True)
           (fun x => exists bs t body t',
                Dict.get "build-system" pyproject = Some bs
                /\ subscript bs = Ok t
                /\ Dict.get "requires" t = Some (Array_ body)
                /\ Dict.get "build-system" (result x) = Some (with_body bs t')
                /\ Dict.get "requires" t'
                   = Some (of_list (filter (fun x => negb (mentions_poetry_core x)) (values body)
                                    ++ [String_ "hatchling"])%list)
                /\ Dict.get "build-backend" t' = Some (String_ "hatchling.build")
                /\ (forall k, k <> "requires" -> k <> "build-backend" ->
                      Dict.get k t' = Dict.get k t))
           "build-system" (Dict.keys pyproject))
    with (m := {| result := doc0; tool_table := table0 |}); auto.
  - intros m0 m1 Hs _. unfold merge_step in Hs. rewrite Hv in Hs. simpl in Hs.
    apply bind_ok in Hs as (r & Hr & Hs). injection Hs as <-. simpl.
    apply rewrite_build_system_ok in Hr
      as (bs & t & body & t' & H1 & H2 & H3 & -> & H4 & H5 & H6).
    exists bs, t, body, t'. repeat split; auto. apply get_set_same.
  - intros name m0 m1 Hne Hs (bs & t & body & t' & H1 & H2 & H3 & H4 & H5).
    exists bs, t, body, t'. repeat split; try tauto.
    rewrite <- H4. apply (merge_step_frame pyproject virtual_project name); auto.
Qed.

(** A top-level table other than "project", "tool" and "build-system" is
    copied. *)
Lemma build_result_copied name :
  In name (Dict.keys pyproject) ->
  name <> "project" -> name <> "tool" -> name <> "build-system" ->
  Dict.get name out = Dict.get name pyproject.
Proof.
  intros Hin N1 N2 N3. destruct build_result_loop as (m & Hm & Hk & _).
  rewrite Hk by auto.
  apply (merge_loop_establish pyproject virtual_project (fun _ => True)
           (fun x => Dict.get name (result x) = Dict.get name pyproject)
           name (Dict.keys pyproject))
    with (m := {| result := doc0; tool_table := table0 |}); auto.
  - intros m0 m1 Hs _. unfold merge_step in Hs.
    apply String.eqb_neq in N1, N2, N3. rewrite N1, N2, N3 in Hs.
    apply bind_ok in Hs as (v & Hv & Hs). injection Hs as <-. simpl.
    rewrite get_set_same. unfold Dict.getitem in Hv.
    destruct (Dict.get name pyproject); [|discriminate]. now injection Hv as ->.
  - intros n m0 m1 Hne Hs Hg. rewrite <- Hg.
    apply (merge_step_frame pyproject virtual_project n); auto.
Qed.

(** The table that [convert] adds as [tool.rye]. *)
Local Abbreviation rye0 := (Table_ (tool_rye_sec s)).

(** The invariant of [tool_table] in the loop, for the entries [E] of the
    input "tool" table, and what holds of it once the "tool" key has been
    visited. *)
Local Abbreviation tool_inv E m :=
  ((exists rest, tool_table m = ("rye", rye0) :: rest)
   /\ ~ In "poetry" (Dict.keys (tool_table m))
   /\ (forall k v, In (k, v) (tool_table m) ->
         (k = "rye" /\ v = rye0) \/ (k <> "poetry" /\ In (k, v) E))
   /\ (forall k, k <> "rye" ->
         Dict.get k (tool_table m) = None \/ Dict.get k (tool_table m) = Dict.get k E%list)).

Local Abbreviation tool_done E m :=
  (Dict.get "tool" (result m) = Some (Table_ (tool_table m))
   /\ In "poetry" (Dict.keys E%list)
   /\ (forall v, In ("rye", v) E -> exists body, v = SuperTable_ body)
   /\ (forall k v, In (k, v) E -> k <> "poetry" -> In (k, v) (tool_table m))
   /\ (forall k, k <> "rye" -> k <> "poetry" -> Dict.get k (tool_table m) = Dict.get k E%list)).

Lemma merge_tool_ok tool E m m' :
  Dict.get "tool" pyproject = Some tool -> items tool = Ok E ->
  merge_tool pyproject m = Ok m' -> tool_inv E m -> tool_done E m' /\ tool_inv E m'.
Proof.
  unfold merge_tool, Dict.getitem. intros Htool Hitems H ((rest & Hfirst) & Hnp & Hin & Hget).
  rewrite Htool in H. cbn [bind] in H. rewrite Hitems in H. cbn [bind] in H.
  apply bind_ok in H as (t1 & Hadd & H).
  apply bind_ok in H as (t2 & Hpop & H).
  injection H as <-. cbn [result tool_table].
  apply add_entries_ok in Hadd as [-> Hsuper].
  apply table_pop_ok in Hpop as [Hp ->].
  assert (Hg : forall k, k <> "rye" -> k <> "poetry" ->
            Dict.get k (without "poetry" (tool_table m ++ E)%list) = Dict.get k E).
  { intros k K1 K2. rewrite get_without_other by auto. rewrite get_app.
    destruct (Hget k K1) as [G|G]; rewrite G; [reflexivity|].
    now destruct (Dict.get k E). }
  split; [split; [|split; [|split; [|split]]] | split; [|split; [|split]]].
  - apply get_set_same.
  - rewrite keys_app in Hp. apply in_app_or in Hp as [Hp|Hp]; tauto.
  - intros v Hv. apply (Hsuper "rye" v Hv). rewrite Hfirst. now left.
  - intros k v Hv Hk. apply in_without. split; auto. apply in_or_app. now right.
  - exact Hg.
  - rewrite Hfirst. eexists. reflexivity.
  - apply keys_without.
  - intros k v Hv. apply in_without in Hv as [Hv Hk].
    apply in_app_or in Hv as [Hv|Hv]; auto.
  - intros k K1. destruct (string_dec k "poetry") as [->|K2]; [|right; auto].
    left. apply get_none_not_in. apply keys_without.
Qed.

(** The "tool" table of the output: first the "rye" table, then the
    entries of the input without "poetry"; "hatch" set when the project
    is not virtual.  An input entry under "rye" is a table without a
    header and is among the entries kept. *)
Lemma build_result_tool :
  In "tool" (Dict.keys pyproject) ->
  exists tool_in t_in t_out,
    Dict.get "tool" pyproject = Some tool_in
    /\ items tool_in = Ok t_in
    /\ Dict.get "tool" out = Some (Table_ t_out)
    /\ Dict.get "rye" t_out = Some (Table_ (tool_rye_sec s))
    /\ ~ In "poetry" (Dict.keys t_out)
    /\ In "poetry" (Dict.keys t_in)
    /\ (forall v, In ("rye", v) t_in -> exists body, v = SuperTable_ body)
    /\ (forall k v, In (k, v) t_in -> k <> "poetry" ->
          (virtual_project = false -> k <> "hatch") -> In (k, v) t_out)
    /\ (forall k v, In (k, v) t_out ->
          (k = "rye" /\ v = Table_ (tool_rye_sec s))
          \/ (virtual_project = false /\ k = "hatch")
          \/ (k <> "poetry" /\ In (k, v) t_in))
    /\ (forall k, k <> "rye" -> k <> "poetry" ->
          (virtual_project = false -> k <> "hatch") ->
          Dict.get k t_out = Dict.get k t_in)
    /\ (virtual_project = false -> exists hatch, Dict.get "hatch" t_out = Some (Table_ hatch)).
Proof.
  intros Hin. destruct build_result_loop as (m & Hm & _ & Hvirt & Hreal).
  destruct (for_ok_each _ _ _ _ Hm "tool" Hin) as (m1 & m2 & Hstep).
  unfold merge_step in Hstep. simpl in Hstep.
  destruct (merge_tool_input _ _ _ Hstep) as (tool & E & Htool & Hitems).
  assert (Hdone : tool_done E m /\ tool_inv E m).
  { apply (merge_loop_establish pyproject virtual_project
             (fun x => tool_inv E x) (fun x => tool_done E x /\ tool_inv E x)
             "tool" (Dict.keys pyproject))
      with (m := {| result := doc0; tool_table := table0 |}); auto.
    - intros name m0 m1' Hs Hinv.
      destruct (string_dec name "tool") as [->|Hne].
      + unfold merge_step in Hs. simpl in Hs.
        now apply (merge_tool_ok tool E m0 m1' Htool Hitems Hs).
      + now rewrite (merge_step_tool_table pyproject virtual_project name m0 m1' Hs Hne).
    - intros m0 m1' Hs Hinv. unfold merge_step in Hs. simpl in Hs.
      now apply (merge_tool_ok tool E m0 m1' Htool Hitems Hs).
    - intros name m0 m1' Hne Hs ((H1 & H2) & H3).
      rewrite (merge_step_tool_table pyproject virtual_project name m0 m1' Hs Hne).
      split; [split|]; auto.
      rewrite <- H1. apply (merge_step_frame pyproject virtual_project name); auto.
    - cbn [tool_table]. split; [|split; [|split]].
      + eexists. reflexivity.
      + simpl. intros [E0|[]]. discriminate E0.
      + intros k v [E0|[]]. injection E0 as <- <-. now left.
      + intros k K1. left. now rewrite get_set_other by auto. }
  destruct Hdone as ((Hres & Hp & Hsuper & Hkept & Hget) & (rest & Hfirst) & Hnp & Hfrom & _).
  exists tool, E.
  destruct virtual_project.
  - rewrite (Hvirt eq_refl). exists (tool_table m).
    split; [exact Htool|]. split; [exact Hitems|]. split; [exact Hres|].
    split; [rewrite Hfirst; reflexivity|]. split; [exact Hnp|]. split; [exact Hp|].
    split; [exact Hsuper|]. split; [intros k v Hv Hk _; auto|].
    split; [|split; [intros k K1 K2 _; auto | intros E0; discriminate E0]].
    intros k v Hv. destruct (Hfrom k v Hv); auto.
  - destruct (Hreal eq_refl) as (t & hatch & Ht & Ho).
    rewrite Hres in Ht. injection Ht as <-.
    exists (Dict.set "hatch" (Table_ hatch) (tool_table m)).
    split; [exact Htool|]. split; [exact Hitems|]. split; [exact Ho|].
    split; [rewrite get_set_other by discriminate; rewrite Hfirst; reflexivity|].
    split; [|split; [exact Hp|]].
    { intros Hk. apply keys_set_in in Hk as [E0|Hk]; [discriminate E0 | tauto]. }
    split; [exact Hsuper|]. split; [|split; [|split]].
    + intros k v Hv K1 K2. apply in_set_other; auto.
    + intros k v Hv. apply in_set_inv in Hv as [[-> _]|Hv]; auto.
      destruct (Hfrom k v Hv); auto.
    + intros k K1 K2 K3. rewrite get_set_other by auto. auto.
    + intros _. exists hatch. apply get_set_same.
Qed.

End BuildResultFacts.

(** ** The document [convert] writes *)

Lemma values_app (a b : list ArrayElem) : values (a ++ b)%list = (values a ++ values b)%list.
Proof.
  induction a as [|[v|w] r IH]; simpl; auto. now rewrite IH.
Qed.

Lemma values_dependency_lines {VersionConstraint : Type}
    (l : list (Dependency VersionConstraint)) :
  values (dependency_lines l) = map (fun d => String_ (to_str d)) l.
Proof.
  induction l as [|d r IH]; simpl; auto. now rewrite IH.
Qed.

Lemma values_closed_lines {VersionConstraint : Type}
    (l : list (Dependency VersionConstraint)) :
  values (add_blank_line (dependency_lines l)) = map (fun d => String_ (to_str d)) l.
Proof.
  unfold add_blank_line. rewrite values_app, values_dependency_lines. simpl.
  apply app_nil_r.
Qed.

(** The three kinds of records partition the records. *)
Lemma records_partition {VersionConstraint : Type}
    (deps : list (Dependency VersionConstraint)) :
  Permutation deps
    (interpreter_records deps ++ dev_records deps ++ runtime_records deps)%list.
Proof.
  unfold interpreter_records, dev_records, runtime_records.
  induction deps as [|d r IH]; simpl; [constructor|].
  destruct (is_python_dep d); simpl.
  - now constructor.
  - destruct (is_dev d); simpl.
    + apply Permutation_cons_app. exact IH.
    + rewrite app_assoc. apply Permutation_cons_app. rewrite <- app_assoc. exact IH.
Qed.

Lemma convert_document_ok {VersionConstraint : Type}
    (format_python_constraint : VersionConstraint -> string)
    (poetry_project : PoetryProject VersionConstraint) (pyproject : Document)
    (ensure_src virtual_project : bool) (out : Document) :
  convert_document format_python_constraint poetry_project pyproject
    ensure_src virtual_project = Ok out ->
  exists s urls_sec,
    build_sections format_python_constraint poetry_project virtual_project
    = Ok (s, urls_sec)
    /\ build_result poetry_project s urls_sec pyproject ensure_src virtual_project = Ok out.
Proof.
  unfold convert_document. intros H.
  apply bind_ok in H as ([s urls_sec] & H1 & H2). eauto.
Qed.

Section ConvertDocument.

Context {VersionConstraint : Type}.
Variable format_python_constraint : VersionConstraint -> string.
Variable poetry_project : PoetryProject VersionConstraint.
Variable pyproject : Document.
Variables ensure_src virtual_project : bool.

Local Abbreviation deps := (dependencies poetry_project).
Local Abbreviation line_of := (fun d : Dependency VersionConstraint => String_ (to_str d)).

(** C1.  In the document [convert] writes for a project with at most one
    interpreter-constraint record, every dependency record is in exactly
    one place: the interpreter record gives "requires-python", the
    development records are the values of [tool.rye]'s "dev-dependencies"
    and the remaining records are the values of [project]'s "dependencies",
    one value per record and in the order of the input.  The three kinds
    partition the input, so no record is lost and none is repeated. *)
Theorem convert_partitions_dependencies (out : Document) :
  convert_document format_python_constraint poetry_project pyproject
    ensure_src virtual_project = Ok out ->
  In "tool" (Dict.keys pyproject) ->
  length (interpreter_records deps) <= 1 ->
  Permutation deps (interpreter_records deps ++ dev_records deps ++ runtime_records deps)%list
  /\ exists prj tool rye body,
       Dict.get "project" out = Some (Table_ prj)
       /\ Dict.get "tool" out = Some (Table_ tool)
       /\ Dict.get "rye" tool = Some (Table_ rye)
       /\ Dict.get "dependencies" prj = Some (Array_ body)
       /\ values body = map line_of (runtime_records deps)
       /\ ((dev_records deps = [] /\ Dict.get "dev-dependencies" rye = None)
           \/ exists dev_body,
                Dict.get "dev-dependencies" rye = Some (Array_ dev_body)
                /\ values dev_body = map line_of (dev_records deps))
       /\ ((interpreter_records deps = [] /\ Dict.get "requires-python" prj = None)
           \/ exists d,
                interpreter_records deps = [d]
                /\ Dict.get "requires-python" prj
                   = Some (String_ (format_python_constraint (version d)))).
Proof.
  intros H Htool Hone. split; [apply records_partition|].
  apply convert_document_ok in H as (s & urls_sec & Hs & Hr).
  destruct (build_sections_entries _ _ _ _ _ Hs) as (S1 & S2 & S3 & _).
  destruct (build_result_tool _ _ _ _ _ _ _ Hr Htool)
    as (tool_in & t_in & t_out & _ & _ & Ht & Hrye & _).
  exists (project_sec s), t_out, (tool_rye_sec s),
    (add_blank_line (dependency_lines (runtime_records deps))).
  split; [exact (build_result_project _ _ _ _ _ _ _ Hr)|].
  split; [exact Ht|]. split; [exact Hrye|]. split; [exact S1|].
  split; [apply values_closed_lines|]. split.
  - destruct (dev_records deps) as [|d0 l] eqn:E; [now left|].
    right. eexists. split; [exact S2|]. apply values_closed_lines.
  - unfold python_entry in S3.
    destruct (interpreter_records deps) as [|d [|d' l]] eqn:E; simpl in *.
    + now left.
    + right. now exists d.
    + lia.
Qed.

(** C10.  The "project" table of the output always has a "dependencies"
    array, which holds one line per runtime record followed by a blank
    line, so only the blank line when there is no runtime record; the
    "dev-dependencies" key of [tool.rye] is there exactly when some record
    other than the interpreter constraint is a development record. *)
Theorem dependencies_key_always_present (out : Document) :
  convert_document format_python_constraint poetry_project pyproject
    ensure_src virtual_project = Ok out ->
  (exists prj,
      Dict.get "project" out = Some (Table_ prj)
      /\ Dict.get "dependencies" prj
         = Some (Array_ (dependency_lines (runtime_records deps) ++ [Whitespace_ newline])%list)
      /\ (runtime_records deps = [] ->
          Dict.get "dependencies" prj = Some (Array_ [Whitespace_ newline])))
  /\ (In "tool" (Dict.keys pyproject) ->
      exists tool rye,
        Dict.get "tool" out = Some (Table_ tool)
        /\ Dict.get "rye" tool = Some (Table_ rye)
        /\ (Dict.mem "dev-dependencies" rye = true
            <-> exists d, In d deps /\ is_python_dep d = false /\ is_dev d = true)).
Proof.
  intros H.
  apply convert_document_ok in H as (s & urls_sec & Hs & Hr).
  destruct (build_sections_entries _ _ _ _ _ Hs) as (S1 & S2 & _).
  split.
  - exists (project_sec s).
    split; [exact (build_result_project _ _ _ _ _ _ _ Hr)|].
    split; [exact S1|]. intros E. rewrite S1, E. reflexivity.
  - intros Htool.
    destruct (build_result_tool _ _ _ _ _ _ _ Hr Htool)
      as (tool_in & t_in & t_out & _ & _ & Ht & Hrye & _).
    exists t_out, (tool_rye_sec s). split; [exact Ht|]. split; [exact Hrye|].
    unfold Dict.mem. rewrite S2. unfold dev_records.
    destruct (filter _ deps) as [|d0 l] eqn:E.
    + split; [discriminate|]. intros (d & Hd & Hp & Hv).
      assert (Hin : In d (filter (fun d => negb (is_python_dep d) && is_dev d) deps))
        by (apply filter_In; rewrite Hp, Hv; auto).
      rewrite E in Hin. contradiction.
    + split; [|reflexivity]. intros _. exists d0.
      assert (Hin : In d0 (filter (fun d => negb (is_python_dep d) && is_dev d) deps))
        by (rewrite E; now left).
      apply filter_In in Hin as [Hin Hb].
      apply andb_true_iff in Hb as [Hp Hv].
      apply negb_true_iff in Hp. auto.
Qed.

End ConvertDocument.

Lemma convert_partitions_dependencies_witness :
  exists out prj body,
    convert_document demo_format demo_project demo_pyproject true false = Ok out
    /\ Dict.get "project" out = Some (Table_ prj)
    /\ Dict.get "dependencies" prj = Some (Array_ body)
    /\ values body = [String_ "requests>=2.31"; String_ "tomlkit>=0.4"]
    /\ Dict.get "requires-python" prj = Some (String_ ">=3.9,<4.0").
Proof.
  destruct (convert_document demo_format demo_project demo_pyproject true false)
    as [out| |] eqn:E; try (vm_compute in E; discriminate E).
  destruct (convert_partitions_dependencies demo_format demo_project demo_pyproject
              true false out E)
    as (_ & prj & tool & rye & body & H1 & _ & _ & H4 & H5 & _ & H7).
  - simpl. auto.
  - simpl. lia.
  - exists out, prj, body. repeat split; auto.
    destruct H7 as [[H7 _]|(d & Hd & H7)]; [discriminate H7|].
    injection Hd as <-. exact H7.
Defined.

Lemma dependencies_key_always_present_witness :
  exists out prj,
    convert_document demo_format demo_project demo_pyproject true true = Ok out
    /\ Dict.get "project" out = Some (Table_ prj)
    /\ Dict.get "dependencies" prj
       = Some (Array_ (dependency_lines (runtime_records demo_dependencies)
                       ++ [Whitespace_ newline])%list).
Proof.
  destruct (convert_document demo_format demo_project demo_pyproject true true)
    as [out| |] eqn:E; try (vm_compute in E; discriminate E).
  destruct (dependencies_key_always_present demo_format demo_project demo_pyproject
              true true out E) as ((prj & H1 & H2 & _) & _).
  exists out, prj. auto.
Defined.

Section ConvertSections.

Context {VersionConstraint : Type}.
Variable format_python_constraint : VersionConstraint -> string.
Variable poetry_project : PoetryProject VersionConstraint.
Variable pyproject : Document.
Variables ensure_src virtual_project : bool.

(** C2, as amended.  In the document [convert] writes, every top-level
    table of the input other than "project", "tool" and "build-system" is
    copied unchanged.  For an input with a "tool" table, which is where
    the project is read from, the output "tool" table holds a "rye" table
    with "managed" true and "virtual" equal to the [virtual_project]
    argument, no "poetry" entry, and every entry of the input "tool"
    table under another key than these two unchanged, except "hatch" when
    the project is not virtual; it holds nothing else.  An entry "rye" of the input is, on a run that
    returns, a table without a header of its own. *)
Theorem convert_copies_sections (out : Document) :
  convert_document format_python_constraint poetry_project pyproject
    ensure_src virtual_project = Ok out ->
  (forall name v,
      Dict.get name pyproject = Some v ->
      name <> "project" -> name <> "tool" -> name <> "build-system" ->
      Dict.get name out = Some v)
  /\ (In "tool" (Dict.keys pyproject) ->
      exists tool_in t_in t_out rye,
        Dict.get "tool" pyproject = Some tool_in
        /\ items tool_in = Ok t_in
        /\ Dict.get "tool" out = Some (Table_ t_out)
        /\ Dict.get "poetry" t_out = None
        /\ Dict.get "rye" t_out = Some (Table_ rye)
        /\ Dict.get "managed" rye = Some (Bool_ true)
        /\ Dict.get "virtual" rye = Some (Bool_ virtual_project)
        /\ (forall k v, In (k, v) t_in -> k <> "rye" -> k <> "poetry" ->
              (virtual_project = false -> k <> "hatch") ->
              In (k, v) t_out)
        /\ (forall k, k <> "rye" -> k <> "poetry" ->
              (virtual_project = false -> k <> "hatch") ->
              Dict.get k t_out = Dict.get k t_in)
        /\ (forall k v, In (k, v) t_out ->
              (k = "rye" /\ v = Table_ rye)
              \/ (virtual_project = false /\ k = "hatch")
              \/ (k <> "poetry" /\ In (k, v) t_in))
        /\ (forall v, In ("rye", v) t_in -> exists body, v = SuperTable_ body)).
Proof.
  intros H.
  apply convert_document_ok in H as (s & urls_sec & Hs & Hr).
  destruct (build_sections_entries _ _ _ _ _ Hs) as (_ & _ & _ & S4 & S5).
  split.
  - intros name v Hv N1 N2 N3. rewrite <- Hv.
    apply (build_result_copied _ _ _ _ _ _ _ Hr); auto.
    apply in_keys_get. eauto.
  - intros Htool.
    destruct (build_result_tool _ _ _ _ _ _ _ Hr Htool)
      as (tool_in & t_in & t_out & Hin & Hitems & Ht & Hrye & Hnp & _ & Hsuper
          & Hkept & Hfrom & Hget & _).
    exists tool_in, t_in, t_out, (tool_rye_sec s).
    split; [exact Hin|]. split; [exact Hitems|]. split; [exact Ht|].
    split; [now apply get_none_not_in|]. split; [exact Hrye|].
    split; [exact S4|]. split; [exact S5|].
    split; [intros k v Hv _; now apply Hkept|].
    split; [exact Hget|]. split; [exact Hfrom|exact Hsuper].
Qed.

(** C3.  A virtual project gets no "build-system" table, whether or not
    the input has one.  For a project that is not virtual and whose input
    has a "build-system" table [bs] with the entries [t], the output has
    a table of the same kind, with or without a header: its "requires"
    array is the input one without the items that contain "poetry-core"
    and with "hatchling" appended, "build-backend" is "hatchling.build",
    and the other entries of the table are kept. *)
Theorem convert_build_system (out : Document) :
  convert_document format_python_constraint poetry_project pyproject
    ensure_src virtual_project = Ok out ->
  (virtual_project = true -> Dict.get "build-system" out = None)
  /\ (virtual_project = false ->
      In "build-system" (Dict.keys pyproject) ->
      exists bs t body t',
        Dict.get "build-system" pyproject = Some bs
        /\ subscript bs = Ok t
        /\ Dict.get "requires" t = Some (Array_ body)
        /\ Dict.get "build-system" out = Some (with_body bs t')
        /\ Dict.get "requires" t'
           = Some (of_list (filter (fun x => negb (mentions_poetry_core x)) (values body)
                            ++ [String_ "hatchling"])%list)
        /\ Dict.get "build-backend" t' = Some (String_ "hatchling.build")
        /\ (forall k, k <> "requires" -> k <> "build-backend" ->
              Dict.get k t' = Dict.get k t))
  /\ (forall s : string,
        mentions_poetry_core (String_ s) = PyStr.contains "poetry-core" s)
  /\ of_list (filter (fun x => negb (mentions_poetry_core x))
                (values [Value_ (String_ "poetry-core>=1.0")]) ++ [String_ "hatchling"])%list
     = Array_ [Value_ (String_ "hatchling")].
Proof.
  intros H.
  apply convert_document_ok in H as (s & urls_sec & Hs & Hr).
  split; [|split; [|split]].
  - apply (build_result_virtual_build_system _ _ _ _ _ _ _ Hr).
  - apply (build_result_build_system _ _ _ _ _ _ _ Hr).
  - reflexivity.
  - reflexivity.
Qed.

End ConvertSections.

Lemma convert_copies_sections_witness :
  exists out t_out,
    convert_document demo_format demo_project demo_pyproject true true = Ok out
    /\ Dict.get "mypy" out = Some (Table_ [("strict", Bool_ true)])
    /\ Dict.get "tool" out = Some (Table_ t_out)
    /\ In ("black", Table_ [("line-length", Integer_ 88)]) t_out
    /\ Dict.get "poetry" t_out = None.
Proof.
  destruct (convert_document demo_format demo_project demo_pyproject true true)
    as [out| |] eqn:E; try (vm_compute in E; discriminate E).
  destruct (convert_copies_sections demo_format demo_project demo_pyproject
              true true out E) as [Hcopy Htool].
  destruct Htool as (tool_in & t_in & t_out & rye & H1 & H2 & H3 & H4 & _ & _ & _ & H8 & _).
  - simpl. auto.
  - cbn in H1. injection H1 as <-. cbn in H2. injection H2 as <-.
    exists out, t_out. split; [reflexivity|].
    split; [apply Hcopy; [reflexivity | discriminate ..]|].
    split; [exact H3|]. split; [|exact H4].
    apply H8; [simpl; auto | discriminate | discriminate | intros Hv; discriminate Hv].
Defined.

(** The claim C2 as the specification words it fails on the sample
    projects: converted as a virtual project, the "build-system" table
    is not copied; converted as a package, the [tool.hatch] table is
    replaced; and where the input has [tool.rye.scripts], what is under
    "rye" in the output is not what was under "rye" in the input. *)
Lemma convert_copies_sections_counterexample :
  (exists out bs,
      convert_document demo_format demo_project demo_pyproject true true = Ok out
      /\ Dict.get "build-system" demo_pyproject = Some bs
      /\ Dict.get "build-system" out = None)
  /\ (exists out t_in t_out h h',
        convert_document demo_format demo_project demo_pyproject true false = Ok out
        /\ Dict.get "tool" demo_pyproject = Some (Table_ t_in)
        /\ Dict.get "tool" out = Some (Table_ t_out)
        /\ Dict.get "hatch" t_in = Some h
        /\ Dict.get "hatch" t_out = Some h'
        /\ h <> h')
  /\ (exists out t_in t_out r r',
        convert_document demo_format demo_project rye_pyproject true true = Ok out
        /\ Dict.get "tool" rye_pyproject = Some (SuperTable_ t_in)
        /\ Dict.get "tool" out = Some (Table_ t_out)
        /\ Dict.get "rye" t_in = Some r
        /\ Dict.get "rye" t_out = Some r'
        /\ r <> r').
Proof.
  split; [|split].
  - eexists. eexists. split; [vm_compute; reflexivity|].
    split; reflexivity.
  - do 5 eexists. split; [vm_compute; reflexivity|].
    split; [reflexivity|]. split; [reflexivity|].
    split; [reflexivity|]. split; [reflexivity|].
    intros E. discriminate E.
  - do 5 eexists. split; [vm_compute; reflexivity|].
    split; [reflexivity|]. split; [reflexivity|].
    split; [reflexivity|]. split; [reflexivity|].
    intros E. discriminate E.
Qed.

Lemma convert_build_system_witness :
  exists out t',
    convert_document demo_format demo_project demo_pyproject true false = Ok out
    /\ Dict.get "build-system" out = Some (Table_ t')
    /\ Dict.get "requires" t' = Some (Array_ [Value_ (String_ "hatchling")])
    /\ Dict.get "build-backend" t' = Some (String_ "hatchling.build").
Proof.
  destruct (convert_document demo_format demo_project demo_pyproject true false)
    as [out| |] eqn:E; try (vm_compute in E; discriminate E).
  destruct (convert_build_system demo_format demo_project demo_pyproject true false out E)
    as (_ & H & _).
  destruct (H eq_refl) as (bs & t & body & t' & H1 & Hb & H2 & H3 & H4 & H5 & _).
  - simpl. auto.
  - injection H1 as <-. injection Hb as <-. injection H2 as <-.
    exists out, t'. repeat split; auto.
Defined.

(** ** Paths *)

Section PathFacts.

Implicit Types (d p r : Path).

Lemma path_eqb_refl p : path_eqb p p = true.
Proof. induction p as [|x p IH]; simpl; auto. now rewrite String.eqb_refl. Qed.

Lemma path_eqb_eq p : forall q, path_eqb p q = true <-> p = q.
Proof.
  induction p as [|x p IH]; intros [|y q]; simpl; split; try congruence.
  - intros H. apply andb_true_iff in H as [E H].
    apply String.eqb_eq in E as ->. now apply IH in H as ->.
  - intros [= -> ->]. now rewrite String.eqb_refl, path_eqb_refl.
Qed.

Lemma path_eqb_neq p q : path_eqb p q = false <-> p <> q.
Proof.
  rewrite <- path_eqb_eq. destruct (path_eqb p q); split; congruence.
Qed.

Lemma strip_prefix_app d r : strip_prefix d (d ++ r)%list = Some r.
Proof. induction d as [|x d IH]; simpl; auto. now rewrite String.eqb_refl. Qed.

Lemma strip_prefix_some d : forall p r, strip_prefix d p = Some r -> p = (d ++ r)%list.
Proof.
  induction d as [|x d IH]; simpl; intros p r H.
  - now injection H as ->.
  - destruct p as [|y p]; [discriminate|].
    destruct (String.eqb x y) eqn:E; [|discriminate].
    apply String.eqb_eq in E as ->. simpl. f_equal. auto.
Qed.

Lemma is_prefix_app d r : is_prefix d (d ++ r)%list = true.
Proof. induction d as [|x d IH]; simpl; auto. now rewrite String.eqb_refl. Qed.

Lemma is_prefix_true d : forall p, is_prefix d p = true -> exists r, p = (d ++ r)%list.
Proof.
  induction d as [|x d IH]; simpl; intros p H; [eauto|].
  destruct p as [|y p]; [discriminate|].
  apply andb_true_iff in H as [E H]. apply String.eqb_eq in E as ->.
  destruct (IH p H) as [r ->]. eauto.
Qed.

Lemma strip_prefix_none d : forall p, is_prefix d p = false -> strip_prefix d p = None.
Proof.
  induction d as [|x d IH]; simpl; intros p H; [discriminate|].
  destruct p as [|y p]; auto.
  destruct (String.eqb x y); simpl in H; auto.
Qed.

Lemma is_prefix_refl p : is_prefix p p = true.
Proof. rewrite <- (app_nil_r p) at 2. apply is_prefix_app. Qed.

Lemma is_prefix_trans a b c : is_prefix a b = true -> is_prefix b c = true -> is_prefix a c = true.
Proof.
  intros H1 H2. apply is_prefix_true in H1 as [r ->]. apply is_prefix_true in H2 as [r' ->].
  rewrite <- app_assoc. apply is_prefix_app.
Qed.

(** Two ancestors of one path are ancestors of one another. *)
Lemma is_prefix_comparable a : forall b p,
  is_prefix a p = true -> is_prefix b p = true ->
  is_prefix a b = true \/ is_prefix b a = true.
Proof.
  induction a as [|x a IH]; simpl; intros b p Ha Hb; [now left|].
  destruct p as [|z p]; [discriminate|].
  destruct b as [|y b]; [now right|]. simpl in *.
  apply andb_true_iff in Ha as [E1 Ha]. apply andb_true_iff in Hb as [E2 Hb].
  apply String.eqb_eq in E1 as ->. apply String.eqb_eq in E2 as ->.
  rewrite String.eqb_refl. simpl. eauto.
Qed.

Lemma is_prefix_child_false d name : is_prefix (child d name) d = false.
Proof.
  unfold child. induction d as [|x d IH]; simpl; auto.
  now rewrite String.eqb_refl.
Qed.

Lemma parent_child d name : parent (child d name) = d.
Proof. unfold parent, child. apply removelast_last. Qed.

End PathFacts.

(** ** The calls on the file system *)

Section OsFacts.

Lemma update_same fs p n : update fs p n p = n.
Proof. unfold update. now rewrite path_eqb_refl. Qed.

Lemma update_other fs p n q : q <> p -> update fs p n q = fs q.
Proof. unfold update. intros H. apply path_eqb_neq in H. now rewrite H. Qed.

(** After a copy that returns, the tree is at the destination and is
    still at the source. *)
Lemma copytree_ok src dst dirs_exist_ok symlinks fs fs' :
  copytree src dst dirs_exist_ok symlinks fs = Ok fs' ->
  (forall rel, fs' (dst ++ rel)%list = fs (src ++ rel)%list)
  /\ (forall rel, fs' (src ++ rel)%list = fs (src ++ rel)%list).
Proof.
  unfold copytree. intros H.
  destruct (fs src) as [[c|]|]; try discriminate.
  destruct (fs dst) as [[c|]|]; try discriminate.
  { destruct dirs_exist_ok; discriminate. }
  destruct (is_prefix src dst || is_prefix dst src) eqn:E; [discriminate|].
  apply orb_false_iff in E as [E1 E2].
  destruct (existsb (is_file fs) (ancestors dst)); [discriminate|].
  injection H as <-. unfold copy_tree. split; intros rel.
  - now rewrite strip_prefix_app.
  - destruct (is_prefix dst (src ++ rel)%list) eqn:Ed.
    + destruct (is_prefix_comparable src dst (src ++ rel)%list (is_prefix_app _ _) Ed);
        congruence.
    + rewrite (strip_prefix_none _ _ Ed).
      destruct (fs (src ++ rel)%list) eqn:Ef; auto.
      destruct (is_prefix (src ++ rel)%list dst) eqn:Ep; auto.
      rewrite (is_prefix_trans src (src ++ rel)%list dst (is_prefix_app _ _) Ep) in E1.
      discriminate.
Qed.

End OsFacts.

(** ** Running the calls *)

Section RunFacts.

Local Open Scope io_scope.

Lemma bindM_ok {A B : Type} (m : M A) (k : A -> M B) (w w' : World) (a : A) :
  m w = (Ok a, w') -> bindM m k w = k a w'.
Proof. unfold bindM. now intros ->. Qed.

Lemma path_exists_run p w :
  path_exists p w
  = (Ok (exists_ (fs w) p), {| fs := fs w; trace := (trace w ++ [EvExists p])%list |}).
Proof. reflexivity. Qed.

Lemma path_mkdir_run p w fs' :
  mkdir p (fs w) = Ok fs' ->
  path_mkdir p w = (Ok tt, {| fs := fs'; trace := (trace w ++ [EvMkdir p])%list |}).
Proof.
  intros H. unfold path_mkdir, bindM, emit, change. simpl. now rewrite H.
Qed.

Lemma mkdir_ok p fs :
  fs p = None -> fs (parent p) = Some Dir -> mkdir p fs = Ok (update fs p (Some Dir)).
Proof. unfold mkdir, check_parent. now intros -> ->. Qed.

End RunFacts.

(** ** The move under [src] *)

Lemma move_to_src_skip {VersionConstraint : Type}
    (poetry_project : PoetryProject VersionConstraint) (project_path : Path) (w : World) :
  exists_ (fs w) (child project_path "src") = true ->
  move_to_src poetry_project project_path w
  = (Ok tt, {| fs := fs w;
               trace := (trace w ++ [EvExists (child project_path "src")])%list |}).
Proof.
  intros H. unfold move_to_src.
  rewrite (bindM_ok _ _ _ _ _ (path_exists_run _ _)).
  rewrite H. reflexivity.
Qed.


(** ** Traces *)

Section TraceFacts.

Local Open Scope io_scope.

















End TraceFacts.

(** ** The sweep *)

Lemma warn_lines_run (lines : list string) : forall (num : nat) (w : World),
  warn_lines num lines w
  = (Ok tt,
     {| fs := fs w;
        trace := (trace w ++
                  map (fun nl => EvPrint (warning (fst nl) (snd nl)))
                    (filter (fun nl => PyStr.contains "poetry" (snd nl))
                       (combine (seq num (length lines)) lines)))%list |}).
Proof.
  induction lines as [|l r IH]; intros num w; simpl.
  - destruct w. unfold ret. simpl. now rewrite app_nil_r.
  - unfold bindM. destruct (PyStr.contains "poetry" l); simpl.
    + rewrite IH. simpl. now rewrite <- app_assoc.
    + rewrite IH. reflexivity.
Qed.

Lemma write_text_ok p text fs fs' :
  write_text p text fs = Ok fs' -> fs' p = Some (File text).
Proof.
  unfold write_text. intros H.
  destruct (fs p) as [[c|]|]; try discriminate.
  - injection H as <-. apply update_same.
  - destruct (check_parent p fs); try discriminate.
    injection H as <-. apply update_same.
Qed.

Lemma open_write_ok p text w w' :
  open_write p text w = (Ok tt, w') -> fs w' p = Some (File text).
Proof.
  unfold open_write, bindM, emit, change. simpl. intros H.
  destruct (write_text p text (fs w)) as [fs'| |] eqn:E; try discriminate.
  injection H as <-. simpl. now apply write_text_ok in E.
Qed.

(** C8.  After the metadata file has been written with [text], the sweep
    reads it again and prints one warning for each line that contains
    "poetry", with the number of the line counted from 1 and the line
    stripped, in the order of the lines; it prints nothing else, changes
    no file and returns without an exception whatever the lines are. *)
Theorem sweep_warns_and_returns (project_path : Path) (text : string) (w w1 : World) :
  open_write (pyproject_toml project_path) text w = (Ok tt, w1) ->
  let lines := PyStr.readlines (PyStr.universal_newlines text) in
  sweep project_path w1
  = (Ok tt,
     {| fs := fs w1;
        trace := (trace w1 ++
                  EvRead (pyproject_toml project_path)
                  :: map (fun nl => EvPrint (warning (fst nl) (snd nl)))
                       (filter (fun nl => PyStr.contains "poetry" (snd nl))
                          (combine (seq 1 (length lines)) lines)))%list |}).
Proof.
  intros H lines. apply open_write_ok in H.
  unfold sweep, open_read, bindM, emit, observe, read_text. simpl.
  rewrite H. rewrite warn_lines_run. simpl. fold lines.
  now rewrite <- app_assoc.
Qed.

Lemma sweep_warns_and_returns_witness :
  exists w1,
    open_write (pyproject_toml demo_path) demo_text demo_world = (Ok tt, w1)
    /\ fst (sweep demo_path w1) = Ok tt
    /\ trace (snd (sweep demo_path w1))
       = [EvWrite (pyproject_toml demo_path) demo_text;
          EvRead (pyproject_toml demo_path);
          EvPrint "Warning: found 'poetry' in line 2: # was: poetry build"].
Proof.
  exists (snd (open_write (pyproject_toml demo_path) demo_text demo_world)).
  split; [reflexivity|].
  rewrite (sweep_warns_and_returns demo_path demo_text demo_world
             (snd (open_write (pyproject_toml demo_path) demo_text demo_world)) eq_refl).
  split; reflexivity.
Defined.

(** ** The backup *)

Section BackupFacts.

Context {VersionConstraint : Type}.
Variable format_python_constraint : VersionConstraint -> string.
Variable new_poetry_project : FS -> Path -> bool -> res (PoetryProject VersionConstraint).
Variable get_next_backup_path : FS -> Path -> Path.
Variable tomlkit_load : string -> res Document.
Variable tomlkit_dumps : Document -> string.

Local Abbreviation prepare_ :=
  (prepare format_python_constraint new_poetry_project tomlkit_load).
Local Abbreviation backup_ := (backup get_next_backup_path).
Local Abbreviation convert_ :=
  (convert format_python_constraint new_poetry_project get_next_backup_path
     tomlkit_load tomlkit_dumps).


(** The three statements of the backup, run. *)
Lemma backup_run project_path w :
  let b := get_next_backup_path (fs w) project_path in
  let called := [EvNextBackupPath project_path; EvCopytree project_path b true true] in
  match copytree project_path b true true (fs w) with
  | Ok fs1 =>
      backup_ project_path w
      = (Ok b, {| fs := fs1;
                  trace := (trace w ++ called
                            ++ [EvPrint ("created backup: " ++ path_str b)])%list |})
  | Raise e =>
      backup_ project_path w
      = (Raise e, {| fs := fs w; trace := (trace w ++ called)%list |})
  | Unsupported =>
      backup_ project_path w
      = (Unsupported, {| fs := fs w; trace := (trace w ++ called)%list |})
  end.
Proof.
  intros b called.
  unfold backup, shutil_copytree, print, bindM, emit, observe, change, ret. simpl.
  fold b. destruct (copytree project_path b true true (fs w)); simpl;
    now rewrite <- !app_assoc.
Qed.




End BackupFacts.

(** ** Inverting a call that returns *)

Lemma bindM_inv {A B : Type} (m : M A) (k : A -> M B) (w w' : World) (b : B) :
  bindM m k w = (Ok b, w') ->
  exists a w1, m w = (Ok a, w1) /\ k a w1 = (Ok b, w').
Proof.
  unfold bindM. destruct (m w) as [[a| |] w1]; intros H; try discriminate. eauto.
Qed.

(** ** Sample runs *)

(** With two interpreter records the later one decides "requires-python". *)
Example two_interpreter_records_last_wins :
  exists s urls_sec,
    build_sections demo_format
      {| project_name := "demo"; poetry := demo_poetry;
         dependencies :=
           [ {| is_python_dep := true; is_basic := true; version := ">=3.9";
                is_dev := false; to_str := "python>=3.9" |};
             {| is_python_dep := true; is_basic := true; version := ">=3.11";
                is_dev := true; to_str := "python>=3.11" |} ];
         module_name := "demo"; module_path := ["work"; "demo"; "demo"] |}
      false = Ok (s, urls_sec)
    /\ Dict.get "requires-python" (project_sec s) = Some (String_ ">=3.11")
    /\ Dict.get "dev-dependencies" (tool_rye_sec s) = None.
Proof. do 2 eexists. split; [vm_compute; reflexivity|]. split; reflexivity. Qed.

(** An input that has a [[tool.rye]] table with a header of its own stops
    the conversion. *)
Example existing_rye_table_raises :
  convert_document demo_format demo_project
    [("tool", Table_ [("poetry", Table_ demo_poetry);
                      ("rye", Table_ [("managed", Bool_ true)])])]
    true true
  = Raise (KeyAlreadyPresent "rye").
Proof. vm_compute. reflexivity. Qed.

(** A table [[tool.rye.scripts]] without a [[tool.rye]] header does not:
    the output has the new "rye" table and, after it, the one of the
    input. *)
Example implicit_rye_table_is_kept :
  exists out rye,
    convert_document demo_format demo_project rye_pyproject true true = Ok out
    /\ Dict.get "tool" out
       = Some (Table_
                 [("rye", Table_ rye);
                  ("rye", SuperTable_ [("scripts", Table_ [("serve", String_ "demo.web:run")])])])
    /\ Dict.get "managed" rye = Some (Bool_ true).
Proof. do 2 eexists. split; [vm_compute; reflexivity|]. split; reflexivity. Qed.

(** A package without a "tool" table in the file read by [convert] stops
    at the hatch tables. *)
Example missing_tool_table_raises :
  convert_document demo_format demo_project [("mypy", Table_ [])] true false
  = Raise (KeyError "tool").
Proof. vm_compute. reflexivity. Qed.

(** The calls of a whole run on the sample project, in order. *)
Example demo_run_trace :
  let run := convert demo_format demo_new_project demo_backup_path demo_load demo_dumps
               demo_path true false demo_world in
  fst run = Ok tt
  /\ trace (snd run)
     = [EvPoetryProject demo_path true;
        EvRead ["work"; "demo"; "pyproject.toml"];
        EvNextBackupPath demo_path;
        EvCopytree demo_path ["work"; "demo.bak"] true true;
        EvPrint "created backup: /work/demo.bak";
        EvWrite ["work"; "demo"; "pyproject.toml"] demo_text;
        EvRead ["work"; "demo"; "pyproject.toml"];
        EvPrint "Warning: found 'poetry' in line 2: # was: poetry build";
        EvExists ["work"; "demo"; "poetry.lock"];
        EvRemove ["work"; "demo"; "poetry.lock"];
        EvExists ["work"; "demo"; "src"];
        EvMkdir ["work"; "demo"; "src"];
        EvMove ["work"; "demo"; "demo"] ["work"; "demo"; "src"; "demo"]]
  /\ fs (snd run) ["work"; "demo.bak"; "demo"; "__init__.py"] = Some (File "")
  /\ fs (snd run) ["work"; "demo"; "poetry.lock"] = None.
Proof. vm_compute. repeat split; reflexivity. Qed.

(** * More of [convert] *)

(** ** The fields of the "project" table *)

Section ProjectFields.

Context {VersionConstraint : Type}.
Variable format_python_constraint : VersionConstraint -> string.
Variable poetry_project : PoetryProject VersionConstraint.
Variable virtual_project : bool.

Local Abbreviation p := (poetry poetry_project).

Lemma map_read_name_email_ok xs people :
  map_read_name_email xs = Ok people ->
  exists ss,
    xs = map String_ ss
    /\ people = map (fun s => Table_ (map (fun kv => (fst kv, String_ (snd kv)))
                                        (read_name_email s))) ss.
Proof.
  revert people. induction xs as [|x r IH]; simpl; intros people H.
  - injection H as <-. now exists [].
  - destruct x; try discriminate.
    apply bind_ok in H as (rest & Hr & H). injection H as <-.
    destruct (IH rest Hr) as (ss & -> & ->). now exists (s :: ss).
Qed.

Lemma set_people_ok k src d d' :
  set_people k src d = Ok d' ->
  exists ss,
    src = map String_ ss
    /\ d' = match ss with
            | [] => d
            | _ => Dict.set k
                     (of_list (map (fun s => Table_ (map (fun kv => (fst kv, String_ (snd kv)))
                                                       (read_name_email s))) ss)) d
            end.
Proof.
  unfold set_people. intros H. apply bind_ok in H as (people & Hp & H).
  apply map_read_name_email_ok in Hp as (ss & -> & ->).
  exists ss. split; auto. destruct ss; simpl in *; now injection H as <-.
Qed.

(** The table before the dependency loop, and what the rest of
    [build_sections] leaves of it. *)
Lemma build_sections_inv (s : Sections) (urls_sec : Table) :
  build_sections format_python_constraint poetry_project virtual_project = Ok (s, urls_sec) ->
  exists ver descr authors_body authors maintainers prj1 prj2,
    Dict.get "version" p = Some ver
    /\ Dict.get "description" p = Some descr
    /\ Dict.get "authors" p = Some (Array_ authors_body)
    /\ values authors_body = map String_ authors
    /\ match Dict.get "maintainers" p with
       | Some m => exists body, m = Array_ body /\ values body = map String_ maintainers
       | None => maintainers = []
       end
    /\ set_people "authors" (map String_ authors)
         (Dict.set "description" descr
            (Dict.set "version" ver
               (Dict.set "name" (String_ (project_name poetry_project)) []))) = Ok prj1
    /\ set_people "maintainers" (map String_ maintainers) prj1 = Ok prj2
    /\ (forall k, k <> "dependencies" -> k <> "requires-python" -> k <> "scripts" ->
          Dict.get k (project_sec s)
          = Dict.get k (copy_if_truthy p "classifiers" "classifiers"
                          (copy_if_truthy p "keywords" "keywords"
                             (copy_if_truthy p "readme" "readme" prj2))))
    /\ ((get_truthy "scripts" p = None /\ Dict.get "scripts" (project_sec s) = None)
        \/ exists sc entries,
             get_truthy "scripts" p = Some sc
             /\ items sc = Ok entries
             /\ Dict.get "scripts" (project_sec s) = Some (Table_ (_convert_scripts entries)))
    /\ urls_sec
       = copy_if_truthy p "documentation" "Documentation"
           (copy_if_truthy p "repository" "Repository"
              (copy_if_truthy p "homepage" "Homepage" [])).
Proof.
  intros H. unfold build_sections in H.
  apply bind_ok in H as (ver & Hver & H).
  apply bind_ok in H as (descr & Hdescr & H).
  apply bind_ok in H as (a & Ha & H).
  apply bind_ok in H as (authors & Hauthors & H).
  apply bind_ok in H as (prj1 & Hprj1 & H).
  apply bind_ok in H as (maintainers & Hmaint & H).
  apply bind_ok in H as (prj2 & Hprj2 & H).
  apply bind_ok in H as (s1 & Hloop & H).
  apply bind_ok in H as (s2 & Hclose & H).
  apply bind_ok in H as (prj3 & Hscripts & H).
  injection H as <- <-.
  unfold Dict.getitem in Hver, Hdescr, Ha.
  destruct (Dict.get "version" p) as [ver'|] eqn:Ev; [|discriminate].
  injection Hver as ->.
  destruct (Dict.get "description" p) as [descr'|] eqn:Ed; [|discriminate].
  injection Hdescr as ->.
  destruct (Dict.get "authors" p) as [a'|] eqn:Ea; [|discriminate].
  injection Ha as ->.
  apply iter_items_ok in Hauthors as (abody & -> & ->).
  destruct (set_people_ok _ _ _ _ Hprj1) as (ass & Eass & _).
  destruct (set_people_ok _ _ _ _ Hprj2) as (mss & Emss & _).
  exists ver, descr, abody, ass, mss, prj1, prj2.
  split; [reflexivity|]. split; [reflexivity|]. split; [reflexivity|].
  split; [exact Eass|]. split.
  { destruct (Dict.get "maintainers" p) as [m|].
    - apply iter_items_ok in Hmaint as (mbody & -> & ->). eauto.
    - injection Hmaint as <-. destruct mss; [reflexivity|discriminate]. }
  split; [now rewrite <- Eass|]. split; [now rewrite <- Emss|].
  apply dependency_loop in Hloop; simpl.
  2: apply get_set_same.
  2: { rewrite get_set_other by discriminate.
       rewrite !copy_if_truthy_get_other by discriminate.
       rewrite (set_people_get_other _ _ _ _ "requires-python" Hprj2) by discriminate.
       rewrite (set_people_get_other _ _ _ _ "requires-python" Hprj1) by discriminate.
       reflexivity. }
  2: reflexivity.
  destruct Hloop as (_ & _ & _ & L4 & _). simpl in L4.
  unfold close_arrays in Hclose.
  apply bind_ok in Hclose as (rye & _ & Hclose).
  apply bind_ok in Hclose as (prj & Hprj & Hclose).
  injection Hclose as <-. simpl in Hscripts.
  apply add_blank_line_at_ok in Hprj as (body & _ & ->).
  assert (Hpre : forall k, k <> "dependencies" -> k <> "requires-python" ->
            Dict.get k (Dict.set "dependencies" (Array_ (add_blank_line body)) (project_sec s1))
            = Dict.get k (copy_if_truthy p "classifiers" "classifiers"
                            (copy_if_truthy p "keywords" "keywords"
                               (copy_if_truthy p "readme" "readme" prj2)))).
  { intros k K1 K2. rewrite get_set_other by auto. rewrite L4 by auto.
    now rewrite get_set_other by auto. }
  split; [|split; [|reflexivity]].
  - intros k K1 K2 K3. rewrite <- Hpre by auto.
    destruct (get_truthy "scripts" p).
    + apply bind_ok in Hscripts as (entries & _ & Hs). injection Hs as <-.
      now apply get_set_other.
    + now injection Hscripts as <-.
  - destruct (get_truthy "scripts" p) as [sc|].
    + apply bind_ok in Hscripts as (entries & He & Hs). injection Hs as <-.
      right. exists sc, entries. split; [reflexivity|]. split; [exact He|].
      apply get_set_same.
    + left. split; [reflexivity|].
      injection Hscripts as <-. rewrite Hpre by discriminate.
      rewrite !copy_if_truthy_get_other by discriminate.
      rewrite (set_people_get_other _ _ _ _ "scripts" Hprj2) by discriminate.
      rewrite (set_people_get_other _ _ _ _ "scripts" Hprj1) by discriminate.
      reflexivity.
Qed.

End ProjectFields.

Lemma map_read_name_email_strings (ss : list string) :
  map_read_name_email (map String_ ss)
  = Ok (map (fun s => Table_ (map (fun kv => (fst kv, String_ (snd kv)))
                            (read_name_email s))) ss).
Proof.
  induction ss as [|s r IH]; simpl; [reflexivity|]. now rewrite IH.
Qed.

Lemma set_people_strings (k : string) (ss : list string) (d : Table) :
  set_people k (map String_ ss) d
  = Ok match ss with
       | [] => d
       | _ => Dict.set k
                (of_list (map (fun s => Table_ (map (fun kv => (fst kv, String_ (snd kv)))
                                                  (read_name_email s))) ss)) d
       end.
Proof.
  unfold set_people. rewrite map_read_name_email_strings. now destruct ss.
Qed.

Section ProjectTable.

Context {VersionConstraint : Type}.
Variable format_python_constraint : VersionConstraint -> string.
Variable poetry_project : PoetryProject VersionConstraint.
Variable pyproject : Document.
Variables ensure_src virtual_project : bool.

Local Abbreviation p := (poetry poetry_project).
Local Abbreviation author_table :=
  (fun s => Table_ (map (fun kv => (fst kv, String_ (snd kv))) (read_name_email s))).
Local Abbreviation convert_document_ :=
  (convert_document format_python_constraint poetry_project pyproject
     ensure_src virtual_project).

(** X1.  The "project" table of the output has the project name and the
    "version" and "description" items of [tool.poetry], and it never has
    a "license" entry, whatever [tool.poetry] holds. *)
Theorem project_required_fields (out : Document) :
  convert_document_ = Ok out ->
  exists prj ver descr,
    Dict.get "project" out = Some (Table_ prj)
    /\ Dict.get "version" p = Some ver
    /\ Dict.get "description" p = Some descr
    /\ Dict.get "name" prj = Some (String_ (project_name poetry_project))
    /\ Dict.get "version" prj = Some ver
    /\ Dict.get "description" prj = Some descr
    /\ Dict.get "license" prj = None.
Proof.
  intros H. apply convert_document_ok in H as (s & urls_sec & Hs & Hr).
  destruct (build_sections_inv _ _ _ _ _ Hs)
    as (ver & descr & ab & authors & maintainers & prj1 & prj2
        & Hv & Hd & _ & _ & _ & H1 & H2 & Hk & _).
  exists (project_sec s), ver, descr.
  split; [exact (build_result_project _ _ _ _ _ _ _ Hr)|].
  split; [exact Hv|]. split; [exact Hd|].
  assert (Hpre : forall k, k <> "dependencies" -> k <> "requires-python" -> k <> "scripts" ->
            k <> "classifiers" -> k <> "keywords" -> k <> "readme" ->
            k <> "maintainers" -> k <> "authors" ->
            Dict.get k (project_sec s)
            = Dict.get k (Dict.set "description" descr
                            (Dict.set "version" ver
                               (Dict.set "name" (String_ (project_name poetry_project)) [])))).
  { intros k ? ? ? ? ? ? ? ?. rewrite Hk by auto.
    rewrite !copy_if_truthy_get_other by auto.
    rewrite (set_people_get_other _ _ _ _ k H2) by auto.
    now rewrite (set_people_get_other _ _ _ _ k H1) by auto. }
  repeat split.
  - rewrite Hpre by discriminate. now rewrite !get_set_other by discriminate.
  - rewrite Hpre by discriminate. rewrite get_set_other by discriminate. apply get_set_same.
  - rewrite Hpre by discriminate. apply get_set_same.
  - rewrite Hpre by discriminate. now rewrite !get_set_other by discriminate.
Qed.

(** X2.  The conversion needs "version", "description" and "authors" in
    [tool.poetry]: the first of them that is missing, in this order, is
    the [KeyError] that [convert] raises, before it reads the metadata
    file again. *)
Theorem missing_field_raises_key_error :
  (Dict.get "version" p = None -> convert_document_ = Raise (KeyError "version"))
  /\ (Dict.get "version" p <> None -> Dict.get "description" p = None ->
      convert_document_ = Raise (KeyError "description"))
  /\ (Dict.get "version" p <> None -> Dict.get "description" p <> None ->
      Dict.get "authors" p = None ->
      convert_document_ = Raise (KeyError "authors")).
Proof.
  unfold convert_document, build_sections, Dict.getitem.
  repeat split.
  - intros ->. reflexivity.
  - intros Hv ->. destruct (Dict.get "version" p); [reflexivity|contradiction].
  - intros Hv Hd ->.
    destruct (Dict.get "version" p); [|contradiction].
    destruct (Dict.get "description" p); [reflexivity|contradiction].
Qed.

(** X3.  The "authors" array of the output holds one {name, email} table
    per author string of [tool.poetry], in the same order, each made by
    [read_name_email]; there is no "authors" key when the input array is
    empty.  The same holds for "maintainers", which may also be absent
    from the input. *)
Theorem authors_and_maintainers (out : Document) :
  convert_document_ = Ok out ->
  exists prj authors_body authors maintainers,
    Dict.get "project" out = Some (Table_ prj)
    /\ Dict.get "authors" p = Some (Array_ authors_body)
    /\ values authors_body = map String_ authors
    /\ match Dict.get "maintainers" p with
       | Some m => exists body, m = Array_ body /\ values body = map String_ maintainers
       | None => maintainers = []
       end
    /\ Dict.get "authors" prj
       = match authors with
         | [] => None
         | _ => Some (of_list (map author_table authors))
         end
    /\ Dict.get "maintainers" prj
       = match maintainers with
         | [] => None
         | _ => Some (of_list (map author_table maintainers))
         end.
Proof.
  intros H. apply convert_document_ok in H as (s & urls_sec & Hs & Hr).
  destruct (build_sections_inv _ _ _ _ _ Hs)
    as (ver & descr & ab & authors & maintainers & prj1 & prj2
        & _ & _ & Ha & Hav & Hm & H1 & H2 & Hk & _).
  exists (project_sec s), ab, authors, maintainers.
  split; [exact (build_result_project _ _ _ _ _ _ _ Hr)|].
  split; [exact Ha|]. split; [exact Hav|]. split; [exact Hm|].
  rewrite set_people_strings in H1, H2. injection H1 as <-. injection H2 as <-.
  split.
  - rewrite Hk by discriminate. rewrite !copy_if_truthy_get_other by discriminate.
    assert (Hin : forall d : Table,
              Dict.get "authors"
                match maintainers with
                | [] => d
                | _ => Dict.set "maintainers" (of_list (map author_table maintainers)) d
                end = Dict.get "authors" d).
    { intros d. destruct maintainers; auto. now apply get_set_other. }
    rewrite Hin. destruct authors; reflexivity.
  - rewrite Hk by discriminate. rewrite !copy_if_truthy_get_other by discriminate.
    destruct maintainers; [|apply get_set_same].
    destruct authors; reflexivity.
Qed.

(** X4.  The optional items "readme", "keywords" and "classifiers" are
    copied to the "project" table under the same key when they are there
    and true for Python (not empty), and are left out otherwise. *)
Theorem optional_fields_copied_when_truthy (out : Document) :
  convert_document_ = Ok out ->
  exists prj,
    Dict.get "project" out = Some (Table_ prj)
    /\ Dict.get "readme" prj = get_truthy "readme" p
    /\ Dict.get "keywords" prj = get_truthy "keywords" p
    /\ Dict.get "classifiers" prj = get_truthy "classifiers" p.
Proof.
  intros H. apply convert_document_ok in H as (s & urls_sec & Hs & Hr).
  destruct (build_sections_inv _ _ _ _ _ Hs)
    as (ver & descr & ab & authors & maintainers & prj1 & prj2
        & _ & _ & _ & _ & _ & H1 & H2 & Hk & _).
  exists (project_sec s).
  split; [exact (build_result_project _ _ _ _ _ _ _ Hr)|].
  assert (Hnone : forall k, k <> "maintainers" -> k <> "authors" ->
            k <> "description" -> k <> "version" -> k <> "name" ->
            Dict.get k prj2 = None).
  { intros k ? ? ? ? ?.
    rewrite (set_people_get_other _ _ _ _ k H2) by auto.
    rewrite (set_people_get_other _ _ _ _ k H1) by auto.
    now rewrite !get_set_other by auto. }
  assert (Hcopy : forall k d,
            Dict.get k (copy_if_truthy p k k d)
            = match get_truthy k p with Some v => Some v | None => Dict.get k d end).
  { intros k d. unfold copy_if_truthy. destruct (get_truthy k p); auto. apply get_set_same. }
  repeat split.
  - rewrite Hk by discriminate. rewrite !copy_if_truthy_get_other by discriminate.
    rewrite Hcopy, Hnone by discriminate. now destruct (get_truthy "readme" p).
  - rewrite Hk by discriminate. rewrite copy_if_truthy_get_other by discriminate.
    rewrite Hcopy. rewrite copy_if_truthy_get_other by discriminate.
    rewrite Hnone by discriminate. now destruct (get_truthy "keywords" p).
  - rewrite Hk by discriminate. rewrite Hcopy.
    rewrite !copy_if_truthy_get_other by discriminate.
    rewrite Hnone by discriminate. now destruct (get_truthy "classifiers" p).
Qed.

(** X5.  A run that returns has met only interpreter records that are
    [BasicDependency] objects: on any other the [assert] stops the
    conversion before anything is written. *)
Theorem interpreter_records_are_basic (out : Document) :
  convert_document_ = Ok out ->
  forall d, In d (dependencies poetry_project) ->
            is_python_dep d = true -> is_basic d = true.
Proof.
  intros H d Hd Hp. apply convert_document_ok in H as (s & urls_sec & Hs & _).
  unfold build_sections in Hs.
  repeat (apply bind_ok in Hs as (? & ? & Hs)).
  clear Hs.
  match goal with
  | Hl : for_ _ _ _ = Ok _ |- _ =>
      destruct (for_ok_each _ _ _ _ Hl d Hd) as (s1 & s2 & Hstep)
  end.
  unfold dependency_step in Hstep. rewrite Hp in Hstep.
  destruct (is_basic d); [reflexivity|discriminate].
Qed.

End ProjectTable.

Lemma project_required_fields_witness :
  exists out prj,
    convert_document demo_format full_project full_pyproject false false = Ok out
    /\ Dict.get "project" out = Some (Table_ prj)
    /\ Dict.get "version" prj = Some (String_ "1.2.3")
    /\ Dict.get "license" prj = None.
Proof.
  destruct (convert_document demo_format full_project full_pyproject false false)
    as [out| |] eqn:E; try (vm_compute in E; discriminate E).
  destruct (project_required_fields demo_format full_project full_pyproject
              false false out E)
    as (prj & ver & descr & H1 & H2 & _ & _ & H5 & _ & H7).
  exists out, prj. repeat split; auto.
  rewrite H5, <- H2. reflexivity.
Defined.

Lemma missing_field_raises_key_error_witness :
  convert_document demo_format
    {| project_name := "demo";
       poetry := [("version", String_ "0.1.0"); ("description", String_ "No authors")];
       dependencies := []; module_name := "demo"; module_path := ["work"; "demo"; "demo"] |}
    demo_pyproject true false
  = Raise (KeyError "authors").
Proof.
  apply (missing_field_raises_key_error demo_format); [discriminate | discriminate | reflexivity].
Defined.

Lemma authors_and_maintainers_witness :
  exists out prj,
    convert_document demo_format full_project full_pyproject false false = Ok out
    /\ Dict.get "project" out = Some (Table_ prj)
    /\ Dict.get "authors" prj
       = Some (Array_ [Value_ (Table_ [("name", String_ "Jane Doe");
                                       ("email", String_ "jane@example.com")]);
                       Value_ (Table_ [("name", String_ "Li Wei");
                                       ("email", String_ "li@example.org")])]).
Proof.
  destruct (convert_document demo_format full_project full_pyproject false false)
    as [out| |] eqn:E; try (vm_compute in E; discriminate E).
  destruct (authors_and_maintainers demo_format full_project full_pyproject
              false false out E)
    as (prj & ab & authors & maintainers & H1 & H2 & H3 & _ & H5 & _).
  exists out, prj. repeat split; auto.
  injection H2 as <-. simpl in H3.
  destruct authors as [|a1 [|a2 [|a3 l]]]; try discriminate.
  injection H3 as <- <-. exact H5.
Defined.

Lemma optional_fields_copied_when_truthy_witness :
  exists out prj,
    convert_document demo_format full_project full_pyproject false false = Ok out
    /\ Dict.get "project" out = Some (Table_ prj)
    /\ Dict.get "readme" prj = Some (String_ "README.md")
    /\ Dict.get "classifiers" prj = None.
Proof.
  destruct (convert_document demo_format full_project full_pyproject false false)
    as [out| |] eqn:E; try (vm_compute in E; discriminate E).
  destruct (optional_fields_copied_when_truthy demo_format full_project full_pyproject
              false false out E) as (prj & H1 & H2 & _ & H4).
  exists out, prj. repeat split; auto.
Defined.

Lemma interpreter_records_are_basic_witness :
  exists d, In d demo_dependencies /\ is_python_dep d = true /\ is_basic d = true.
Proof.
  destruct (convert_document demo_format demo_project demo_pyproject true false)
    as [out| |] eqn:E; try (vm_compute in E; discriminate E).
  destruct demo_dependencies as [|d l] eqn:Ed; [discriminate Ed|].
  exists d. injection Ed as Ed _.
  assert (Hin : In d (dependencies demo_project)) by (subst d; simpl; auto).
  assert (Hp : is_python_dep d = true) by (subst d; reflexivity).
  split; [now left|]. split; [exact Hp|].
  exact (interpreter_records_are_basic demo_format demo_project demo_pyproject
           true false out E d Hin Hp).
Defined.

(** ** URLs, scripts and the hatch tables *)

Lemma set_not_nil {V : Type} (k : string) (v : V) (d : Dict.t V) : Dict.set k v d <> [].
Proof. destruct d as [|[k0 v0] r]; simpl; [|destruct (String.eqb k0 k)]; discriminate. Qed.

Lemma keys_set_fresh {V : Type} (k : string) (v : V) (d : Dict.t V) :
  ~ In k (Dict.keys d) -> Dict.keys (Dict.set k v d) = (Dict.keys d ++ [k])%list.
Proof.
  induction d as [|[k0 v0] r IH]; simpl; intros H; [reflexivity|].
  destruct (String.eqb k0 k) eqn:E.
  - apply String.eqb_eq in E. tauto.
  - simpl. rewrite IH; tauto.
Qed.

(** X6.  [_convert_scripts] keeps the entries whose value is a string or
    a table (of either kind), in the order of the input, and drops every
    other entry: the keys of the result are the keys of the kept
    entries. *)
Theorem convert_scripts_keeps_strings_and_tables (poetry_scripts : Table) :
  NoDup (Dict.keys poetry_scripts) ->
  Dict.keys (_convert_scripts poetry_scripts)
  = map fst (filter (fun entry => match snd entry with
                                  | String_ _ | Table_ _ | SuperTable_ _ => true
                                  | _ => false
                                  end) poetry_scripts).
Proof.
  unfold _convert_scripts.
  assert (G : forall scripts acc,
            NoDup (Dict.keys scripts) ->
            (forall k, In k (Dict.keys scripts) -> ~ In k (Dict.keys acc)) ->
            Dict.keys (fold_left (fun acc entry => convert_scripts_step entry acc) scripts acc)
            = (Dict.keys acc
               ++ map fst (filter (fun entry => match snd entry with
                                                | String_ _ | Table_ _ | SuperTable_ _ => true
                                                | _ => false
                                                end) scripts))%list).
  { induction scripts as [|[k0 v0] r IH]; intros acc Hnd Hfresh.
    - simpl. now rewrite app_nil_r.
    - inversion Hnd as [|? ? Hn Hr]; subst.
      cbn [fold_left]. rewrite IH; auto.
      + assert (Hk0 : ~ In k0 (Dict.keys acc)) by (apply Hfresh; now left).
        destruct v0; simpl; try reflexivity;
          rewrite keys_set_fresh by auto; now rewrite <- app_assoc.
      + intros k Hk Hin.
        assert (Hacc : ~ In k (Dict.keys acc)) by (apply Hfresh; now right).
        destruct v0; simpl in Hin; try tauto;
          apply keys_set_in in Hin as [->|Hin]; tauto. }
  intros Hnd. now rewrite G.
Qed.

Lemma convert_scripts_keeps_strings_and_tables_witness :
  Dict.keys (_convert_scripts [("cli", String_ "full.cli:main");
                               ("serve", Table_ [("callable", String_ "full.web:run")]);
                               ("count", Integer_ 3);
                               ("bare", Table_ [("extras", Array_ [])])])
  = ["cli"; "serve"; "bare"].
Proof.
  rewrite convert_scripts_keeps_strings_and_tables; [reflexivity|].
  repeat constructor; simpl; intuition discriminate.
Defined.

Lemma package_includes_tables (ts : list Table) :
  package_includes (map Table_ ts)
  = Ok (flat_map (fun t => match Dict.get "include" t with
                           | Some v => [v]
                           | None => []
                           end) ts).
Proof.
  induction ts as [|t r IH]; simpl; [reflexivity|].
  rewrite IH. unfold package_include, str_in, Dict.mem, Dict.getitem. simpl.
  destruct (Dict.get "include" t); reflexivity.
Qed.

Section Sections2.

Context {VersionConstraint : Type}.
Variable format_python_constraint : VersionConstraint -> string.
Variable poetry_project : PoetryProject VersionConstraint.
Variable pyproject : Document.
Variables ensure_src virtual_project : bool.

Local Abbreviation p := (poetry poetry_project).
Local Abbreviation convert_document_ :=
  (convert_document format_python_constraint poetry_project pyproject
     ensure_src virtual_project).
Local Abbreviation step := (merge_step pyproject virtual_project).

(** A key that is neither set before the loop nor a key of the input is
    not in the output, "tool" apart. *)
Lemma build_result_absent s urls_sec out k :
  build_result poetry_project s urls_sec pyproject ensure_src virtual_project = Ok out ->
  k <> "tool" -> k <> "project" -> k <> "project.urls" ->
  ~ In k (Dict.keys pyproject) ->
  Dict.get k out = None.
Proof.
  intros Hr K1 K2 K3 Hk.
  destruct (build_result_loop _ _ _ _ _ _ _ Hr) as (m & Hm & Hout & _).
  rewrite Hout by auto.
  rewrite (merge_loop_frame _ _ k _ _ _ Hm Hk). cbn [result].
  destruct urls_sec; now rewrite !get_set_other by auto.
Qed.


(** X8.  The "project" table gets a "scripts" table, the result of
    [_convert_scripts], exactly when [tool.poetry] has a "scripts" table,
    with or without a header of its own, that is not empty; a run that
    returns has met no other kind of non-empty "scripts" item. *)
Theorem scripts_table_when_not_empty (out : Document) :
  convert_document_ = Ok out ->
  exists prj,
    Dict.get "project" out = Some (Table_ prj)
    /\ ((get_truthy "scripts" p = None /\ Dict.get "scripts" prj = None)
        \/ exists sc entries,
             Dict.get "scripts" p = Some sc
             /\ items sc = Ok entries
             /\ entries <> []
             /\ Dict.get "scripts" prj = Some (Table_ (_convert_scripts entries))).
Proof.
  intros H. apply convert_document_ok in H as (s & urls_sec & Hs & Hr).
  destruct (build_sections_inv _ _ _ _ _ Hs)
    as (ver & descr & ab & authors & maintainers & prj1 & prj2
        & _ & _ & _ & _ & _ & _ & _ & _ & Hsc & _).
  exists (project_sec s).
  split; [exact (build_result_project _ _ _ _ _ _ _ Hr)|].
  destruct Hsc as [Hsc|(sc & entries & He & Hi & Hg)]; [now left|].
  right. exists sc, entries. unfold get_truthy in He.
  destruct (Dict.get "scripts" p) as [v|]; [|discriminate].
  destruct (truthy v) eqn:Et; [|discriminate]. injection He as ->.
  repeat split; auto. intros ->.
  destruct sc; try discriminate Hi; injection Hi as ->; discriminate Et.
Qed.

(** X9.  For a project that is not virtual the output [tool.hatch] is
    exactly the generated table: "metadata" with "allow-direct-references"
    true and the wheel target's "packages".  With [ensure_src] the
    packages are the one string "src/<module_name>"; without it they are
    the "include" values of the entries of [tool.poetry]'s "packages"
    that have one, in order, and none when "packages" is absent. *)
Theorem hatch_tables (out : Document) :
  convert_document_ = Ok out ->
  virtual_project = false ->
  exists tool packages,
    Dict.get "tool" out = Some (Table_ tool)
    /\ Dict.get "hatch" tool
       = Some (Table_
                 [("metadata", Table_ [("allow-direct-references", Bool_ true)]);
                  ("build",
                   Table_ [("targets",
                            Table_ [("wheel", Table_ [("packages", of_list packages)])])])])
    /\ (ensure_src = true -> packages = [String_ ("src/" ++ module_name poetry_project)])
    /\ (ensure_src = false -> Dict.get "packages" p = None -> packages = [])
    /\ (ensure_src = false ->
        forall body ts,
          Dict.get "packages" p = Some (Array_ body) ->
          values body = map Table_ ts ->
          packages = flat_map (fun t => match Dict.get "include" t with
                                        | Some v => [v]
                                        | None => []
                                        end) ts).
Proof.
  intros H Hv. apply convert_document_ok in H as (s & urls_sec & Hs & Hr).
  destruct (build_result_hatch _ _ _ _ _ _ _ Hr Hv) as (t & packages & Hp & Ho).
  eexists _, packages.
  split; [exact Ho|]. split; [apply get_set_same|].
  unfold wheel_packages in Hp. repeat split.
  - intros ->. now injection Hp as <-.
  - intros -> E. rewrite E in Hp. now injection Hp as <-.
  - intros -> body0 ts E Hvals. rewrite E in Hp. simpl in Hp.
    rewrite Hvals, package_includes_tables in Hp. now injection Hp as <-.
Qed.

(** X10.  [convert] never creates a "build-system" table: when the input
    has none, the output has none, also for a project that is not
    virtual. *)
Theorem build_system_never_created (out : Document) :
  convert_document_ = Ok out ->
  ~ In "build-system" (Dict.keys pyproject) ->
  Dict.get "build-system" out = None.
Proof.
  intros H Hk. apply convert_document_ok in H as (s & urls_sec & Hs & Hr).
  apply (build_result_absent _ _ _ _ Hr); auto; discriminate.
Qed.

End Sections2.


Lemma scripts_table_when_not_empty_witness :
  exists out prj,
    convert_document demo_format full_project full_pyproject false false = Ok out
    /\ Dict.get "project" out = Some (Table_ prj)
    /\ Dict.get "scripts" prj
       = Some (Table_ [("cli", String_ "full.cli:main");
                       ("serve", String_ "full.web:run");
                       ("bare", String_ "")]).
Proof.
  destruct (convert_document demo_format full_project full_pyproject false false)
    as [out| |] eqn:E; try (vm_compute in E; discriminate E).
  destruct (scripts_table_when_not_empty demo_format full_project full_pyproject
              false false out E) as (prj & H1 & [[H2 _]|(sc & entries & H2 & Hi & _ & H3)]).
  - discriminate H2.
  - exists out, prj. repeat split; auto.
    injection H2 as <-. injection Hi as <-. exact H3.
Defined.

Lemma hatch_tables_witness :
  exists out tool,
    convert_document demo_format full_project full_pyproject false false = Ok out
    /\ Dict.get "tool" out = Some (Table_ tool)
    /\ Dict.get "hatch" tool
       = Some (Table_
                 [("metadata", Table_ [("allow-direct-references", Bool_ true)]);
                  ("build",
                   Table_ [("targets",
                            Table_ [("wheel",
                                     Table_ [("packages",
                                              Array_ [Value_ (String_ "full");
                                                      Value_ (String_ "extras")])])])])]).
Proof.
  destruct (convert_document demo_format full_project full_pyproject false false)
    as [out| |] eqn:E; try (vm_compute in E; discriminate E).
  destruct (hatch_tables demo_format full_project full_pyproject false false out E eq_refl)
    as (tool & packages & H1 & H2 & _ & _ & H5).
  exists out, tool. repeat split; auto.
  rewrite H2.
  rewrite (H5 eq_refl _ [[("include", String_ "full")]; [("from", String_ "lib")];
                         [("include", String_ "extras"); ("from", String_ "lib")]]
             eq_refl eq_refl).
  reflexivity.
Defined.

Lemma build_system_never_created_witness :
  exists out,
    convert_document demo_format full_project full_pyproject false false = Ok out
    /\ Dict.get "build-system" out = None.
Proof.
  destruct (convert_document demo_format full_project full_pyproject false false)
    as [out| |] eqn:E; try (vm_compute in E; discriminate E).
  exists out. split; [reflexivity|].
  apply (build_system_never_created demo_format full_project full_pyproject
           false false out E).
  simpl. intuition discriminate.
Defined.

(** ** What the input "tool" table must hold *)

Lemma current_first k v t : ~ In k (Dict.keys t) -> current k ((k, v) :: t) = Some v.
Proof.
  intros H. unfold current. cbn [rev]. rewrite get_app.
  fold (current k t). rewrite (current_not_in _ _ H). simpl.
  now rewrite String.eqb_refl.
Qed.

(** The loop of [tool_table.add] from a table that begins with the "rye"
    table of [convert], for entries with distinct keys of which none but
    "rye" is in the table. *)
Lemma add_entries_from rye entries : forall pre,
  NoDup (Dict.keys entries) ->
  (forall k, In k (Dict.keys entries) -> k <> "rye" -> ~ In k (Dict.keys pre)) ->
  (In "rye" (Dict.keys entries) -> ~ In "rye" (Dict.keys pre)) ->
  for_ entries (fun kv t => table_add (fst kv) (snd kv) t) (("rye", Table_ rye) :: pre)
  = match Dict.get "rye" entries with
    | None | Some (SuperTable_ _) => Ok (("rye", Table_ rye) :: pre ++ entries)%list
    | Some _ => Raise (KeyAlreadyPresent "rye")
    end.
Proof.
  induction entries as [|[k0 v0] r IH]; intros pre Hnd Hfresh Hrye.
  - simpl. now rewrite app_nil_r.
  - inversion Hnd as [|? ? Hn Hr]; subst. cbn [for_ fst snd Dict.get].
    destruct (String.eqb k0 "rye") eqn:E.
    + apply String.eqb_eq in E as ->.
      assert (Hadd : table_add "rye" v0 (("rye", Table_ rye) :: pre)
                     = match v0 with
                       | SuperTable_ _ => Ok ((("rye", Table_ rye) :: pre) ++ [("rye", v0)])%list
                       | _ => Raise (KeyAlreadyPresent "rye")
                       end).
      { unfold table_add. rewrite current_first by (apply Hrye; now left). reflexivity. }
      rewrite Hadd. clear Hadd.
      assert (Hnone : Dict.get "rye" r = None) by now apply get_none_not_in.
      destruct v0; try reflexivity. cbn [bind].
      change ((("rye", Table_ rye) :: pre) ++ [("rye", SuperTable_ body)])%list
        with (("rye", Table_ rye) :: (pre ++ [("rye", SuperTable_ body)]))%list.
      rewrite (IH (pre ++ [("rye", SuperTable_ body)])%list Hr).
      * rewrite Hnone, <- app_assoc. reflexivity.
      * intros k Hk Hne Hin. rewrite keys_app in Hin.
        apply in_app_or in Hin as [Hin|[Hin|[]]]; [|simpl in Hin; congruence].
        apply (Hfresh k); auto. now right.
      * intros Hin. contradiction.
    + apply String.eqb_neq in E.
      assert (Hc : current k0 (("rye", Table_ rye) :: pre) = None).
      { apply current_not_in. simpl. intros [Hk|Hk]; [congruence|].
        apply (Hfresh k0); auto. now left. }
      assert (Hadd : table_add k0 v0 (("rye", Table_ rye) :: pre)
                     = Ok ((("rye", Table_ rye) :: pre) ++ [(k0, v0)])%list)
        by (unfold table_add; now rewrite Hc).
      rewrite Hadd. clear Hadd. cbn [bind].
      change ((("rye", Table_ rye) :: pre) ++ [(k0, v0)])%list
        with (("rye", Table_ rye) :: (pre ++ [(k0, v0)]))%list.
      rewrite (IH (pre ++ [(k0, v0)])%list Hr).
      * rewrite <- app_assoc. reflexivity.
      * intros k Hk Hne Hin. rewrite keys_app in Hin.
        apply in_app_or in Hin as [Hin|[Hin|[]]].
        -- apply (Hfresh k); auto. now right.
        -- simpl in Hin. subst k0. contradiction.
      * intros Hk Hin. rewrite keys_app in Hin.
        apply in_app_or in Hin as [Hin|[Hin|[]]].
        -- apply Hrye; auto. now right.
        -- simpl in Hin. congruence.
Qed.

(** X20.  The loop [for key, value in pyproject["tool"].items():
    tool_table.add(key, value)] on the table that holds the "rye" table of
    [convert], which has the entry "managed", for the entries of a dict,
    whose keys are distinct.  When the input has no "rye" entry, the loop
    returns and the table then holds the "rye" table of [convert] and the
    entries of the input, each once and nothing else.  When the input has
    a "rye" table without a header of its own, the loop returns too: the
    entries under other keys are those of the input, and what is found
    under "rye" are the children of the "rye" table of [convert] and
    those of the input one.  On any other "rye" entry the loop raises
    [KeyAlreadyPresent].  It meets no case that the model of [add] leaves
    out. *)
Theorem tool_entries_added (rye : Table) (entries : Table) :
  Dict.get "managed" rye = Some (Bool_ true) ->
  NoDup (Dict.keys entries) ->
  match Dict.get "rye" entries with
  | None =>
      exists t,
        for_ entries (fun kv t => table_add (fst kv) (snd kv) t) [("rye", Table_ rye)] = Ok t
        /\ Permutation t (("rye", Table_ rye) :: entries)
  | Some (SuperTable_ body) =>
      exists t,
        for_ entries (fun kv t => table_add (fst kv) (snd kv) t) [("rye", Table_ rye)] = Ok t
        /\ (forall k v, k <> "rye" -> (In (k, v) t <-> In (k, v) entries))
        /\ (forall child,
              In child rye \/ In child body <->
              exists tbl b, In ("rye", tbl) t /\ subscript tbl = Ok b /\ In child b)
  | Some _ =>
      for_ entries (fun kv t => table_add (fst kv) (snd kv) t) [("rye", Table_ rye)]
      = Raise (KeyAlreadyPresent "rye")
  end.
Proof.
  intros _ Hnd.
  pose proof (add_entries_from rye entries [] Hnd) as H. cbn [app] in H.
  rewrite H by (simpl; auto). clear H.
  destruct (Dict.get "rye" entries) as [[]|] eqn:G; try reflexivity;
    [|eauto using Permutation_refl].
  eexists. split; [reflexivity|]. split.
  - intros k v Hk. split; [|now right].
    intros [E|Hin]; [congruence | exact Hin].
  - intros child. split.
    + intros [Hc|Hc].
      * exists (Table_ rye), rye. split; [now left|]. now split.
      * exists (SuperTable_ body), body. split; [|now split].
        right. now apply get_in.
    + intros (tbl & b & [E|Hin] & Hb & Hc).
      * injection E as <-. injection Hb as <-. now left.
      * apply (get_in_nodup _ _ _ Hnd) in Hin. rewrite G in Hin.
        injection Hin as <-. injection Hb as <-. now right.
Qed.

Lemma tool_entries_added_witness :
  exists t,
    for_ [("poetry", Table_ demo_poetry);
          ("rye", SuperTable_ [("scripts", Table_ [("serve", String_ "demo.web:run")])]);
          ("black", Table_ [("line-length", Integer_ 88)])]
      (fun kv t => table_add (fst kv) (snd kv) t)
      [("rye", Table_ [("managed", Bool_ true); ("virtual", Bool_ false)])]
    = Ok t
    /\ In ("black", Table_ [("line-length", Integer_ 88)]) t
    /\ exists tbl b,
         In ("rye", tbl) t /\ subscript tbl = Ok b
         /\ In ("scripts", Table_ [("serve", String_ "demo.web:run")]) b.
Proof.
  destruct (tool_entries_added [("managed", Bool_ true); ("virtual", Bool_ false)]
              [("poetry", Table_ demo_poetry);
               ("rye", SuperTable_ [("scripts", Table_ [("serve", String_ "demo.web:run")])]);
               ("black", Table_ [("line-length", Integer_ 88)])])
    as (t & Ht & Hother & Hrye).
  - reflexivity.
  - repeat constructor; simpl; intuition discriminate.
  - exists t. split; [exact Ht|]. split.
    + apply Hother; [discriminate | simpl; auto].
    + apply Hrye. right. simpl. auto.
Defined.

Lemma merge_step_keys pyproject virtual_project name m m' :
  merge_step pyproject virtual_project name m = Ok m' ->
  forall k, In k (Dict.keys (result m')) -> k = name \/ In k (Dict.keys (result m)).
Proof.
  unfold merge_step. intros H k Hk.
  destruct (String.eqb name "project") eqn:E1; [injection H as <-; auto|].
  destruct (String.eqb name "tool") eqn:E2.
  { apply String.eqb_eq in E2 as ->. unfold merge_tool in H.
    apply bind_ok in H as (tool & _ & H).
    apply bind_ok in H as (entries & _ & H).
    apply bind_ok in H as (t & _ & H).
    apply bind_ok in H as (t2 & _ & H).
    injection H as <-. simpl in Hk. now apply keys_set_in in Hk. }
  destruct (String.eqb name "build-system") eqn:E3.
  { apply String.eqb_eq in E3 as ->.
    destruct virtual_project; simpl in H; [injection H as <-; auto|].
    apply bind_ok in H as (r & Hr & H). injection H as <-. simpl in Hk.
    apply rewrite_build_system_ok in Hr as (bs & t & body & t' & _ & _ & _ & -> & _).
    now apply keys_set_in in Hk. }
  apply bind_ok in H as (v & _ & H). injection H as <-. simpl in Hk.
  now apply keys_set_in in Hk.
Qed.

Section ToolRequirements.

Context {VersionConstraint : Type}.
Variable format_python_constraint : VersionConstraint -> string.
Variable poetry_project : PoetryProject VersionConstraint.
Variable pyproject : Document.
Variables ensure_src virtual_project : bool.

Local Abbreviation convert_document_ :=
  (convert_document format_python_constraint poetry_project pyproject
     ensure_src virtual_project).

(** X11.  A conversion that returns has found what it needs in the input:
    a project that is not virtual has a "tool" table; and a "tool" item,
    when there is one, is a table with a "poetry" entry.  An entry "rye"
    of that table is then a table without a header of its own, as "rye"
    is in a file with [[tool.rye.scripts]] and no [[tool.rye]], and
    its children are kept under "rye" in the output: on any other "rye"
    entry, as on a missing table or a missing "poetry" entry, the
    conversion does not return. *)
Theorem tool_table_requirements (out : Document) :
  convert_document_ = Ok out ->
  (virtual_project = false -> In "tool" (Dict.keys pyproject))
  /\ (In "tool" (Dict.keys pyproject) ->
      exists tool_in t_in t_out,
        Dict.get "tool" pyproject = Some tool_in
        /\ items tool_in = Ok t_in
        /\ Dict.get "poetry" t_in <> None
        /\ Dict.get "tool" out = Some (Table_ t_out)
        /\ forall v, In ("rye", v) t_in ->
             exists body,
               v = SuperTable_ body
               /\ forall child, In child body ->
                     exists rye_out b,
                       In ("rye", rye_out) t_out /\ subscript rye_out = Ok b /\ In child b).
Proof.
  intros H. apply convert_document_ok in H as (s & urls_sec & Hs & Hr).
  split.
  - destruct (build_result_loop _ _ _ _ _ _ _ Hr) as (m & Hm & _ & _ & Hreal).
    intros Hv. destruct (Hreal Hv) as (t & hatch & Ht & _).
    destruct (in_dec string_dec "tool" (Dict.keys pyproject)) as [Hin|Hin]; auto.
    rewrite (merge_loop_frame _ _ "tool" _ _ _ Hm Hin) in Ht. cbn [result] in Ht.
    destruct urls_sec; rewrite !get_set_other in Ht by discriminate; discriminate.
  - intros Hin.
    destruct (build_result_tool _ _ _ _ _ _ _ Hr Hin)
      as (tool_in & t_in & t_out & Htool & Hitems & Ht & _ & _ & Hp & Hsuper & Hkept & _).
    exists tool_in, t_in, t_out.
    split; [exact Htool|]. split; [exact Hitems|]. split.
    { apply in_keys_get in Hp as [v Hv]. rewrite Hv. discriminate. }
    split; [exact Ht|].
    intros v Hv. destruct (Hsuper v Hv) as [body ->]. exists body.
    split; [reflexivity|]. intros child Hc.
    exists (SuperTable_ body), body. split; [|split; [reflexivity|exact Hc]].
    apply (Hkept "rye" _ Hv); [discriminate | intros _; discriminate].
Qed.

(** X12.  [convert] adds no top-level table of its own besides "project"
    and "project.urls": every other key of the output is a key of the
    input. *)
Theorem output_sections_come_from_input (out : Document) :
  convert_document_ = Ok out ->
  forall k, In k (Dict.keys out) ->
            k = "project" \/ k = "project.urls" \/ In k (Dict.keys pyproject).
Proof.
  intros H. apply convert_document_ok in H as (s & urls_sec & Hs & Hr).
  destruct (build_result_loop _ _ _ _ _ _ _ Hr) as (m & Hm & _ & Hvirt & Hreal).
  assert (Hres : forall k, In k (Dict.keys (result m)) ->
            k = "project" \/ k = "project.urls" \/ In k (Dict.keys pyproject)).
  { eapply (for_invariant
              (fun x => forall k, In k (Dict.keys (result x)) ->
                          k = "project" \/ k = "project.urls" \/ In k (Dict.keys pyproject))
              (Dict.keys pyproject) (merge_step pyproject virtual_project));
      [ | exact Hm | ].
    - intros name m0 m1 Hname Hstep Hinv k Hk.
      destruct (merge_step_keys _ _ _ _ _ Hstep k Hk) as [->|Hk']; auto.
    - cbn [result]. intros k Hk.
      destruct urls_sec; repeat (apply keys_set_in in Hk as [->|Hk]; auto);
        contradiction. }
  destruct virtual_project.
  - rewrite (Hvirt eq_refl). exact Hres.
  - destruct (Hreal eq_refl) as (t & hatch & Ht & _).
    unfold build_result in Hr. simpl in Hr.
    apply bind_ok in Hr as (m' & Hm' & Hr).
    assert (Em : Ok m' = Ok m)
      by (rewrite <- Hm', <- Hm; destruct urls_sec; reflexivity).
    injection Em as ->.
    apply bind_ok in Hr as (packages & _ & Hr).
    apply set_hatch_ok in Hr as (tool' & t' & hatch' & _ & _ & ->).
    intros k Hk. apply keys_set_in in Hk as [->|Hk]; auto.
    apply Hres. apply in_keys_get. eauto.
Qed.

End ToolRequirements.

Lemma tool_table_requirements_witness :
  exists out t_out rye_out b,
    convert_document demo_format demo_project rye_pyproject true true = Ok out
    /\ Dict.get "tool" out = Some (Table_ t_out)
    /\ In ("rye", rye_out) t_out
    /\ subscript rye_out = Ok b
    /\ In ("scripts", Table_ [("serve", String_ "demo.web:run")]) b.
Proof.
  destruct (convert_document demo_format demo_project rye_pyproject true true)
    as [out| |] eqn:E; try (vm_compute in E; discriminate E).
  destruct (proj2 (tool_table_requirements demo_format demo_project rye_pyproject
                     true true out E))
    as (tool_in & t_in & t_out & H1 & H2 & _ & H4 & H5).
  - simpl. auto.
  - cbn in H1. injection H1 as <-. cbn in H2. injection H2 as <-.
    destruct (H5 (SuperTable_ [("scripts", Table_ [("serve", String_ "demo.web:run")])]))
      as (body & Hb & Hkept); [simpl; auto|].
    injection Hb as <-.
    destruct (Hkept ("scripts", Table_ [("serve", String_ "demo.web:run")]))
      as (rye_out & b & K1 & K2 & K3); [simpl; auto|].
    exists out, t_out, rye_out, b. auto.
Defined.

Lemma output_sections_come_from_input_witness :
  exists out,
    convert_document demo_format demo_project demo_pyproject true false = Ok out
    /\ ("mypy" = "project" \/ "mypy" = "project.urls" \/ In "mypy" (Dict.keys demo_pyproject)).
Proof.
  destruct (convert_document demo_format demo_project demo_pyproject true false)
    as [out| |] eqn:E; try (vm_compute in E; discriminate E).
  exists out. split; [reflexivity|].
  apply (output_sections_come_from_input demo_format demo_project demo_pyproject
           true false out E).
  apply in_keys_get. vm_compute in E. injection E as <-. eexists. reflexivity.
Defined.

(** ** A run that returns, step by step *)

Section Inversions.

Lemma emit_inv e w u w' :
  emit e w = (Ok u, w') -> w' = {| fs := fs w; trace := (trace w ++ [e])%list |}.
Proof. unfold emit. now intros [= _ <-]. Qed.

Lemma observe_inv {A : Type} (f : FS -> res A) w a w' :
  observe f w = (Ok a, w') -> f (fs w) = Ok a /\ w' = w.
Proof. unfold observe. now intros [= -> <-]. Qed.

Lemma lift_inv {A : Type} (r : res A) w a w' : lift r w = (Ok a, w') -> r = Ok a /\ w' = w.
Proof. unfold lift. now intros [= -> <-]. Qed.

Lemma change_inv f w u w' :
  change f w = (Ok u, w') ->
  exists fs', f (fs w) = Ok fs' /\ w' = {| fs := fs'; trace := trace w |}.
Proof.
  unfold change. destruct (f (fs w)) as [fs'| |]; intros H; try discriminate.
  injection H as _ <-. eauto.
Qed.

Lemma open_read_inv p w text w' :
  open_read p w = (Ok text, w') ->
  read_text p (fs w) = Ok text
  /\ w' = {| fs := fs w; trace := (trace w ++ [EvRead p])%list |}.
Proof.
  unfold open_read. intros H.
  apply bindM_inv in H as (u & w1 & He & H).
  apply emit_inv in He as ->. apply observe_inv in H as [H ->]. auto.
Qed.

Lemma open_write_inv p text w u w' :
  open_write p text w = (Ok u, w') ->
  exists fs',
    write_text p text (fs w) = Ok fs'
    /\ w' = {| fs := fs'; trace := (trace w ++ [EvWrite p text])%list |}.
Proof.
  unfold open_write. intros H.
  apply bindM_inv in H as (u0 & w1 & He & H).
  apply emit_inv in He as ->. apply change_inv in H as (fs' & H & ->). eauto.
Qed.

Lemma sweep_inv project_path w u w' :
  sweep project_path w = (Ok u, w') ->
  exists text,
    read_text (pyproject_toml project_path) (fs w) = Ok text
    /\ w' = {| fs := fs w;
               trace := (trace w ++
                         EvRead (pyproject_toml project_path)
                         :: map (fun nl => EvPrint (warning (fst nl) (snd nl)))
                              (filter (fun nl => PyStr.contains "poetry" (snd nl))
                                 (combine (seq 1 (length (PyStr.readlines text)))
                                    (PyStr.readlines text))))%list |}.
Proof.
  unfold sweep. intros H.
  apply bindM_inv in H as (text & w1 & Hr & H).
  apply open_read_inv in Hr as [Hr ->].
  rewrite warn_lines_run in H. injection H as _ <-.
  exists text. split; auto. simpl. now rewrite <- app_assoc.
Qed.

Lemma remove_lock_inv project_path w u w' :
  remove_lock project_path w = (Ok u, w') ->
  let lock := child project_path "poetry.lock" in
  exists fs',
    (if exists_ (fs w) lock then remove lock (fs w) = Ok fs' else fs' = fs w)
    /\ w' = {| fs := fs';
               trace := (trace w ++ EvExists lock
                         :: (if exists_ (fs w) lock then [EvRemove lock] else []))%list |}.
Proof.
  intros H lock. unfold remove_lock in H.
  rewrite (bindM_ok _ _ _ _ _ (path_exists_run _ _)) in H. fold lock in H.
  destruct (exists_ (fs w) lock).
  - unfold os_remove in H.
    apply bindM_inv in H as (u0 & w1 & He & H).
    apply emit_inv in He as ->. apply change_inv in H as (fs' & H & ->).
    exists fs'. split; auto. simpl. now rewrite <- app_assoc.
  - injection H as _ <-. exists (fs w). auto.
Qed.

Lemma move_to_src_inv {VersionConstraint : Type}
    (poetry_project : PoetryProject VersionConstraint) project_path w u w' :
  move_to_src poetry_project project_path w = (Ok u, w') ->
  let src := child project_path "src" in
  let dst := child src (module_name poetry_project) in
  let module := module_path poetry_project in
  exists fs',
    (if exists_ (fs w) src then fs' = fs w
     else exists fs1, mkdir src (fs w) = Ok fs1 /\ move module dst fs1 = Ok fs')
    /\ w' = {| fs := fs';
               trace := (trace w ++ EvExists src
                         :: (if exists_ (fs w) src then []
                             else [EvMkdir src; EvMove module dst]))%list |}.
Proof.
  intros H src dst module. unfold move_to_src in H.
  rewrite (bindM_ok _ _ _ _ _ (path_exists_run _ _)) in H. fold src in H.
  destruct (exists_ (fs w) src); cbn [negb] in H.
  - injection H as _ <-. exists (fs w). auto.
  - unfold path_mkdir, shutil_move in H.
    apply bindM_inv in H as (u0 & w1 & Hm & H).
    apply bindM_inv in Hm as (u1 & w2 & He & Hm).
    apply emit_inv in He as ->. apply change_inv in Hm as (fs1 & Hm & ->).
    apply bindM_inv in H as (u2 & w3 & He & H).
    apply emit_inv in He as ->. apply change_inv in H as (fs2 & H & ->).
    exists fs2. split; [eauto|]. simpl. now rewrite <- !app_assoc.
Qed.

End Inversions.

Section ReturningRun.

Context {VersionConstraint : Type}.
Variable format_python_constraint : VersionConstraint -> string.
Variable new_poetry_project : FS -> Path -> bool -> res (PoetryProject VersionConstraint).
Variable get_next_backup_path : FS -> Path -> Path.
Variable tomlkit_load : string -> res Document.
Variable tomlkit_dumps : Document -> string.

Local Abbreviation convert_ :=
  (convert format_python_constraint new_poetry_project get_next_backup_path
     tomlkit_load tomlkit_dumps).

Lemma prepare_inv project_path ensure_src virtual_project w prepared w1 :
  prepare format_python_constraint new_poetry_project tomlkit_load
    project_path ensure_src virtual_project w = (Ok prepared, w1) ->
  exists text pyproject,
    new_poetry_project (fs w) project_path ensure_src = Ok (fst prepared)
    /\ read_text (pyproject_toml project_path) (fs w) = Ok text
    /\ tomlkit_load text = Ok pyproject
    /\ convert_document format_python_constraint (fst prepared) pyproject
         ensure_src virtual_project = Ok (snd prepared)
    /\ w1 = {| fs := fs w;
               trace := (trace w ++ [EvPoetryProject project_path ensure_src;
                                     EvRead (pyproject_toml project_path)])%list |}.
Proof.
  unfold prepare. intros H.
  apply bindM_inv in H as (u & w2 & He & H). apply emit_inv in He as ->.
  apply bindM_inv in H as (pp & w3 & Ho & H). apply observe_inv in Ho as [Ho ->].
  apply bindM_inv in H as ([s urls_sec] & w4 & Hl & H). apply lift_inv in Hl as [Hs ->].
  apply bindM_inv in H as (text & w5 & Hr & H). apply open_read_inv in Hr as [Hr ->].
  apply bindM_inv in H as (pyproject & w6 & Hl & H). apply lift_inv in Hl as [Hload ->].
  apply bindM_inv in H as (doc & w7 & Hl & H). apply lift_inv in Hl as [Hdoc ->].
  injection H as <- <-. simpl in *.
  exists text, pyproject. repeat split; auto.
  - unfold convert_document. now rewrite Hs.
  - now rewrite <- app_assoc.
Qed.

(** The states of the file system in a run that returns. *)
Lemma convert_returns_inv project_path ensure_src virtual_project w w_end :
  convert_ project_path ensure_src virtual_project w = (Ok tt, w_end) ->
  let metadata := pyproject_toml project_path in
  let lock := child project_path "poetry.lock" in
  let src := child project_path "src" in
  let project_backup := get_next_backup_path (fs w) project_path in
  exists poetry_project text pyproject out fs1 fs2 fs3,
    new_poetry_project (fs w) project_path ensure_src = Ok poetry_project
    /\ read_text metadata (fs w) = Ok text
    /\ tomlkit_load text = Ok pyproject
    /\ convert_document format_python_constraint poetry_project pyproject
         ensure_src virtual_project = Ok out
    /\ copytree project_path project_backup true true (fs w) = Ok fs1
    /\ write_text metadata (tomlkit_dumps out) fs1 = Ok fs2
    /\ (if exists_ fs2 lock then remove lock fs2 = Ok fs3 else fs3 = fs2)
    /\ (if ensure_src then
          if exists_ fs3 src then fs w_end = fs3
          else exists fs4,
                 mkdir src fs3 = Ok fs4
                 /\ move (module_path poetry_project)
                      (child src (module_name poetry_project)) fs4 = Ok (fs w_end)
        else fs w_end = fs3)
    /\ trace w_end
       = (trace w ++
          [EvPoetryProject project_path ensure_src; EvRead metadata;
           EvNextBackupPath project_path;
           EvCopytree project_path project_backup true true;
           EvPrint ("created backup: " ++ path_str project_backup);
           EvWrite metadata (tomlkit_dumps out); EvRead metadata]
          ++ map (fun nl => EvPrint (warning (fst nl) (snd nl)))
               (filter (fun nl => PyStr.contains "poetry" (snd nl))
                  (combine
                     (seq 1 (length (PyStr.readlines
                                       (PyStr.universal_newlines (tomlkit_dumps out)))))
                     (PyStr.readlines (PyStr.universal_newlines (tomlkit_dumps out)))))
          ++ EvExists lock :: (if exists_ fs2 lock then [EvRemove lock] else [])
          ++ (if ensure_src then
                EvExists src
                :: (if exists_ fs3 src then []
                    else [EvMkdir src;
                          EvMove (module_path poetry_project)
                            (child src (module_name poetry_project))])
              else []))%list.
Proof.
  intros H metadata lock src project_backup.
  unfold convert in H.
  apply bindM_inv in H as (prepared & w1 & Hprep & H).
  apply prepare_inv in Hprep as (text & pyproject & Hp & Hr & Hl & Hd & ->).
  apply bindM_inv in H as (b & w2 & Hb & H).
  pose proof (backup_run get_next_backup_path project_path
                {| fs := fs w;
                   trace := (trace w ++ [EvPoetryProject project_path ensure_src;
                                         EvRead (pyproject_toml project_path)])%list |}) as Hrun.
  cbv zeta in Hrun. cbn [fs trace] in Hrun. fold project_backup in Hrun.
  destruct (copytree project_path project_backup true true (fs w)) as [fs1| |] eqn:Ec;
    rewrite Hrun in Hb; try discriminate.
  injection Hb as <- <-.
  apply bindM_inv in H as (u1 & w3 & Hw & H).
  apply open_write_inv in Hw as (fs2 & Hw & ->). cbn [fs trace] in Hw.
  apply bindM_inv in H as (u2 & w4 & Hs & H).
  apply sweep_inv in Hs as (text2 & Hr2 & ->). cbn [fs trace] in Hr2.
  apply bindM_inv in H as (u3 & w5 & Hk & H).
  apply remove_lock_inv in Hk as (fs3 & Hk & ->). cbn [fs trace] in Hk.
  fold lock in Hk.
  assert (Htext2 : text2 = PyStr.universal_newlines (tomlkit_dumps (snd prepared))).
  { apply write_text_ok in Hw. fold metadata in Hr2. unfold read_text in Hr2.
    fold metadata in Hw. rewrite Hw in Hr2. now injection Hr2 as <-. }
  subst text2.
  exists (fst prepared), text, pyproject, (snd prepared), fs1, fs2, fs3.
  split; [exact Hp|]. split; [exact Hr|]. split; [exact Hl|]. split; [exact Hd|].
  split; [reflexivity|]. split; [exact Hw|]. split; [exact Hk|].
  destruct ensure_src.
  - apply move_to_src_inv in H as (fs5 & Hm & ->). cbn [fs trace] in Hm |- *.
    fold src in Hm |- *. fold lock. fold metadata.
    split.
    + destruct (exists_ fs3 src); [exact Hm|].
      destruct Hm as (fs4 & H4 & H5). exists fs4. auto.
    + rewrite <- !app_assoc. cbn [app]. reflexivity.
  - injection H as <-. cbn [fs trace]. fold lock. fold metadata.
    split; [reflexivity|].
    rewrite <- !app_assoc. cbn [app]. now rewrite app_nil_r.
Qed.

End ReturningRun.

(** ** What each call leaves alone *)

Section Frames.

Lemma write_text_eq p text fs fs' :
  write_text p text fs = Ok fs' -> fs' = update fs p (Some (File text)).
Proof.
  unfold write_text. intros H.
  destruct (fs p) as [[c|]|]; try discriminate.
  - now injection H as <-.
  - destruct (check_parent p fs); try discriminate. now injection H as <-.
Qed.

Lemma remove_eq p fs fs' : remove p fs = Ok fs' -> fs' = update fs p None.
Proof.
  unfold remove. destruct (fs p) as [[c|]|]; intros H; try discriminate.
  now injection H as <-.
Qed.

Lemma mkdir_eq p fs fs' : mkdir p fs = Ok fs' -> fs' = update fs p (Some Dir).
Proof.
  unfold mkdir. destruct (fs p); [discriminate|].
  destruct (check_parent p fs); intros H; try discriminate. now injection H as <-.
Qed.

Lemma is_prefix_false_neq a b : is_prefix a b = false -> a <> b.
Proof. intros H ->. now rewrite is_prefix_refl in H. Qed.

Lemma is_prefix_app_cancel p x y : is_prefix (p ++ x)%list (p ++ y)%list = is_prefix x y.
Proof. induction p as [|a p IH]; simpl; auto. now rewrite String.eqb_refl. Qed.

(** Two trees of which neither contains the other have no path in common. *)
Lemma is_prefix_disjoint p b x rel :
  is_prefix p b = false -> is_prefix b p = false ->
  is_prefix (p ++ x)%list (b ++ rel)%list = false.
Proof.
  intros H1 H2. destruct (is_prefix (p ++ x)%list (b ++ rel)%list) eqn:E; auto.
  pose proof (is_prefix_trans _ _ _ (is_prefix_app p x) E) as Hp.
  destruct (is_prefix_comparable p b _ Hp (is_prefix_app b rel)); congruence.
Qed.

Lemma is_prefix_outside p x q :
  is_prefix p q = false -> is_prefix (p ++ x)%list q = false.
Proof.
  intros H. destruct (is_prefix (p ++ x)%list q) eqn:E; auto.
  rewrite (is_prefix_trans _ _ _ (is_prefix_app p x) E) in H. discriminate.
Qed.

Lemma copytree_disjoint src dst d s fs fs' :
  copytree src dst d s fs = Ok fs' ->
  is_prefix src dst = false /\ is_prefix dst src = false.
Proof.
  unfold copytree. intros H.
  destruct (fs src) as [[c|]|]; try discriminate.
  destruct (fs dst) as [[c|]|]; try discriminate.
  { destruct d; discriminate. }
  destruct (is_prefix src dst || is_prefix dst src) eqn:E; [discriminate|].
  now apply orb_false_iff in E.
Qed.

Lemma copytree_frame src dst d s fs fs' q :
  copytree src dst d s fs = Ok fs' ->
  is_prefix dst q = false -> is_prefix q dst = false -> fs' q = fs q.
Proof.
  unfold copytree. intros H H1 H2.
  destruct (fs src) as [[c|]|]; try discriminate.
  destruct (fs dst) as [[c|]|]; try discriminate.
  { destruct d; discriminate. }
  destruct (is_prefix src dst || is_prefix dst src); [discriminate|].
  destruct (existsb (is_file fs) (ancestors dst)); [discriminate|].
  injection H as <-. unfold copy_tree.
  rewrite (strip_prefix_none _ _ H1), H2. now destruct (fs q).
Qed.

Lemma rename_tree_frame src dst fs q :
  is_prefix src q = false -> is_prefix dst q = false -> rename_tree src dst fs q = fs q.
Proof. intros H1 H2. unfold rename_tree. now rewrite (strip_prefix_none _ _ H2), H1. Qed.

Lemma rename_tree_none src dst fs q :
  fs q = None -> is_prefix dst q = false -> rename_tree src dst fs q = None.
Proof.
  intros H1 H2. unfold rename_tree. rewrite (strip_prefix_none _ _ H2).
  now destruct (is_prefix src q).
Qed.

Lemma is_prefix_child_outside dst name q :
  is_prefix dst q = false -> is_prefix (child dst name) q = false.
Proof. apply is_prefix_outside. Qed.

(** [shutil.move] changes nothing outside the two trees. *)
Lemma move_frame src dst fs fs' q :
  move src dst fs = Ok fs' ->
  is_prefix src q = false -> is_prefix dst q = false -> fs' q = fs q.
Proof.
  unfold move. intros H H1 H2.
  destruct (fs src) as [n|]; [|discriminate].
  destruct (path_eqb src dst); [now injection H as <-|].
  destruct (is_prefix src dst); [destruct n; discriminate|].
  destruct (fs dst) as [[c|]|]; try discriminate.
  - destruct (fs (child dst (basename src))); [discriminate|].
    injection H as <-. apply rename_tree_frame; auto.
    now apply is_prefix_child_outside.
  - destruct (fs (parent dst)) as [[c|]|]; try discriminate.
    injection H as <-. now apply rename_tree_frame.
Qed.

(** [shutil.move] puts nothing at a path outside the destination. *)
Lemma move_none src dst fs fs' q :
  move src dst fs = Ok fs' ->
  fs q = None -> is_prefix dst q = false -> fs' q = None.
Proof.
  unfold move. intros H H1 H2.
  destruct (fs src) as [n|]; [|discriminate].
  destruct (path_eqb src dst); [now injection H as <-|].
  destruct (is_prefix src dst); [destruct n; discriminate|].
  destruct (fs dst) as [[c|]|]; try discriminate.
  - destruct (fs (child dst (basename src))); [discriminate|].
    injection H as <-. apply rename_tree_none; auto.
    now apply is_prefix_child_outside.
  - destruct (fs (parent dst)) as [[c|]|]; try discriminate.
    injection H as <-. now apply rename_tree_none.
Qed.

Lemma child_as_app p a : child p a = (p ++ [a])%list.
Proof. reflexivity. Qed.

Lemma child_child_as_app p a b : child (child p a) b = (p ++ [a; b])%list.
Proof. unfold child. now rewrite <- app_assoc. Qed.

End Frames.

(** ** The file system after a run that returns *)

Section AfterRun.

Lemma metadata_neq_lock p : pyproject_toml p <> child p "poetry.lock".
Proof.
  apply is_prefix_false_neq. unfold pyproject_toml. rewrite !child_as_app.
  now rewrite is_prefix_app_cancel.
Qed.

Lemma src_neq_metadata p : child p "src" <> pyproject_toml p.
Proof.
  apply is_prefix_false_neq. unfold pyproject_toml. rewrite !child_as_app.
  now rewrite is_prefix_app_cancel.
Qed.

Lemma src_neq_lock p : child p "src" <> child p "poetry.lock".
Proof.
  apply is_prefix_false_neq. rewrite !child_as_app. now rewrite is_prefix_app_cancel.
Qed.

Lemma dst_outside_metadata p m : is_prefix (child (child p "src") m) (pyproject_toml p) = false.
Proof.
  unfold pyproject_toml. rewrite child_child_as_app, child_as_app.
  now rewrite is_prefix_app_cancel.
Qed.

Lemma dst_outside_lock p m : is_prefix (child (child p "src") m) (child p "poetry.lock") = false.
Proof.
  rewrite child_child_as_app, child_as_app. now rewrite is_prefix_app_cancel.
Qed.

(** The file system after the write and the removal of the lock file. *)
Lemma states_after_write p text fs1 fs2 fs3 :
  write_text (pyproject_toml p) text fs1 = Ok fs2 ->
  (if exists_ fs2 (child p "poetry.lock")
   then remove (child p "poetry.lock") fs2 = Ok fs3 else fs3 = fs2) ->
  fs2 (child p "poetry.lock") = fs1 (child p "poetry.lock")
  /\ (forall q, q <> pyproject_toml p -> q <> child p "poetry.lock" -> fs3 q = fs1 q)
  /\ fs3 (pyproject_toml p) = Some (File text)
  /\ fs3 (child p "poetry.lock") = None.
Proof.
  intros Hw Hk. apply write_text_eq in Hw as ->.
  assert (Hl : update fs1 (pyproject_toml p) (Some (File text)) (child p "poetry.lock")
               = fs1 (child p "poetry.lock")).
  { apply update_other. intros E. now apply (metadata_neq_lock p). }
  split; [exact Hl|].
  unfold exists_ in Hk.
  destruct (update fs1 (pyproject_toml p) (Some (File text)) (child p "poetry.lock"))
    as [n|] eqn:E.
  - apply remove_eq in Hk as ->. repeat split.
    + intros q Q1 Q2. now rewrite !update_other by auto.
    + rewrite update_other by apply metadata_neq_lock. apply update_same.
    + apply update_same.
  - subst fs3. repeat split; auto.
    + intros q Q1 Q2. now rewrite update_other by auto.
    + apply update_same.
Qed.

End AfterRun.

(** ** The move under [src] *)

Section MoveFacts.

Context {VersionConstraint : Type}.
Variable format_python_constraint : VersionConstraint -> string.
Variable new_poetry_project : FS -> Path -> bool -> res (PoetryProject VersionConstraint).
Variable get_next_backup_path : FS -> Path -> Path.
Variable tomlkit_load : string -> res Document.
Variable tomlkit_dumps : Document -> string.

Local Abbreviation convert_ :=
  (convert format_python_constraint new_poetry_project get_next_backup_path
     tomlkit_load tomlkit_dumps).

(** [shutil.move] that returns has not moved a directory into itself. *)
Lemma move_not_above src dst fs fs' :
  move src dst fs = Ok fs' -> path_eqb src dst = true \/ is_prefix src dst = false.
Proof.
  unfold move. intros H.
  destruct (fs src) as [n|]; [|discriminate].
  destruct (path_eqb src dst); [now left|].
  destruct (is_prefix src dst); [destruct n; discriminate|]. now right.
Qed.

(** [mkdir] and [shutil.move] that return, when nothing exists at or under
    the new directory: the module existed, the directory is there, the
    module tree is under it and nothing is left at the old place. *)
Lemma mkdir_move_ok src name module fs3 fs4 fs5 :
  mkdir src fs3 = Ok fs4 ->
  move module (child src name) fs4 = Ok fs5 ->
  (forall rel, fs3 (src ++ rel)%list = None) ->
  fs3 module <> None
  /\ fs5 src = Some Dir
  /\ (forall rel, fs5 (child src name ++ rel)%list = fs3 (module ++ rel)%list)
  /\ (forall rel, fs5 (module ++ rel)%list = None).
Proof.
  intros Hmk Hmv Hsrc. apply mkdir_eq in Hmk as ->.
  assert (Hd : fs3 (child src name) = None) by apply (Hsrc [name]).
  assert (Hds : child src name <> src).
  { intros E. pose proof (is_prefix_child_false src name) as F.
    rewrite E, is_prefix_refl in F. discriminate. }
  unfold move in Hmv.
  destruct (update fs3 src (Some Dir) module) as [n|] eqn:Hn; [|discriminate].
  destruct (path_eqb module (child src name)) eqn:Eeq.
  { apply path_eqb_eq in Eeq. subst module.
    rewrite update_other in Hn by exact Hds. congruence. }
  destruct (is_prefix module (child src name)) eqn:Ep; [destruct n; discriminate|].
  rewrite (update_other _ _ _ (child src name) Hds), Hd in Hmv.
  rewrite parent_child, update_same in Hmv. injection Hmv as <-.
  assert (Hms : is_prefix module src = false).
  { destruct (is_prefix module src) eqn:E; auto.
    pose proof (is_prefix_trans _ _ _ E (is_prefix_app src [name])) as T.
    change (src ++ [name])%list with (child src name) in T. congruence. }
  assert (Hne : forall rel, (module ++ rel)%list <> src).
  { intros rel E. rewrite <- E, is_prefix_app in Hms. discriminate. }
  assert (Hmod : fs3 module = Some n).
  { rewrite update_other in Hn; auto.
    specialize (Hne []). now rewrite app_nil_r in Hne. }
  split; [congruence|]. split; [|split].
  - unfold rename_tree.
    rewrite (strip_prefix_none _ _ (is_prefix_child_false src name)), Hms.
    apply update_same.
  - intros rel. unfold rename_tree. rewrite strip_prefix_app.
    apply update_other. apply Hne.
  - intros rel. unfold rename_tree.
    destruct (is_prefix (child src name) (module ++ rel)%list) eqn:E.
    + destruct (is_prefix_comparable module (child src name) _ (is_prefix_app module rel) E)
        as [F|F]; [congruence|].
      apply is_prefix_true in F as [r F]. unfold child in F.
      rewrite <- app_assoc in F. rewrite F, Hsrc in Hmod. discriminate.
    + rewrite (strip_prefix_none _ _ E). now rewrite is_prefix_app.
Qed.

(** C6.  Take a run of [convert] with [ensure_src] that returns, for the
    project that the constructor gave.  When nothing existed at or under
    [src] at the call, and the module is inside the project directory and
    is not the metadata file, the module existed, [src] is a directory
    afterwards, the module tree as it was at the call is under
    [src/<module_name>], nothing is left at its old place, and the last
    three calls of the run are the test for [src], [mkdir] and the move.
    When [src] existed at the call, the run ends with the test for it:
    nothing in the project directory but the metadata file and the lock
    file differs from what it was, so nothing was created or moved.  In
    both cases a second run of the step, from the world the run leaves,
    asks whether [src] exists and changes nothing. *)
Theorem convert_moves_module_once (project_path : Path) (virtual_project : bool)
    (w w_end : World) :
  convert_ project_path true virtual_project w = (Ok tt, w_end) ->
  let src := child project_path "src" in
  exists poetry_project,
    new_poetry_project (fs w) project_path true = Ok poetry_project
    /\ let dst := child src (module_name poetry_project) in
       let module := module_path poetry_project in
       ((forall rel, fs w (src ++ rel)%list = None) ->
        is_prefix project_path module = true ->
        is_prefix module (pyproject_toml project_path) = false ->
        fs w module <> None
        /\ fs w_end src = Some Dir
        /\ (forall rel, fs w_end (dst ++ rel)%list = fs w (module ++ rel)%list)
        /\ (forall rel, fs w_end (module ++ rel)%list = None)
        /\ exists calls,
             trace w_end = (calls ++ [EvExists src; EvMkdir src; EvMove module dst])%list)
       /\ (exists_ (fs w) src = true ->
           (forall rel, rel <> ["pyproject.toml"] -> rel <> ["poetry.lock"] ->
              fs w_end (project_path ++ rel)%list = fs w (project_path ++ rel)%list)
           /\ exists calls,
                trace w_end = (calls ++ [EvExists (child project_path "poetry.lock")]
                               ++ [EvExists src])%list
                \/ trace w_end = (calls ++ [EvRemove (child project_path "poetry.lock")]
                                  ++ [EvExists src])%list)
       /\ move_to_src poetry_project project_path w_end
          = (Ok tt, {| fs := fs w_end; trace := (trace w_end ++ [EvExists src])%list |}).
Proof.
  intros Hrun. cbv zeta.
  destruct (convert_returns_inv _ _ _ _ _ _ _ _ _ _ Hrun)
    as (pp & text & pyproject & out & fs1 & fs2 & fs3
        & Hp & _ & _ & _ & Hc & Hw & Hk & He & Ht).
  exists pp. split; [exact Hp|].
  set (src := child project_path "src") in *.
  set (dst := child src (module_name pp)) in *.
  set (module := module_path pp) in *.
  destruct (states_after_write _ _ _ _ _ Hw Hk) as (_ & S2 & _ & S4).
  destruct (copytree_ok _ _ _ _ _ _ Hc) as [_ C2].
  assert (Hin : forall rel, rel <> ["pyproject.toml"] -> rel <> ["poetry.lock"] ->
            fs3 (project_path ++ rel)%list = fs w (project_path ++ rel)%list).
  { intros rel R1 R2. rewrite S2; [apply C2| |];
      unfold pyproject_toml, child; intros E; apply app_inv_head in E; congruence. }
  assert (Hsrc3 : fs3 src = fs w src) by (apply (Hin ["src"]); discriminate).
  split; [|split].
  - intros Hnone Hmod Hmeta.
    assert (Hs : exists_ fs3 src = false).
    { unfold exists_. rewrite Hsrc3. specialize (Hnone []).
      rewrite app_nil_r in Hnone. now rewrite Hnone. }
    rewrite Hs in He, Ht. destruct He as (fs4 & Hmk & Hmv).
    assert (Hnone3 : forall rel, fs3 (src ++ rel)%list = None).
    { intros rel. rewrite <- (Hnone rel). unfold src, child. rewrite <- !app_assoc.
      apply Hin; intros E; simpl in E; discriminate E. }
    destruct (mkdir_move_ok _ _ _ _ _ _ Hmk Hmv Hnone3) as (M0 & M1 & M2 & M3).
    fold dst module in M0, M2, M3.
    apply is_prefix_true in Hmod as [sub Hsub].
    assert (Hkeep : forall rel, fs3 (module ++ rel)%list = fs w (module ++ rel)%list).
    { intros rel. rewrite Hsub, <- app_assoc. apply Hin.
      - intros E. rewrite Hsub in Hmeta. unfold pyproject_toml, child in Hmeta.
        rewrite <- E, is_prefix_app_cancel, is_prefix_app in Hmeta. discriminate.
      - intros E. destruct sub as [|x sub'].
        + rewrite Hsub in Hmeta. unfold pyproject_toml, child in Hmeta.
          rewrite is_prefix_app_cancel in Hmeta. discriminate.
        + injection E as -> E. apply app_eq_nil in E as [-> _].
          apply M0. rewrite Hsub. exact S4. }
    split; [|split; [exact M1|split; [|split; [exact M3|]]]].
    + rewrite <- (app_nil_r module), <- Hkeep, app_nil_r. exact M0.
    + intros rel. now rewrite M2.
    + match type of Ht with
      | _ = (?a ++ ?b ++ ?c ++ ?x :: ?d ++ ?e)%list => exists (a ++ b ++ c ++ x :: d)%list
      end.
      rewrite Ht, <- !app_assoc. reflexivity.
  - intros Hex.
    assert (Hs : exists_ fs3 src = true) by (unfold exists_ in *; now rewrite Hsrc3).
    rewrite Hs in He, Ht. split.
    + intros rel R1 R2. rewrite He. now apply Hin.
    + destruct (exists_ fs2 (child project_path "poetry.lock")).
      * match type of Ht with
        | _ = (?a ++ ?b ++ ?c ++ ?x :: ?d ++ ?e)%list => exists (a ++ b ++ c ++ [x])%list
        end.
        right. rewrite Ht, <- !app_assoc. reflexivity.
      * match type of Ht with
        | _ = (?a ++ ?b ++ ?c ++ ?x :: ?d ++ ?e)%list => exists (a ++ b ++ c)%list
        end.
        left. rewrite Ht, <- !app_assoc. reflexivity.
  - apply move_to_src_skip. fold src.
    destruct (exists_ fs3 src) eqn:Es; [now rewrite He|].
    destruct He as (fs4 & Hmk & Hmv).
    unfold exists_. fold dst module in Hmv.
    rewrite (move_frame _ _ _ _ src Hmv).
    + apply mkdir_eq in Hmk as ->. now rewrite update_same.
    + destruct (move_not_above _ _ _ _ Hmv) as [E|E].
      * apply path_eqb_eq in E. rewrite E. apply is_prefix_child_false.
      * destruct (is_prefix module src) eqn:F; auto.
        pose proof (is_prefix_trans _ _ _ F (is_prefix_app src [module_name pp])) as T.
        change (src ++ [module_name pp])%list with dst in T. congruence.
    + apply is_prefix_child_false.
Qed.

End MoveFacts.

Section ReturningRunFacts.

Context {VersionConstraint : Type}.
Variable format_python_constraint : VersionConstraint -> string.
Variable new_poetry_project : FS -> Path -> bool -> res (PoetryProject VersionConstraint).
Variable get_next_backup_path : FS -> Path -> Path.
Variable tomlkit_load : string -> res Document.
Variable tomlkit_dumps : Document -> string.
Variable project_path : Path.
Variables ensure_src virtual_project : bool.
Variables w w_end : World.

Local Abbreviation convert_ :=
  (convert format_python_constraint new_poetry_project get_next_backup_path
     tomlkit_load tomlkit_dumps).
Local Abbreviation metadata := (pyproject_toml project_path).
Local Abbreviation lock := (child project_path "poetry.lock").
Local Abbreviation src := (child project_path "src").
Local Abbreviation project_backup := (get_next_backup_path (fs w) project_path).

(** X13.  The calls of a run that returns, all of them and in order: the
    constructor, the read of the metadata file, the backup (name, copy,
    print), the write of the new document, the read and the warnings of
    the sweep, the test for the lock file and its removal when it
    exists, and, with [ensure_src], the test for [src] followed, when it
    does not exist, by [mkdir] and the move.  Nothing else is printed
    and nothing else is called. *)
Theorem returning_run_calls :
  convert_ project_path ensure_src virtual_project w = (Ok tt, w_end) ->
  exists poetry_project text pyproject out,
    new_poetry_project (fs w) project_path ensure_src = Ok poetry_project
    /\ read_text metadata (fs w) = Ok text
    /\ tomlkit_load text = Ok pyproject
    /\ convert_document format_python_constraint poetry_project pyproject
         ensure_src virtual_project = Ok out
    /\ trace w_end
       = (trace w ++
          [EvPoetryProject project_path ensure_src; EvRead metadata;
           EvNextBackupPath project_path;
           EvCopytree project_path project_backup true true;
           EvPrint ("created backup: " ++ path_str project_backup);
           EvWrite metadata (tomlkit_dumps out); EvRead metadata]
          ++ map (fun nl => EvPrint (warning (fst nl) (snd nl)))
               (filter (fun nl => PyStr.contains "poetry" (snd nl))
                  (combine
                     (seq 1 (length (PyStr.readlines
                                       (PyStr.universal_newlines (tomlkit_dumps out)))))
                     (PyStr.readlines (PyStr.universal_newlines (tomlkit_dumps out)))))
          ++ EvExists lock :: (if exists_ (fs w) lock then [EvRemove lock] else [])
          ++ (if ensure_src then
                EvExists src
                :: (if exists_ (fs w) src then []
                    else [EvMkdir src;
                          EvMove (module_path poetry_project)
                            (child src (module_name poetry_project))])
              else []))%list.
Proof.
  intros Hrun.
  destruct (convert_returns_inv _ _ _ _ _ _ _ _ _ _ Hrun)
    as (pp & text & pyproject & out & fs1 & fs2 & fs3
        & Hp & Hr & Hl & Hd & Hc & Hw & Hk & _ & Ht).
  exists pp, text, pyproject, out.
  split; [exact Hp|]. split; [exact Hr|]. split; [exact Hl|]. split; [exact Hd|].
  destruct (states_after_write _ _ _ _ _ Hw Hk) as (S1 & S2 & _ & _).
  destruct (copytree_ok _ _ _ _ _ _ Hc) as [_ C2].
  assert (E1 : exists_ fs2 lock = exists_ (fs w) lock).
  { unfold exists_. rewrite S1. rewrite child_as_app. now rewrite C2. }
  assert (E2 : exists_ fs3 src = exists_ (fs w) src).
  { unfold exists_. rewrite S2 by (apply src_neq_metadata || apply src_neq_lock).
    rewrite child_as_app. now rewrite C2. }
  rewrite E1, E2 in Ht. exact Ht.
Qed.

(** X14.  After a run that returns the metadata file holds the text that
    [tomlkit.dumps] gives for the converted document, provided the module
    path is not the metadata file itself. *)
Theorem metadata_holds_converted_document (poetry_project : PoetryProject VersionConstraint) :
  convert_ project_path ensure_src virtual_project w = (Ok tt, w_end) ->
  new_poetry_project (fs w) project_path ensure_src = Ok poetry_project ->
  is_prefix (module_path poetry_project) metadata = false ->
  exists text pyproject out,
    read_text metadata (fs w) = Ok text
    /\ tomlkit_load text = Ok pyproject
    /\ convert_document format_python_constraint poetry_project pyproject
         ensure_src virtual_project = Ok out
    /\ fs w_end metadata = Some (File (tomlkit_dumps out)).
Proof.
  intros Hrun Hpp Hmod.
  destruct (convert_returns_inv _ _ _ _ _ _ _ _ _ _ Hrun)
    as (pp & text & pyproject & out & fs1 & fs2 & fs3
        & Hp & Hr & Hl & Hd & Hc & Hw & Hk & He & _).
  rewrite Hpp in Hp. injection Hp as <-.
  exists text, pyproject, out.
  split; [exact Hr|]. split; [exact Hl|]. split; [exact Hd|].
  destruct (states_after_write _ _ _ _ _ Hw Hk) as (_ & _ & S3 & _).
  destruct ensure_src; [|now rewrite He].
  destruct (exists_ fs3 src); [now rewrite He|].
  destruct He as (fs4 & Hmk & Hmv).
  rewrite (move_frame _ _ _ _ metadata Hmv Hmod (dst_outside_metadata _ _)).
  apply mkdir_eq in Hmk as ->. rewrite update_other; auto.
  intros E. symmetry in E. now apply (src_neq_metadata project_path).
Qed.

(** X15.  After a run that returns there is no lock file. *)
Theorem lock_file_is_gone :
  convert_ project_path ensure_src virtual_project w = (Ok tt, w_end) ->
  fs w_end (child project_path "poetry.lock") = None.
Proof.
  intros Hrun.
  destruct (convert_returns_inv _ _ _ _ _ _ _ _ _ _ Hrun)
    as (pp & text & pyproject & out & fs1 & fs2 & fs3
        & _ & _ & _ & _ & _ & Hw & Hk & He & _).
  destruct (states_after_write _ _ _ _ _ Hw Hk) as (_ & _ & _ & S4).
  destruct ensure_src; [|now rewrite He].
  destruct (exists_ fs3 src); [now rewrite He|].
  destruct He as (fs4 & Hmk & Hmv).
  apply (move_none _ _ _ _ lock Hmv); [|apply dst_outside_lock].
  apply mkdir_eq in Hmk as ->. rewrite update_other; auto.
  intros E. symmetry in E. now apply (src_neq_lock project_path).
Qed.

(** X16.  After a run that returns, for a module inside the project
    directory, the backup holds the project tree as it was before the
    run: the later steps do not reach into it. *)
Theorem backup_holds_original_tree (poetry_project : PoetryProject VersionConstraint) :
  convert_ project_path ensure_src virtual_project w = (Ok tt, w_end) ->
  new_poetry_project (fs w) project_path ensure_src = Ok poetry_project ->
  is_prefix project_path (module_path poetry_project) = true ->
  forall rel, fs w_end (project_backup ++ rel)%list = fs w (project_path ++ rel)%list.
Proof.
  intros Hrun Hpp Hmod rel.
  destruct (convert_returns_inv _ _ _ _ _ _ _ _ _ _ Hrun)
    as (pp & text & pyproject & out & fs1 & fs2 & fs3
        & Hp & _ & _ & _ & Hc & Hw & Hk & He & _).
  rewrite Hpp in Hp. injection Hp as <-.
  destruct (states_after_write _ _ _ _ _ Hw Hk) as (_ & S2 & _ & _).
  destruct (copytree_ok _ _ _ _ _ _ Hc) as [C1 _].
  destruct (copytree_disjoint _ _ _ _ _ _ Hc) as [D1 D2].
  assert (Hout : forall x, is_prefix (project_path ++ x)%list (project_backup ++ rel)%list = false)
    by (intros x; now apply is_prefix_disjoint).
  assert (H3 : fs3 (project_backup ++ rel)%list = fs w (project_path ++ rel)%list).
  { rewrite S2; [apply C1| |].
    - intros E. symmetry in E. apply is_prefix_false_neq in E; auto.
      unfold pyproject_toml. rewrite child_as_app. apply Hout.
    - intros E. symmetry in E. apply is_prefix_false_neq in E; auto.
      rewrite child_as_app. apply Hout. }
  destruct ensure_src; [|now rewrite He].
  destruct (exists_ fs3 src); [now rewrite He|].
  destruct He as (fs4 & Hmk & Hmv).
  apply is_prefix_true in Hmod as [s Hs].
  rewrite (move_frame _ _ _ _ (project_backup ++ rel)%list Hmv).
  - apply mkdir_eq in Hmk as ->. rewrite update_other; auto.
    intros E. symmetry in E. apply is_prefix_false_neq in E; auto.
    rewrite child_as_app. apply Hout.
  - rewrite Hs. apply Hout.
  - rewrite child_child_as_app. apply Hout.
Qed.

(** X17.  A run that returns, for a module inside the project directory,
    changes nothing outside the project directory and the backup: a path
    that is not in the project tree, not in the backup tree and not a
    directory above the backup is after the run what it was before. *)
Theorem nothing_outside_is_touched (poetry_project : PoetryProject VersionConstraint) :
  convert_ project_path ensure_src virtual_project w = (Ok tt, w_end) ->
  new_poetry_project (fs w) project_path ensure_src = Ok poetry_project ->
  is_prefix project_path (module_path poetry_project) = true ->
  forall q,
    is_prefix project_path q = false ->
    is_prefix project_backup q = false ->
    is_prefix q project_backup = false ->
    fs w_end q = fs w q.
Proof.
  intros Hrun Hpp Hmod q Q1 Q2 Q3.
  destruct (convert_returns_inv _ _ _ _ _ _ _ _ _ _ Hrun)
    as (pp & text & pyproject & out & fs1 & fs2 & fs3
        & Hp & _ & _ & _ & Hc & Hw & Hk & He & _).
  rewrite Hpp in Hp. injection Hp as <-.
  destruct (states_after_write _ _ _ _ _ Hw Hk) as (_ & S2 & _ & _).
  assert (Hout : forall x, is_prefix (project_path ++ x)%list q = false)
    by (intros x; now apply is_prefix_outside).
  assert (H3 : fs3 q = fs w q).
  { rewrite S2; [exact (copytree_frame _ _ _ _ _ _ q Hc Q2 Q3)| |].
    - intros E. symmetry in E. apply is_prefix_false_neq in E; auto.
      unfold pyproject_toml. rewrite child_as_app. apply Hout.
    - intros E. symmetry in E. apply is_prefix_false_neq in E; auto.
      rewrite child_as_app. apply Hout. }
  destruct ensure_src; [|now rewrite He].
  destruct (exists_ fs3 src); [now rewrite He|].
  destruct He as (fs4 & Hmk & Hmv).
  apply is_prefix_true in Hmod as [s Hs].
  rewrite (move_frame _ _ _ _ q Hmv).
  - apply mkdir_eq in Hmk as ->. rewrite update_other; auto.
    intros E. symmetry in E. apply is_prefix_false_neq in E; auto.
    rewrite child_as_app. apply Hout.
  - rewrite Hs. apply Hout.
  - rewrite child_child_as_app. apply Hout.
Qed.

End ReturningRunFacts.

(** X18.  When the module path does not exist at the last step, [src] is
    created all the same before [shutil.move] raises [FileNotFoundError];
    the empty [src] stays, so a second run of the step finds it and
    returns without moving anything. *)
Theorem failed_move_leaves_src {VersionConstraint : Type}
    (poetry_project : PoetryProject VersionConstraint) (project_path : Path) (w : World) :
  let src := child project_path "src" in
  let dst := child src (module_name poetry_project) in
  let module := module_path poetry_project in
  let w' := {| fs := update (fs w) src (Some Dir);
               trace := (trace w ++ [EvExists src; EvMkdir src; EvMove module dst])%list |} in
  fs w src = None ->
  fs w project_path = Some Dir ->
  fs w module = None ->
  path_eqb module src = false ->
  move_to_src poetry_project project_path w = (Raise FileNotFoundError, w')
  /\ move_to_src poetry_project project_path w'
     = (Ok tt, {| fs := fs w'; trace := (trace w' ++ [EvExists src])%list |}).
Proof.
  intros src dst module w' Hs Hp Hm Hne. split.
  - unfold move_to_src.
    rewrite (bindM_ok _ _ _ _ _ (path_exists_run _ _)).
    fold src. unfold exists_. rewrite Hs. cbn [negb].
    assert (Hmk : mkdir src (fs w) = Ok (update (fs w) src (Some Dir))).
    { apply mkdir_ok; auto. unfold src. now rewrite parent_child. }
    erewrite bindM_ok; [|apply path_mkdir_run; exact Hmk].
    unfold shutil_move, bindM, emit, change. cbn [fs trace].
    unfold move. fold module. rewrite update_other by now apply path_eqb_neq.
    rewrite Hm. unfold w'. now rewrite <- !app_assoc.
  - apply move_to_src_skip. unfold exists_, w'. cbn [fs]. fold src.
    now rewrite update_same.
Qed.

Lemma failed_move_leaves_src_witness :
  exists w',
    move_to_src
      {| project_name := "demo"; poetry := demo_poetry; dependencies := demo_dependencies;
         module_name := "demo"; module_path := ["work"; "demo"; "missing"] |}
      demo_path demo_world = (Raise FileNotFoundError, w')
    /\ fs w' ["work"; "demo"; "src"] = Some Dir.
Proof.
  eexists. split.
  - apply (failed_move_leaves_src
             {| project_name := "demo"; poetry := demo_poetry;
                dependencies := demo_dependencies;
                module_name := "demo"; module_path := ["work"; "demo"; "missing"] |}
             demo_path demo_world); reflexivity.
  - reflexivity.
Defined.

(** ** The sample run against the properties of a returning run *)

Lemma demo_run_returns :
  convert demo_format demo_new_project demo_backup_path demo_load demo_dumps
    demo_path true false demo_world
  = (Ok tt, snd (convert demo_format demo_new_project demo_backup_path demo_load demo_dumps
                   demo_path true false demo_world)).
Proof.
  rewrite (surjective_pairing
             (convert demo_format demo_new_project demo_backup_path demo_load demo_dumps
                demo_path true false demo_world)) at 1.
  f_equal; vm_compute; reflexivity.
Defined.

Lemma demo_src_run_returns :
  convert demo_format demo_new_project demo_backup_path demo_load demo_dumps
    demo_path true false demo_src_world
  = (Ok tt, snd (convert demo_format demo_new_project demo_backup_path demo_load demo_dumps
                   demo_path true false demo_src_world)).
Proof.
  rewrite (surjective_pairing
             (convert demo_format demo_new_project demo_backup_path demo_load demo_dumps
                demo_path true false demo_src_world)) at 1.
  f_equal; vm_compute; reflexivity.
Defined.

Lemma convert_moves_module_once_witness :
  let w_end := snd (convert demo_format demo_new_project demo_backup_path demo_load demo_dumps
                      demo_path true false demo_world) in
  let w_end' := snd (convert demo_format demo_new_project demo_backup_path demo_load
                       demo_dumps demo_path true false demo_src_world) in
  (fs w_end ["work"; "demo"; "src"; "demo"; "__init__.py"] = Some (File "")
   /\ fs w_end ["work"; "demo"; "demo"; "__init__.py"] = None
   /\ fs (snd (move_to_src demo_project demo_path w_end)) = fs w_end)
  /\ fs w_end' ["work"; "demo"; "demo"; "__init__.py"] = Some (File "").
Proof.
  intros w_end w_end'. split.
  - destruct (convert_moves_module_once demo_format demo_new_project demo_backup_path
                demo_load demo_dumps demo_path false demo_world w_end demo_run_returns)
      as (pp & Hp & H1 & _ & H3).
    injection Hp as <-.
    destruct H1 as (_ & _ & Hd & Hm & _).
    + intros rel. reflexivity.
    + reflexivity.
    + reflexivity.
    + split; [exact (Hd ["__init__.py"])|]. split; [exact (Hm ["__init__.py"])|].
      now rewrite H3.
  - destruct (convert_moves_module_once demo_format demo_new_project demo_backup_path
                demo_load demo_dumps demo_path false demo_src_world w_end'
                demo_src_run_returns)
      as (pp & _ & _ & H2 & _).
    destruct (H2 eq_refl) as [Hsame _].
    exact (Hsame ["demo"; "__init__.py"] ltac:(discriminate) ltac:(discriminate)).
Defined.


Lemma returning_run_calls_witness :
  exists out,
    convert_document demo_format demo_project demo_pyproject true false = Ok out
    /\ trace (snd (convert demo_format demo_new_project demo_backup_path demo_load demo_dumps
                     demo_path true false demo_world))
       = [EvPoetryProject demo_path true;
          EvRead ["work"; "demo"; "pyproject.toml"];
          EvNextBackupPath demo_path;
          EvCopytree demo_path ["work"; "demo.bak"] true true;
          EvPrint "created backup: /work/demo.bak";
          EvWrite ["work"; "demo"; "pyproject.toml"] (demo_dumps out);
          EvRead ["work"; "demo"; "pyproject.toml"];
          EvPrint "Warning: found 'poetry' in line 2: # was: poetry build";
          EvExists ["work"; "demo"; "poetry.lock"];
          EvRemove ["work"; "demo"; "poetry.lock"];
          EvExists ["work"; "demo"; "src"];
          EvMkdir ["work"; "demo"; "src"];
          EvMove ["work"; "demo"; "demo"] ["work"; "demo"; "src"; "demo"]].
Proof.
  destruct (returning_run_calls demo_format demo_new_project demo_backup_path
              demo_load demo_dumps demo_path true false demo_world _ demo_run_returns)
    as (pp & text & pyproject & out & Hp & _ & Hl & Hd & Ht).
  injection Hp as <-. injection Hl as <-.
  exists out. split; [exact Hd|]. rewrite Ht. vm_compute. reflexivity.
Defined.

Lemma metadata_holds_converted_document_witness :
  exists out,
    convert_document demo_format demo_project demo_pyproject true false = Ok out
    /\ fs (snd (convert demo_format demo_new_project demo_backup_path demo_load demo_dumps
                  demo_path true false demo_world)) (pyproject_toml demo_path)
       = Some (File (demo_dumps out)).
Proof.
  destruct (metadata_holds_converted_document demo_format demo_new_project demo_backup_path
              demo_load demo_dumps demo_path true false demo_world _ demo_project
              demo_run_returns eq_refl eq_refl)
    as (text & pyproject & out & _ & Hl & Hd & Hf).
  injection Hl as <-. exists out. split; [exact Hd|exact Hf].
Defined.

Lemma lock_file_is_gone_witness :
  fs demo_world (child demo_path "poetry.lock") = Some (File "")
  /\ fs (snd (convert demo_format demo_new_project demo_backup_path demo_load demo_dumps
                demo_path true false demo_world)) (child demo_path "poetry.lock") = None.
Proof.
  split; [reflexivity|].
  exact (lock_file_is_gone demo_format demo_new_project demo_backup_path
           demo_load demo_dumps demo_path true false demo_world _ demo_run_returns).
Defined.

Lemma backup_holds_original_tree_witness :
  fs (snd (convert demo_format demo_new_project demo_backup_path demo_load demo_dumps
             demo_path true false demo_world)) ["work"; "demo.bak"; "poetry.lock"]
  = Some (File "").
Proof.
  exact (backup_holds_original_tree demo_format demo_new_project demo_backup_path
           demo_load demo_dumps demo_path true false demo_world _ demo_project
           demo_run_returns eq_refl eq_refl ["poetry.lock"]).
Defined.

Lemma nothing_outside_is_touched_witness :
  fs (snd (convert demo_format demo_new_project demo_backup_path demo_load demo_dumps
             demo_path true false demo_world)) ["work"; "other"; "notes.txt"]
  = fs demo_world ["work"; "other"; "notes.txt"].
Proof.
  exact (nothing_outside_is_touched demo_format demo_new_project demo_backup_path
           demo_load demo_dumps demo_path true false demo_world _ demo_project
           demo_run_returns eq_refl eq_refl ["work"; "other"; "notes.txt"]
           eq_refl eq_refl eq_refl).
Defined.

(** ** An exception while the document is built *)

Section RaisingRun.

Context {VersionConstraint : Type}.
Variable format_python_constraint : VersionConstraint -> string.
Variable new_poetry_project : FS -> Path -> bool -> res (PoetryProject VersionConstraint).
Variable get_next_backup_path : FS -> Path -> Path.
Variable tomlkit_load : string -> res Document.
Variable tomlkit_dumps : Document -> string.

(** X19.  When building the new document raises, [convert] raises the
    same exception: it has called the constructor and at most read the
    metadata file; no backup is made, nothing is printed and the file
    system is as it was. *)
Theorem document_error_stops_before_backup (project_path : Path)
    (ensure_src virtual_project : bool) (w : World)
    (poetry_project : PoetryProject VersionConstraint) (text : string)
    (pyproject : Document) (e : exn) :
  new_poetry_project (fs w) project_path ensure_src = Ok poetry_project ->
  read_text (pyproject_toml project_path) (fs w) = Ok text ->
  tomlkit_load text = Ok pyproject ->
  convert_document format_python_constraint poetry_project pyproject
    ensure_src virtual_project = Raise e ->
  let run := convert format_python_constraint new_poetry_project get_next_backup_path
               tomlkit_load tomlkit_dumps project_path ensure_src virtual_project w in
  fst run = Raise e
  /\ fs (snd run) = fs w
  /\ (trace (snd run) = (trace w ++ [EvPoetryProject project_path ensure_src])%list
      \/ trace (snd run)
         = (trace w ++ [EvPoetryProject project_path ensure_src;
                        EvRead (pyproject_toml project_path)])%list).
Proof.
  intros Hp Hr Hl Hd run. subst run.
  unfold convert, prepare, open_read, bindM, emit, observe, lift. cbn [fs trace].
  rewrite Hp. unfold convert_document in Hd.
  destruct (build_sections format_python_constraint poetry_project virtual_project)
    as [[s urls_sec]|e'|]; simpl in Hd; try discriminate.
  - rewrite Hr, Hl. cbn [fst snd]. rewrite Hd. cbn [fst snd fs trace].
    repeat split; auto. right. now rewrite <- app_assoc.
  - injection Hd as ->. cbn [fst snd fs trace]. repeat split; auto.
Qed.

End RaisingRun.

Lemma document_error_stops_before_backup_witness :
  let run := convert demo_format
               (fun _ _ _ =>
                  Ok {| project_name := "demo";
                        poetry := [("version", String_ "0.1.0");
                                   ("description", String_ "No authors")];
                        dependencies := []; module_name := "demo";
                        module_path := ["work"; "demo"; "demo"] |})
               demo_backup_path demo_load demo_dumps demo_path true false demo_world in
  fst run = Raise (KeyError "authors")
  /\ fs (snd run) = fs demo_world.
Proof.
  destruct (document_error_stops_before_backup demo_format
              (fun _ _ _ =>
                 Ok {| project_name := "demo";
                       poetry := [("version", String_ "0.1.0");
                                  ("description", String_ "No authors")];
                       dependencies := []; module_name := "demo";
                       module_path := ["work"; "demo"; "demo"] |})
              demo_backup_path demo_load demo_dumps demo_path true false demo_world
              _ _ _ (KeyError "authors") eq_refl eq_refl eq_refl eq_refl)
    as (H1 & H2 & _).
  split; [exact H1|exact H2].
Defined.
